(** * sat_weather: the forecast pipeline of [streamlit_app.py]

    A shallow embedding of the Streamlit weather dashboard: the time and
    unit helpers, the two API fetches, the current-conditions renderer, the
    forecast grouping pipeline, the loader of the city list and [main],
    followed by the properties the specification states about them and
    further properties read off the code.

    Conventions.
    - A Python call that may raise returns a [result]: [Ok v] or
      [Raise e].
    - Python [None] is [None] of an [option].
    - Python floats are the kernel's binary64 floats ([PrimFloat.float]),
      so [/] below is IEEE 754 division as CPython performs it.
    - Streamlit calls and HTTP requests are recorded, in program order, in a
      trace of [event]s. *)

From Stdlib Require Import ZArith Lia ZifyNat Floats Ascii String.
From stdpp Require Import base list sorting strings gmap pretty.

Set Warnings "-inexact-float,-clear-no-such-hyp".

Local Open Scope string_scope.
Local Open Scope Z_scope.

(** ** Python results and exceptions *)

Inductive exn :=
| KeyError (key : string)
| TypeError
| ValueError
| OverflowError
| IndexError
| FileNotFoundError.

Inductive result (A : Type) :=
| Ok (value : A)
| Raise (e : exn).
Arguments Ok {A} value.
Arguments Raise {A} e.

#[global] Instance result_ret : MRet result := fun A x => Ok x.
#[global] Instance result_bind : MBind result := fun A B f r =>
  match r with
  | Ok x => f x
  | Raise e => Raise e
  end.
#[global] Instance result_fmap : FMap result := fun A B f r =>
  match r with
  | Ok x => Ok (f x)
  | Raise e => Raise e
  end.

(** ** Numbers as JSON delivers them: Python [int] or [float] *)

Inductive pynum :=
| PyInt (z : Z)
| PyFloat (f : float).

(** [float(n)] for a Python int: correctly rounded to binary64,
    [OverflowError] when the rounded value is not finite. *)
Definition float_of_int (z : Z) : result float :=
  match binary_normalize prec emax z 0 false with
  | S754_infinity _ => Raise OverflowError
  | sf => Ok (SF2Prim sf)
  end.

Definition to_float (x : pynum) : result float :=
  match x with
  | PyInt z => float_of_int z
  | PyFloat f => Ok f
  end.

(** The integer nearest to [m * 2^e] ([m > 0]), ties going to the even one. *)
Definition round_half_even (m e : Z) : Z :=
  if 0 <=? e then m * 2 ^ e
  else
    let d := 2 ^ (- e) in
    let q := m / d in
    match 2 * (m mod d) ?= d with
    | Lt => q
    | Gt => q + 1
    | Eq => if Z.even q then q else q + 1
    end.

(** Python's one-argument [round] on a float: the nearest integer, ties to
    even; [ValueError] on NaN and [OverflowError] on an infinity. *)
Definition py_round (x : float) : result Z :=
  match Prim2SF x with
  | S754_nan => Raise ValueError
  | S754_infinity _ => Raise OverflowError
  | S754_zero _ => Ok 0
  | S754_finite s m e => Ok (cond_Zopp s (round_half_even (Z.pos m) e))
  end.

(** The floats [round] accepts: zeros and finite non-zero values. *)
Definition finite_sf (x : spec_float) : bool :=
  match x with
  | S754_zero _ | S754_finite _ _ _ => true
  | _ => false
  end.
Definition finite_float (x : float) : bool := finite_sf (Prim2SF x).

(** 22.5 as sign, mantissa and exponent. *)
Definition sector_sf : spec_float := S754_finite false 6333186975989760 (-48).

(** ** [get_wind_direction] *)

Definition directions : list string :=
  ["N"; "NNE"; "NE"; "ENE"; "E"; "ESE"; "SE"; "SSE";
   "S"; "SSW"; "SW"; "WSW"; "W"; "WNW"; "NW"; "NNW"].

(** [directions[index]] for a non-negative index. *)
Definition getitem {A} (l : list A) (index : Z) : result A :=
  match l !! Z.to_nat index with
  | Some x => Ok x
  | None => Raise IndexError
  end.

(** [360. / len(directions)], evaluated in binary64: exactly 22.5. *)
Definition sector : float := (360 / 16)%float.

Definition wind_index (deg : pynum) : result Z :=
  match to_float deg with
  | Raise e => Raise e
  | Ok d =>
      match py_round (d / sector)%float with
      | Raise e => Raise e
      | Ok r => Ok (r `mod` Z.of_nat (length directions))
      end
  end.

Definition get_wind_direction (deg : option pynum) : result string :=
  match deg with
  | None => Ok "N/A"
  | Some d =>
      match wind_index d with
      | Raise e => Raise e
      | Ok index => getitem directions index
      end
  end.

(** ** The [datetime] library, as far as the program uses it

    A naive [datetime.datetime] is modelled by the instant it denotes, in
    whole seconds from 1970-01-01 00:00:00 (the timestamps of the API are
    integers, so the microsecond field stays 0).  A [datetime.date] is the
    triple the library stores.  The proleptic Gregorian arithmetic follows
    CPython's reference implementation ([_ymd2ord], [_ord2ymd]). *)

Module datetime.

Record date := mkdate { year : Z; month : Z; day : Z }.

#[global] Instance date_eq_dec : EqDecision date.
Proof. solve_decision. Defined.

Record t := mk { seconds : Z }.

#[global] Instance t_eq_dec : EqDecision t.
Proof. solve_decision. Defined.

Definition MINYEAR : Z := 1.
Definition MAXYEAR : Z := 9999.

Definition DAYS_IN_MONTH : list Z :=
  [-1; 31; 28; 31; 30; 31; 30; 31; 31; 30; 31; 30; 31].
Definition DAYS_BEFORE_MONTH : list Z :=
  [-1; 0; 31; 59; 90; 120; 151; 181; 212; 243; 273; 304; 334].

Definition table (l : list Z) (i : Z) : Z := default (-1) (l !! Z.to_nat i).

Definition is_leap (y : Z) : bool :=
  (y `mod` 4 =? 0) && (negb (y `mod` 100 =? 0) || (y `mod` 400 =? 0)).

Definition days_before_year (y : Z) : Z :=
  let y := y - 1 in y * 365 + y `div` 4 - y `div` 100 + y `div` 400.

Definition days_in_month (y m : Z) : Z :=
  if (m =? 2) && is_leap y then 29 else table DAYS_IN_MONTH m.

Definition days_before_month (y m : Z) : Z :=
  table DAYS_BEFORE_MONTH m + (if (2 <? m) && is_leap y then 1 else 0).

Definition ymd2ord (y m d : Z) : Z :=
  days_before_year y + days_before_month y m + d.

Definition DI400Y : Z := 146097.
Definition DI100Y : Z := 36524.
Definition DI4Y : Z := 1461.

(** The month and day of day [n] (from 0) of a year. *)
Definition month_day (leapyear : bool) (n : Z) : Z * Z :=
  let m := Z.shiftr (n + 50) 5 in
  let preceding := table DAYS_BEFORE_MONTH m + (if (2 <? m) && leapyear then 1 else 0) in
  if n <? preceding then
    let m := m - 1 in
    let preceding :=
      preceding - (table DAYS_IN_MONTH m + (if (m =? 2) && leapyear then 1 else 0)) in
    (m, n - preceding + 1)
  else (m, n - preceding + 1).

(** What [_ord2ymd] asserts of the month and day it found. *)
Definition month_day_ok (leapyear : bool) (n : Z) : bool :=
  let '(m, d) := month_day leapyear n in
  (1 <=? m) && (m <=? 12) && (1 <=? d)
  && (d <=? if (m =? 2) && leapyear then 29 else table DAYS_IN_MONTH m).

(** ... and that the day found is day [n] of the year again. *)
Definition month_day_inverse (leapyear : bool) (n : Z) : bool :=
  let '(m, d) := month_day leapyear n in
  table DAYS_BEFORE_MONTH m + (if (2 <? m) && leapyear then 1 else 0) + d =? n + 1.

Definition ord2ymd (n : Z) : date :=
  let n := n - 1 in
  let n400 := n `div` DI400Y in
  let n := n `mod` DI400Y in
  let n100 := n `div` DI100Y in
  let n := n `mod` DI100Y in
  let n4 := n `div` DI4Y in
  let n := n `mod` DI4Y in
  let n1 := n `div` 365 in
  let n := n `mod` 365 in
  let y := n400 * 400 + 1 + n100 * 100 + n4 * 4 + n1 in
  if (n1 =? 4) || (n100 =? 4) then mkdate (y - 1) 12 31
  else
    let leapyear := (n1 =? 3) && (negb (n4 =? 24) || (n100 =? 3)) in
    let '(m, d) := month_day leapyear n in
    mkdate y m d.

(** Ordinal of 1970-01-01 and of 9999-12-31 (0001-01-01 is day 1). *)
Definition EPOCH_ORDINAL : Z := 719163.
Definition MAXORDINAL : Z := 3652059.

Definition toordinal (dt : t) : Z := seconds dt `div` 86400 + EPOCH_ORDINAL.

(** The instants a [datetime] can hold: 0001-01-01 00:00:00 to
    9999-12-31 23:59:59. *)
Definition representable (s : Z) : bool :=
  (1 <=? s `div` 86400 + EPOCH_ORDINAL) && (s `div` 86400 + EPOCH_ORDINAL <=? MAXORDINAL).

(** [datetime.utcfromtimestamp(ts)] for an integer [ts].  Out of the year
    range CPython raises [ValueError] ("year ... is out of range"); for
    magnitudes that do not even fit the platform's [time_t] or [struct tm] it
    is [OverflowError] or [OSError] instead, which the model does not tell
    apart. *)
Definition utcfromtimestamp (ts : Z) : result t :=
  if representable ts then Ok (mk ts) else Raise ValueError.

(** [datetime.timedelta(seconds=s)] for an integer [s]: the duration in
    seconds; the library only holds up to 999999999 days either way. *)
Definition timedelta (s : Z) : result Z :=
  if (-999999999 <=? s `div` 86400) && (s `div` 86400 <=? 999999999)
  then Ok s else Raise OverflowError.

(** [dt + delta]. *)
Definition add (dt : t) (delta : Z) : result t :=
  if representable (seconds dt + delta) then Ok (mk (seconds dt + delta))
  else Raise OverflowError.

(** [dt.date()]. *)
Definition date_of (dt : t) : date := ord2ymd (toordinal dt).

Definition hour (dt : t) : Z := (seconds dt `mod` 86400) `div` 3600.
Definition minute (dt : t) : Z := (seconds dt `mod` 3600) `div` 60.
Definition second (dt : t) : Z := seconds dt `mod` 60.

(** The constructor [datetime(y, m, d)] (midnight), with its checks. *)
Definition valid_date (d : date) : bool :=
  (MINYEAR <=? year d) && (year d <=? MAXYEAR)
  && (1 <=? month d) && (month d <=? 12)
  && (1 <=? day d) && (day d <=? days_in_month (year d) (month d)).

Definition of_date (d : date) : result t :=
  if valid_date d
  then Ok (mk ((ymd2ord (year d) (month d) (day d) - EPOCH_ORDINAL) * 86400))
  else Raise ValueError.

(** [weekday()]: Monday is 0. *)
Definition date_weekday (d : date) : Z :=
  (ymd2ord (year d) (month d) (day d) + 6) `mod` 7.
Definition weekday (dt : t) : Z := (toordinal dt + 6) `mod` 7.

(** *** Formatting and parsing (C locale) *)

Definition digit (v : Z) : ascii := ascii_of_nat (48 + Z.to_nat v).

Definition digit_value (c : ascii) : option Z :=
  let n := Z.of_nat (nat_of_ascii c) in
  if (48 <=? n) && (n <=? 57) then Some (n - 48) else None.

(** [%02d] and [%04d] of a field of a date or time: the fields are below 100
    and 10000, so these are all the digits. *)
Definition fmt2 (v : Z) : string :=
  String (digit (v `div` 10)) (String (digit (v `mod` 10)) "").
Definition fmt4 (v : Z) : string :=
  String (digit (v `div` 1000)) (String (digit ((v `div` 100) `mod` 10))
    (String (digit ((v `div` 10) `mod` 10)) (String (digit (v `mod` 10)) ""))).

Definition month_abbr : list string :=
  ["Jan"; "Feb"; "Mar"; "Apr"; "May"; "Jun"; "Jul"; "Aug"; "Sep"; "Oct"; "Nov"; "Dec"].
Definition day_name : list string :=
  ["Monday"; "Tuesday"; "Wednesday"; "Thursday"; "Friday"; "Saturday"; "Sunday"].

(** [str(date)], that is [date.isoformat()]: YYYY-MM-DD. *)
Definition isoformat (d : date) : string :=
  fmt4 (year d) +:+ "-" +:+ fmt2 (month d) +:+ "-" +:+ fmt2 (day d).

(** [date.strftime('%b %d')]. *)
Definition strftime_b_d (d : date) : string :=
  default "" (month_abbr !! Z.to_nat (month d - 1)) +:+ " " +:+ fmt2 (day d).

(** [dt.strftime('%H:%M')], [dt.strftime('%H:%M:%S')] and [dt.strftime('%A')]. *)
Definition strftime_H_M (dt : t) : string :=
  fmt2 (hour dt) +:+ ":" +:+ fmt2 (minute dt).
Definition strftime_H_M_S (dt : t) : string :=
  fmt2 (hour dt) +:+ ":" +:+ fmt2 (minute dt) +:+ ":" +:+ fmt2 (second dt).
Definition strftime_A (dt : t) : string :=
  default "" (day_name !! Z.to_nat (weekday dt)).

(** The weekday name of a date, [date.strftime('%A')]. *)
Definition date_strftime_A (d : date) : string :=
  default "" (day_name !! Z.to_nat (date_weekday d)).

(** [datetime.strptime(s, '%Y-%m-%d')] on the zero-padded shape that
    [isoformat] writes (four digits, two, two).  CPython's pattern also takes
    one-digit months and days; the program only ever parses [str(date)], so
    other shapes are rejected here the way a mismatch is: [ValueError]. *)
Definition strptime_Y_m_d (s : string) : result t :=
  match s with
  | String y3 (String y2 (String y1 (String y0 (String "-"
      (String m1 (String m0 (String "-" (String d1 (String d0 ""))))))))) =>
      match digit_value y3, digit_value y2, digit_value y1, digit_value y0,
            digit_value m1, digit_value m0, digit_value d1, digit_value d0 with
      | Some a, Some b, Some c, Some d, Some e, Some f, Some g, Some h =>
          of_date (mkdate (1000 * a + 100 * b + 10 * c + d) (10 * e + f) (10 * g + h))
      | _, _, _, _, _, _, _, _ => Raise ValueError
      end
  | _ => Raise ValueError
  end.

End datetime.

(** ** Configuration and constants *)

Definition PLACEHOLDER : string := "PLACEHOLDER_FOR_SECRETS_NOT_LOADED".

(** [st.secrets] reads [.streamlit/secrets.toml]: [None] below when there
    is no such file, else the dictionary the file holds (of strings: other
    values, and a file that is not TOML, are outside the model).
    Subscripting it raises a [FileNotFoundError] (a subclass of it, in recent
    Streamlit) when the file is missing and [KeyError] when the file has no
    such key.  The module-level [try] catches [KeyError] only and falls back
    to the placeholder; the other exception leaves the module. *)
Definition st_secrets_getitem (secrets : option (gmap string string)) (key : string)
  : result string :=
  match secrets with
  | None => Raise FileNotFoundError
  | Some file =>
      match file !! key with
      | Some value => Ok value
      | None => Raise (KeyError key)
      end
  end.

Definition OWM_API_KEY (secrets : option (gmap string string)) : result string :=
  match st_secrets_getitem secrets "openweathermap_api_key" with
  | Ok value => Ok value
  | Raise (KeyError _) => Ok PLACEHOLDER
  | Raise e => Raise e
  end.

Definition CURRENT_WEATHER_URL : string := "http://api.openweathermap.org/data/2.5/weather".
Definition FORECAST_URL : string := "http://api.openweathermap.org/data/2.5/forecast".
Definition UNITS : string := "metric".

Definition WEATHER_EMOJIS : gmap string string :=
  list_to_map
    [("Clear", "☀️ Clear Sky"); ("Clouds", "☁️ Cloudy"); ("Rain", "🌧️ Rain");
     ("Drizzle", "💧 Drizzle"); ("Thunderstorm", "⛈️ Thunderstorm"); ("Snow", "❄️ Snow");
     ("Mist", "🌫️ Mist/Fog"); ("Smoke", "💨 Smoke"); ("Haze", "🌁 Haze");
     ("Dust", "🏜️ Dust"); ("Fog", "🌫️ Mist/Fog"); ("Sand", "🏖️ Sand/Dust");
     ("Ash", "🌋 Ash"); ("Squall", "🌬️ Squalls"); ("Tornado", "🌪️ Tornado")].

Definition BASE_CARD_CSS : string :=
  "padding: 15px; border-radius: 10px; box-shadow: 0 4px 8px rgba(0, 0, 0, 0.2); background-size: cover; background-position: center;".

Definition CARD_STYLES : gmap string string :=
  list_to_map
    [("Clear", BASE_CARD_CSS +:+ " background-image: linear-gradient(to top right, #ADD8E6, #FFFACD); border-left: 5px solid #FFD700; color: #333333;");
     ("Clouds", BASE_CARD_CSS +:+ " background-color: #F0F8FF; border-left: 5px solid #A9A9A9; color: #333333;");
     ("Drizzle", BASE_CARD_CSS +:+ " background-color: #E0EFFF; border-left: 5px solid #6495ED; color: #333333;");
     ("Snow", BASE_CARD_CSS +:+ " background-color: #FFFFFF; border-left: 5px solid #ADD8E6; color: #333333;");
     ("Mist", BASE_CARD_CSS +:+ " background-color: #E0EEE0; border-left: 5px solid #808080; color: #333333;");
     ("Haze", BASE_CARD_CSS +:+ " background-color: #FAEBD7; border-left: 5px solid #9932CC; color: #333333;");
     ("Rain", BASE_CARD_CSS +:+ " background-image: url('images/rain_bg.jpg'); background-color: #4169E1; border-left: 5px solid #4169E1; color: #FFFFFF;");
     ("Thunderstorm", BASE_CARD_CSS +:+ " background-color: #333333; border-left: 5px solid #800080; color: #FFFFFF;");
     ("Default", BASE_CARD_CSS +:+ " background-color: #F5F5F5; border-left: 5px solid #696969; color: #333333;")].

(** [d.get(key, fallback)] on a dictionary of strings. *)
Definition dict_get (d : gmap string string) (key fallback : string) : string :=
  default fallback (d !! key).

(** ** [convert_timestamp_to_local] *)

Definition convert_timestamp_to_local (timestamp_utc timezone_offset : option Z)
  : result (option datetime.t) :=
  match timestamp_utc, timezone_offset with
  | Some ts, Some tz =>
      dt_utc ← datetime.utcfromtimestamp ts;
      offset ← datetime.timedelta tz;
      dt_local ← datetime.add dt_utc offset;
      mret (Some dt_local)
  | _, _ => mret None
  end.
Arguments convert_timestamp_to_local : simpl never.

(** ** API payloads

    The deserialised JSON bodies, with the keys the program reads.  Every
    key may be absent ([None]); [payload.get(key)] is the field itself and
    [payload.get(key, default)] is [default default field]. *)

Record main_block := {
  temp : option pynum;
  feels_like : option pynum;
  temp_min : option pynum;
  temp_max : option pynum;
  pressure : option pynum;
  humidity : option pynum
}.

Record weather_entry := {
  weather_main : option string;
  weather_description : option string
}.

Record wind_block := {
  wind_speed : option pynum;
  wind_deg : option pynum;
  wind_gust : option pynum
}.

Record sys_block := {
  sys_country : option string;
  sys_sunrise : option Z;
  sys_sunset : option Z
}.

Record current_payload := {
  cur_name : option string;
  cur_sys : option sys_block;
  cur_timezone : option Z;
  cur_weather : option (list weather_entry);
  cur_main : option main_block;
  cur_visibility : option pynum;
  cur_wind : option wind_block;
  cur_clouds_all : option (option pynum);
  cur_rain_1h : option (option pynum);
  cur_snow_1h : option (option pynum)
}.

Record forecast_item := {
  item_dt : option Z;
  item_main : option main_block;
  item_weather : option (list weather_entry);
  item_wind : option wind_block
}.

Record forecast_payload := {
  fc_list : option (list forecast_item);
  fc_cnt : option Z
}.

(** The empty dictionaries the program passes as defaults. *)
Definition empty_main : main_block := Build_main_block None None None None None None.
Definition empty_weather : weather_entry := Build_weather_entry None None.
Definition empty_wind : wind_block := Build_wind_block None None None.
Definition empty_sys : sys_block := Build_sys_block None None None.

(** Truth value of a payload in [if payload:]: a dictionary is true when it
    has a key. *)
Definition current_truthy (p : current_payload) : bool :=
  bool_decide (is_Some (cur_name p)) || bool_decide (is_Some (cur_sys p))
  || bool_decide (is_Some (cur_timezone p)) || bool_decide (is_Some (cur_weather p))
  || bool_decide (is_Some (cur_main p)) || bool_decide (is_Some (cur_visibility p))
  || bool_decide (is_Some (cur_wind p)) || bool_decide (is_Some (cur_clouds_all p))
  || bool_decide (is_Some (cur_rain_1h p)) || bool_decide (is_Some (cur_snow_1h p)).

Definition forecast_truthy (p : forecast_payload) : bool :=
  bool_decide (is_Some (fc_list p)) || bool_decide (is_Some (fc_cnt p)).

(** ** Effects: the user interface and the network

    [requests.get] is answered by the outside world: either the transport
    fails (a [RequestException]) or a response comes back with a status code,
    the text of the [HTTPError] that [raise_for_status] would build from it,
    and a body.  [response.json()] returns the value the body encodes, or
    raises a [JSONDecodeError] (with its text) when the body is not JSON. *)

Inductive response_body (A : Type) :=
| Json (value : A)
| NotJson (msg : string).
Arguments Json {A} value.
Arguments NotJson {A} msg.

Inductive response (A : Type) :=
| TransportFailure (msg : string)
| Response (status_code : Z) (error_text : string) (content : response_body A).
Arguments TransportFailure {A} msg.
Arguments Response {A} status_code error_text content.

(** The outside world of one script run: the secrets file and the two
    endpoints of the API. *)
Record world := {
  secrets : option (gmap string string);
  current_endpoint : list (string * string) → response current_payload;
  forecast_endpoint : list (string * string) → response forecast_payload
}.

(** One hourly card: the values substituted into the HTML template. *)
Record card := {
  card_style : string;
  card_time : string;
  card_condition : string;
  card_temp : string;
  card_feels : string;
  card_humidity : string;
  card_wind : string
}.

Inductive event :=
| http_get (url : string) (params : list (string * string))
| st_error (msg : string)
| st_warning (msg : string)
| st_info (msg : string)
| st_markdown (body : string)
| st_header (body : string)
| st_metric (label value : string)
| st_divider
| st_columns (n : nat)
| st_tabs (titles : list string)
| st_card (tab column : nat) (c : card).

(** A run of effectful code: what it did, in order, and how it ended. *)
Record App (A : Type) := Run { trace : list event; outcome : result A }.
Arguments Run {A} trace outcome.
Arguments trace {A} _.
Arguments outcome {A} _.

#[global] Instance App_ret : MRet App := fun A x => Run [] (Ok x).
#[global] Instance App_bind : MBind App := fun A B f m =>
  match outcome m with
  | Ok x => let rest := f x in Run (trace m ++ trace rest) (outcome rest)
  | Raise e => Run (trace m) (Raise e)
  end.

Definition emit (e : event) : App unit := Run [e] (Ok ()).
Definition lift {A} (r : result A) : App A := Run [] r.

(** Exceptions of [requests]: they are caught where they arise, so they are
    kept apart from the Python exceptions that escape.  A [JSONDecodeError]
    of [response.json()] is a [RequestException] that is not an
    [HTTPError]. *)
Inductive request_error :=
| HTTPError (status_code : Z) (text : string)
| RequestException (text : string).

(** The body of the [try] in both fetches:
    [response = requests.get(url, params=params)],
    [response.raise_for_status()], [return response.json()]. *)
Definition requests_get {A} (endpoint : list (string * string) → response A)
  (url : string) (params : list (string * string))
  : App (request_error + (Z * A)) :=
  _ ← emit (http_get url params);
  mret (match endpoint params with
        | TransportFailure msg => inl (RequestException msg)
        | Response status text content =>
            (* response.raise_for_status() *)
            if (400 <=? status) && (status <? 600) then inl (HTTPError status text)
            else
              (* response.json() *)
              match content with
              | Json value => inr (status, value)
              | NotJson msg => inl (RequestException msg)
              end
        end).

(** The functions below read the module-level name [OWM_API_KEY]; it is
    bound when they run, so they take its value, [key], as a parameter. *)

(** [handle_api_error] *)
Definition handle_api_error (key : string) : App bool :=
  if decide (key = PLACEHOLDER) then
    _ ← emit (st_error "⚠️ **Error: OpenWeatherMap API key not found.**");
    _ ← emit (st_error "Please create a `.streamlit/secrets.toml` file and add the `openweathermap_api_key`.");
    mret true
  else mret false.

Definition query_params (key : string) (city_name country_code : string)
  : list (string * string) :=
  [("q", city_name +:+ "," +:+ country_code); ("appid", key); ("units", UNITS)].

(** [get_current_weather_data] *)
Definition get_current_weather_data (key : string) (w : world)
  (city_name country_code : string) : App (option current_payload) :=
  missing ← handle_api_error key;
  if missing : bool then mret None
  else
    r ← requests_get (current_endpoint w) CURRENT_WEATHER_URL
          (query_params key city_name country_code);
    match r with
    | inr (_, data) => mret (Some data)
    | inl (HTTPError status err) =>
        _ ← (if status =? 404
             then emit (st_error ("City '" +:+ city_name +:+
                    "' not found for current weather. Please select another city."))
             else emit (st_error ("HTTP Error fetching current weather: " +:+ err)));
        mret None
    | inl (RequestException e) =>
        _ ← emit (st_error ("Error connecting to OWM API for current weather: " +:+ e));
        mret None
    end.

(** [get_forecast_data] *)
Definition get_forecast_data (key : string) (w : world)
  (city_name country_code : string) : App (option forecast_payload) :=
  missing ← handle_api_error key;
  if missing : bool then mret None
  else
    r ← requests_get (forecast_endpoint w) FORECAST_URL
          (query_params key city_name country_code);
    match r with
    | inr (_, data) => mret (Some data)
    | inl (HTTPError status err) =>
        _ ← (if status =? 404
             then emit (st_warning "Forecast data not available for this specific city.")
             else emit (st_error ("HTTP Error fetching forecast: " +:+ err)));
        mret None
    | inl (RequestException e) =>
        _ ← emit (st_error ("Error connecting to OWM API for forecast: " +:+ e));
        mret None
    end.

(** ** Small pieces of Python the renderers use *)

(** [str.upper], [str.lower] and [str.capitalize] on the ASCII letters; the
    bytes of other characters are left as they are. *)
Definition upper_char (c : ascii) : ascii :=
  let n := nat_of_ascii c in
  if (97 <=? n)%nat && (n <=? 122)%nat then ascii_of_nat (n - 32) else c.
Definition lower_char (c : ascii) : ascii :=
  let n := nat_of_ascii c in
  if (65 <=? n)%nat && (n <=? 90)%nat then ascii_of_nat (n + 32) else c.

Fixpoint map_string (f : ascii → ascii) (s : string) : string :=
  match s with
  | EmptyString => EmptyString
  | String c s' => String (f c) (map_string f s')
  end.

Definition upper (s : string) : string := map_string upper_char s.
Definition capitalize (s : string) : string :=
  match s with
  | EmptyString => EmptyString
  | String c s' => String (upper_char c) (map_string lower_char s')
  end.

(** [a + b] on numbers: exact on two ints; with a float operand the other
    one is converted to a float first. *)
Definition py_add (a b : pynum) : result pynum :=
  match a, b with
  | PyInt x, PyInt y => Ok (PyInt (x + y))
  | _, _ => x ← to_float a; y ← to_float b; mret (PyFloat (x + y)%float)
  end.

(** [a / b] on two ints, [b] positive: CPython rounds the exact quotient
    once to binary64 (the operands are not converted first) and raises
    [OverflowError] when the result is too large for a float. *)
Definition int_truediv (a : Z) (b : positive) : result float :=
  let quotient (negative : bool) (m : positive) :=
    match SFdiv prec emax (S754_finite negative m 0) (S754_finite false b 0) with
    | S754_infinity _ => Raise OverflowError
    | sf => Ok (SF2Prim sf)
    end in
  match a with
  | 0 => Ok 0%float
  | Z.pos m => quotient false m
  | Z.neg m => quotient true m
  end.

(** [a / 1000] on a number: a float. *)
Definition py_div_1000 (a : pynum) : result float :=
  match a with
  | PyInt z => int_truediv z 1000
  | PyFloat x => Ok (x / 1000)%float
  end.

(** [for x in l: body(x)] *)
Fixpoint for_each {A} (l : list A) (body : A → App unit) : App unit :=
  match l with
  | [] => mret ()
  | x :: rest => _ ← body x; for_each rest body
  end.

(** [enumerate(l)] and [range(a, b)] *)
Definition enumerate {A} (l : list A) : list (nat * A) := zip (seq 0 (length l)) l.
Definition range (a b : nat) : list nat := seq a (b - a).

(** [df.iloc[i]] for a non-negative position. *)
Definition iloc {A} (df : list A) (i : nat) : result A :=
  match df !! i with
  | Some x => Ok x
  | None => Raise IndexError
  end.

(** ** The forecast table *)

Record row := {
  Time : string;
  MainCondition : string;
  ConditionEmoji : string;
  ConditionDescription : string;
  Temp : pynum;
  FeelsLike : pynum;
  Humidity : pynum;
  WindSpeed : pynum;
  WindDeg : pynum;
  FilterDate : datetime.date
}.

Definition np_nan : pynum := PyFloat nan.

(** [item.get('weather', [{}])[0]] *)
Definition first_weather (w : option (list weather_entry)) : result weather_entry :=
  match default [empty_weather] w with
  | x :: _ => Ok x
  | [] => Raise IndexError
  end.

(** The body of the loop over [forecast_list], after the [continue]. *)
Definition forecast_row (item : forecast_item) (dt_local : datetime.t) : result row :=
  let main := default empty_main (item_main item) in
  weather ← first_weather (item_weather item);
  let wind := default empty_wind (item_wind item) in
  let main_weather_group := default "N/A" (weather_main weather) in
  mret {| Time := datetime.strftime_H_M dt_local;
          MainCondition := main_weather_group;
          ConditionEmoji := dict_get WEATHER_EMOJIS main_weather_group "❓";
          ConditionDescription := capitalize (default "N/A" (weather_description weather));
          Temp := default np_nan (temp main);
          FeelsLike := default np_nan (feels_like main);
          Humidity := default np_nan (humidity main);
          WindSpeed := default np_nan (wind_speed wind);
          WindDeg := default np_nan (wind_deg wind);
          FilterDate := datetime.date_of dt_local |}.

(** The loop that fills [forecast_rows]. *)
Fixpoint forecast_rows (forecast_list : list forecast_item) (timezone_offset : option Z)
  : result (list row) :=
  match forecast_list with
  | [] => mret []
  | item :: rest =>
      dt_local ← convert_timestamp_to_local (item_dt item) timezone_offset;
      match dt_local with
      | None => forecast_rows rest timezone_offset
      | Some dt =>
          r ← forecast_row item dt;
          rows ← forecast_rows rest timezone_offset;
          mret (r :: rows)
      end
  end.

(** [pd.DataFrame(forecast_rows)['FilterDate']]: a frame built from an empty
    list has no columns, so the lookup raises [KeyError]. *)
Definition column_FilterDate (df_forecast : list row) : result (list datetime.date) :=
  match df_forecast with
  | [] => Raise (KeyError "FilterDate")
  | _ => Ok (map FilterDate df_forecast)
  end.

(** [Series.unique()]: the distinct values in order of first appearance
    (a scan that remembers what it has seen). *)
Fixpoint unique_from (seen l : list datetime.date) : list datetime.date :=
  match l with
  | [] => []
  | x :: rest =>
      if decide (x ∈ seen) then unique_from seen rest
      else x :: unique_from (x :: seen) rest
  end.
Definition unique (l : list datetime.date) : list datetime.date := unique_from [] l.
Arguments unique : simpl never.

(** The title of tab [i]. *)
Definition tab_title (i : nat) (date : datetime.date) : result string :=
  title ← match i with
          | 0%nat => Ok "Today"
          | 1%nat => Ok "Tomorrow"
          | _ => dt ← datetime.strptime_Y_m_d (datetime.isoformat date);
                 mret (datetime.strftime_A dt)
          end;
  mret (title +:+ " (" +:+ datetime.strftime_b_d date +:+ ")").

Fixpoint tab_titles_from (i : nat) (unique_dates : list datetime.date)
  : result (list string) :=
  match unique_dates with
  | [] => mret []
  | date :: rest =>
      t ← tab_title i date;
      ts ← tab_titles_from (S i) rest;
      mret (t :: ts)
  end.
Definition tab_titles (unique_dates : list datetime.date) : result (list string) :=
  tab_titles_from 0 unique_dates.

(** [df_forecast[df_forecast['FilterDate'] == date]] *)
Definition df_day (df_forecast : list row) (date : datetime.date) : list row :=
  filter (λ r, FilterDate r = date) df_forecast.
Arguments df_day : simpl never.

Definition cols_per_row : nat := 4.

Definition num_rows (num_cards : nat) : nat :=
  ((num_cards + cols_per_row - 1) `div` cols_per_row)%nat.

(** The positions of the cards of row [row_idx]. *)
Definition card_positions (num_cards row_idx : nat) : list nat :=
  let start_card_index := (row_idx * cols_per_row)%nat in
  let end_card_index := ((start_card_index + cols_per_row) `min` num_cards)%nat in
  range start_card_index end_card_index.

Fixpoint iloc_all {A} (df : list A) (positions : list nat) : result (list A) :=
  match positions with
  | [] => mret []
  | i :: rest => x ← iloc df i; xs ← iloc_all df rest; mret (x :: xs)
  end.

(** The cards of one day, row by row, as the two nested loops visit them. *)
Fixpoint card_rows_from {A} (day : list A) (row_indices : list nat) : result (list (list A)) :=
  match row_indices with
  | [] => mret []
  | row_idx :: rest =>
      r ← iloc_all day (card_positions (length day) row_idx);
      rs ← card_rows_from day rest;
      mret (r :: rs)
  end.
Definition card_rows {A} (day : list A) : result (list (list A)) :=
  card_rows_from day (range 0 (num_rows (length day))).

(** The day-groups: one per distinct date, in order of first appearance. *)
Definition day_groups (df_forecast : list row) : result (list (datetime.date * list row)) :=
  dates ← column_FilterDate df_forecast;
  mret (map (λ date, (date, df_day df_forecast date)) (unique dates)).

(** A feed keeps the entries of one date together when a date that comes
    again later comes again at once (as in a chronological feed). *)
Fixpoint contiguous (dates : list datetime.date) : Prop :=
  match dates with
  | [] => True
  | x :: rest => (x ∈ rest → head rest = Some x) ∧ contiguous rest
  end.

#[global] Instance contiguous_dec dates : Decision (contiguous dates).
Proof. induction dates; simpl; apply _. Defined.

(** An entry gets past the [continue] when its timestamp and the offset are
    both there. *)
Definition survives (timezone_offset : option Z) (item : forecast_item) : Prop :=
  is_Some (item_dt item) ∧ is_Some timezone_offset.

#[global] Instance survives_dec tz item : Decision (survives tz item).
Proof. unfold survives. apply _. Defined.

(** ** Rendering

    How Python writes a number as text is left open: [format_float n x] is
    [f"{x:.nf}"] for a float [x], and [str_num x] is [f"{x}"] for a number
    [x].  The rest is modelled: the specification [.nf] converts an int to a
    float first, which raises [OverflowError] when the int is too large; on
    a missing value ([None]) it raises [TypeError]; a bare [{x}] prints
    [None]. *)

Section Rendering.

Variable format_float : nat → float → string.
Variable str_num : pynum → string.

(** [f"{x:.nf}"] for a number. *)
Definition format_fixed (digits : nat) (x : pynum) : result string :=
  value ← to_float x; mret (format_float digits value).

(** [f"{x:.nf}"] for a number or [None]. *)
Definition format_spec (digits : nat) (x : option pynum) : result string :=
  match x with
  | Some v => format_fixed digits v
  | None => Raise TypeError
  end.

Definition format_plain (x : option pynum) : string :=
  match x with
  | Some v => str_num v
  | None => "None"
  end.

(** [display_weather] *)
Definition display_weather (data : current_payload) : App unit :=
  (* 1. Extract Core Data *)
  let city_name := default "N/A" (cur_name data) in
  let sys := default empty_sys (cur_sys data) in
  let country_code := default "N/A" (sys_country sys) in
  let timezone_offset := Some (default 0 (cur_timezone data)) in
  weather ← lift (first_weather (cur_weather data));
  let main_weather := default "N/A" (weather_main weather) in
  let description := capitalize (default "N/A" (weather_description weather)) in
  let main := default empty_main (cur_main data) in
  let visibility := cur_visibility data in
  let wind_data := default empty_wind (cur_wind data) in
  let cloudiness := mjoin (cur_clouds_all data) in
  let rain_1h := default (PyInt 0) (mjoin (cur_rain_1h data)) in
  let snow_1h := default (PyInt 0) (mjoin (cur_snow_1h data)) in
  (* 2. Process and Format Data *)
  let unit_symbol := if decide (UNITS = "metric") then "°C" else "°F" in
  let weather_emoji := dict_get WEATHER_EMOJIS main_weather "❓" in
  let full_condition := weather_emoji +:+ " (" +:+ description +:+ ")" in
  wind_dir ← lift (get_wind_direction (wind_deg wind_data));
  visibility_km ← lift (match visibility with
                        | Some v => km ← py_div_1000 v;
                                    mret (format_float 1 km +:+ " km")
                        | None => Ok "N/A"
                        end);
  sunrise_local ← lift (convert_timestamp_to_local (sys_sunrise sys) timezone_offset);
  sunset_local ← lift (convert_timestamp_to_local (sys_sunset sys) timezone_offset);
  (* 3. Display in Streamlit *)
  _ ← emit (st_markdown ("## 🌎 Current Weather in " +:+ city_name +:+ ", " +:+ upper country_code));
  _ ← emit (st_columns 2);
  _ ← emit (st_markdown ("### " +:+ full_condition));
  t ← lift (format_spec 1 (temp main));
  _ ← emit (st_markdown ("**Temperature:** **" +:+ t +:+ " " +:+ unit_symbol +:+ "**"));
  f ← lift (format_spec 1 (feels_like main));
  _ ← emit (st_markdown ("**Feels Like:** " +:+ f +:+ " " +:+ unit_symbol));
  _ ← emit (st_markdown "### 🌅 Sun Times");
  _ ← emit (st_metric "Sunrise" (match sunrise_local with
                                 | Some dt => datetime.strftime_H_M_S dt
                                 | None => "N/A"
                                 end));
  _ ← emit (st_metric "Sunset" (match sunset_local with
                                | Some dt => datetime.strftime_H_M_S dt
                                | None => "N/A"
                                end));
  _ ← emit st_divider;
  _ ← emit (st_markdown "### 🌡️ Temperature and 💨 Wind");
  _ ← emit (st_columns 3);
  lo ← lift (format_spec 1 (temp_min main));
  hi ← lift (format_spec 1 (temp_max main));
  _ ← emit (st_metric "Min/Max Temp (Day)" (lo +:+ " / " +:+ hi +:+ " " +:+ unit_symbol));
  _ ← emit (st_metric "Wind Speed" (format_plain (wind_speed wind_data) +:+ " m/s"));
  _ ← emit (st_metric "Wind Direction"
              (match wind_deg wind_data with
               | Some d => wind_dir +:+ " (" +:+ str_num d +:+ "º)"
               | None => "N/A"
               end));
  _ ← emit st_divider;
  _ ← emit (st_markdown "### 🌬️ Atmospheric Conditions (Extended)");
  _ ← emit (st_columns 3);
  _ ← emit (st_metric "Pressure" (format_plain (pressure main) +:+ " hPa"));
  _ ← emit (st_metric "Humidity" (format_plain (humidity main) +:+ " %"));
  _ ← emit (st_metric "Visibility" visibility_km);
  _ ← emit (st_columns 3);
  _ ← emit (st_metric "Cloudiness" (match cloudiness with
                                    | Some c => str_num c +:+ " %"
                                    | None => "N/A"
                                    end));
  _ ← emit (st_metric "Wind Gust" (match wind_gust wind_data with
                                   | Some g => str_num g +:+ " m/s"
                                   | None => "N/A"
                                   end));
  precipitation ← lift (total ← py_add rain_1h snow_1h; format_fixed 2 total);
  emit (st_metric "Precipitation (1hr)" (precipitation +:+ " mm")).

(** The HTML card of one row of the table: the style, the wind direction,
    then the f-string, whose fields are formatted from left to right. *)
Definition html_card (hour_data : row) : result card :=
  let style := dict_get CARD_STYLES (MainCondition hour_data)
                 (dict_get CARD_STYLES "Default" "") in
  wind_dir ← get_wind_direction (Some (WindDeg hour_data));
  temp_text ← format_fixed 1 (Temp hour_data);
  feels_text ← format_fixed 1 (FeelsLike hour_data);
  humidity_text ← format_fixed 0 (Humidity hour_data);
  speed_text ← format_fixed 1 (WindSpeed hour_data);
  mret {| card_style := style;
          card_time := Time hour_data;
          card_condition := ConditionEmoji hour_data +:+ " " +:+ ConditionDescription hour_data;
          card_temp := temp_text +:+ "°C";
          card_feels := feels_text +:+ "°C";
          card_humidity := humidity_text +:+ "%";
          card_wind := speed_text +:+ " m/s " +:+ wind_dir |}.

(** The body of the second loop over [unique_dates]: one tab. *)
Definition display_day (df_forecast : list row) (titles : list string)
  (i : nat) (date : datetime.date) : App unit :=
  title ← lift (iloc titles i);
  _ ← emit (st_markdown ("### Hourly Forecast for " +:+ title));
  let day := df_day df_forecast date in
  let num_cards := length day in
  for_each (range 0 (num_rows num_cards)) (λ row_idx,
    _ ← emit (st_columns cols_per_row);
    for_each (enumerate (card_positions num_cards row_idx)) (λ '(col_offset, internal_idx),
      hour_data ← lift (iloc day internal_idx);
      c ← lift (html_card hour_data);
      _ ← emit (st_card i col_offset c);
      emit (st_markdown ""))).

(** [display_forecast] *)
Definition display_forecast (data : forecast_payload) (timezone_offset : option Z)
  : App unit :=
  let forecast_list := default [] (fc_list data) in
  match forecast_list with
  | [] => emit (st_warning "No forecast data available for this location.")
  | _ =>
      df_forecast ← lift (forecast_rows forecast_list timezone_offset);
      dates ← lift (column_FilterDate df_forecast);
      let unique_dates := unique dates in
      titles ← lift (tab_titles unique_dates);
      _ ← emit (st_tabs titles);
      for_each (enumerate unique_dates) (λ '(i, date),
        display_day df_forecast titles i date)
  end.

(** The part of [main] that answers the button: [fetch_button] and the
    selections come from the sidebar widgets. *)
Definition main_content (key : string) (w : world) (fetch_button : bool)
  (selected_city_name : option string) (selected_country_name selected_country_code : string)
  : App unit :=
  match fetch_button, selected_city_name with
  | true, Some city =>
      if decide (city = "") then emit (st_warning "Please select a city from the list.")
      else
        current_weather_data ← get_current_weather_data key w city selected_country_code;
        match current_weather_data with
        | Some current =>
            if current_truthy current then
              _ ← display_weather current;
              _ ← emit (st_header "5-Day Forecast: Hourly Breakdown 🗓️");
              forecast_data ← get_forecast_data key w city selected_country_code;
              match forecast_data with
              | Some forecast =>
                  if forecast_truthy forecast then
                    let timezone_offset := Some (default 0 (cur_timezone current)) in
                    display_forecast forecast timezone_offset
                  else mret ()
              | None => mret ()
              end
            else mret ()
        | None => mret ()
        end
  | true, None => emit (st_warning "Please select a city from the list.")
  | false, _ =>
      emit (st_info "👈 Select a country and a city from the dropdowns to view the current weather and 5-day forecast!")
  end.

End Rendering.

(** The label the specification gives the group at position [i]. *)
Definition positional_label (i : nat) (date : datetime.date) : string :=
  match i with
  | 0%nat => "Today"
  | 1%nat => "Tomorrow"
  | _ => datetime.date_strftime_A date
  end +:+ " (" +:+ datetime.strftime_b_d date +:+ ")".

(** ** Sample feeds *)

Definition sample_entry (dt : Z) (condition : string) : forecast_item :=
  {| item_dt := Some dt;
     item_main := Some {| temp := Some (PyFloat 20.5); feels_like := Some (PyFloat 19.75);
                          temp_min := Some (PyInt 18); temp_max := Some (PyInt 22);
                          pressure := Some (PyInt 1012); humidity := Some (PyInt 60) |};
     item_weather := Some [{| weather_main := Some condition;
                              weather_description := Some "scattered clouds" |}];
     item_wind := Some {| wind_speed := Some (PyFloat 3.5); wind_deg := Some (PyInt 90);
                          wind_gust := None |} |}.

(** Nine three-hour steps from 2023-11-14 06:00 UTC: six on the first day,
    three on the next. *)
Definition nine_steps : list forecast_item :=
  map (λ k, sample_entry (1699941600 + 10800 * Z.of_nat k) "Clouds") (seq 0 9).

Definition nine_rows : list row :=
  Eval vm_compute in
    match forecast_rows nine_steps (Some 0) with
    | Ok rows => rows
    | Raise _ => []
    end.

(** A feed that is not chronological: midnight, the next midnight, then one
    o'clock of the first day. *)
Definition interleaved : list forecast_item :=
  [sample_entry 0 "Clear"; sample_entry 86400 "Rain"; sample_entry 3600 "Clear"].

(** An entry without a timestamp. *)
Definition no_timestamp : forecast_item :=
  {| item_dt := None; item_main := item_main (sample_entry 0 "Clear");
     item_weather := item_weather (sample_entry 0 "Clear");
     item_wind := item_wind (sample_entry 0 "Clear") |}.

(** ** Sample payloads *)

Definition sample_current : current_payload :=
  {| cur_name := Some "Pune";
     cur_sys := Some {| sys_country := Some "in"; sys_sunrise := Some 1699923600;
                        sys_sunset := Some 1699964100 |};
     cur_timezone := Some 19800;
     cur_weather := Some [{| weather_main := Some "Haze"; weather_description := Some "haze" |}];
     cur_main := Some {| temp := Some (PyFloat 27.5); feels_like := Some (PyFloat 28.25);
                         temp_min := Some (PyInt 26); temp_max := Some (PyInt 29);
                         pressure := Some (PyInt 1014); humidity := Some (PyInt 47) |};
     cur_visibility := Some (PyInt 4000);
     cur_wind := Some {| wind_speed := Some (PyFloat 2.5); wind_deg := Some (PyInt 280);
                         wind_gust := None |};
     cur_clouds_all := Some (Some (PyInt 20));
     cur_rain_1h := None;
     cur_snow_1h := None |}.

(** The same payload without [main.temp]. *)
Definition without_temperature : current_payload :=
  {| cur_name := cur_name sample_current; cur_sys := cur_sys sample_current;
     cur_timezone := cur_timezone sample_current; cur_weather := cur_weather sample_current;
     cur_main := Some {| temp := None; feels_like := Some (PyFloat 28.25);
                         temp_min := Some (PyInt 26); temp_max := Some (PyInt 29);
                         pressure := Some (PyInt 1014); humidity := Some (PyInt 47) |};
     cur_visibility := cur_visibility sample_current; cur_wind := cur_wind sample_current;
     cur_clouds_all := cur_clouds_all sample_current;
     cur_rain_1h := None; cur_snow_1h := None |}.

(** The same payload without [wind.speed], [main.pressure] and
    [main.humidity]. *)
Definition without_wind_speed : current_payload :=
  {| cur_name := cur_name sample_current; cur_sys := cur_sys sample_current;
     cur_timezone := cur_timezone sample_current; cur_weather := cur_weather sample_current;
     cur_main := Some {| temp := Some (PyFloat 27.5); feels_like := Some (PyFloat 28.25);
                         temp_min := Some (PyInt 26); temp_max := Some (PyInt 29);
                         pressure := None; humidity := None |};
     cur_visibility := None;
     cur_wind := Some {| wind_speed := None; wind_deg := None; wind_gust := None |};
     cur_clouds_all := None;
     cur_rain_1h := None; cur_snow_1h := None |}.

(** A key, and the secrets file that configures it. *)
Definition sample_key : string := "0123456789abcdef".
Definition sample_secrets : gmap string string :=
  {[ "openweathermap_api_key" := sample_key ]}.

(** A world with a key configured whose current-conditions endpoint answers
    404 to every query; one whose secrets file has no key; one with no
    secrets file at all. *)
Definition world_404 : world :=
  {| secrets := Some sample_secrets;
     current_endpoint := λ _, Response 404 "404 Client Error: Not Found" (Json sample_current);
     forecast_endpoint :=
       λ _, Response 200 "" (Json {| fc_list := Some nine_steps; fc_cnt := Some 9 |}) |}.

Definition world_without_key : world :=
  {| secrets := Some ∅;
     current_endpoint := λ _, Response 200 "" (Json sample_current);
     forecast_endpoint :=
       λ _, Response 200 "" (Json {| fc_list := Some nine_steps; fc_cnt := Some 9 |}) |}.

Definition world_without_secrets : world :=
  {| secrets := None;
     current_endpoint := current_endpoint world_without_key;
     forecast_endpoint := forecast_endpoint world_without_key |}.

(** A world with a key configured where the current conditions are served
    and the forecast endpoint cannot be reached; and one where both
    endpoints answer 200 with a page that is not JSON. *)
Definition world_forecast_down : world :=
  {| secrets := Some sample_secrets;
     current_endpoint := λ _, Response 200 "" (Json sample_current);
     forecast_endpoint := λ _, TransportFailure "Connection refused" |}.

Definition world_not_json : world :=
  {| secrets := Some sample_secrets;
     current_endpoint := λ _, Response 200 "" (NotJson "Expecting value: line 1 column 1 (char 0)");
     forecast_endpoint := λ _, Response 200 "" (NotJson "Expecting value: line 1 column 1 (char 0)") |}.

(** The metrics a run shows, by label. *)
Definition is_metric (label : string) (e : event) : bool :=
  match e with
  | st_metric l _ => bool_decide (l = label)
  | _ => false
  end.

Definition metric_shown {A} (run : App A) (label : string) : option string :=
  match List.filter (is_metric label) (trace run) with
  | st_metric _ v :: _ => Some v
  | _ => None
  end.

(** The requests a run sent to [url]. *)
Definition is_request_to (url : string) (e : event) : bool :=
  match e with
  | http_get u _ => bool_decide (u = url)
  | _ => false
  end.

Definition requests_to {A} (url : string) (run : App A) : list event :=
  List.filter (is_request_to url) (trace run).

(** The layout a run draws: where a row of columns starts and where each
    card goes. *)
Inductive slot := new_row | card_at (tab column : nat).
Definition slot_of (e : event) : option slot :=
  match e with
  | st_columns _ => Some new_row
  | st_card tab column _ => Some (card_at tab column)
  | _ => None
  end.

(** What one row of cards adds to the trace of a tab. *)
Definition row_events (tab : nat) (cards : list card) : list event :=
  st_columns cols_per_row
  :: flat_map (λ '(column, c), [st_card tab column c; st_markdown ""]) (enumerate cards).

(** The cards of the first day of the nine-step feed, with numbers left
    blank. *)
Definition nine_cards : list card :=
  Eval vm_compute in
    omap (λ r, match html_card (λ _ _, "") r with
               | Ok c => Some c
               | Raise _ => None
               end)
         (df_day nine_rows (datetime.mkdate 2023 11 14)).

(** What [handle_api_error] tells the user when the key is missing. *)
Definition credential_report : list event :=
  [st_error "⚠️ **Error: OpenWeatherMap API key not found.**";
   st_error "Please create a `.streamlit/secrets.toml` file and add the `openweathermap_api_key`."].

(** The timestamps of a feed, in feed order; the feed is chronological when
    they never decrease. *)
Definition stamps (items : list forecast_item) : list Z := omap item_dt items.
Definition chronological (items : list forecast_item) : Prop :=
  StronglySorted Z.le (stamps items).

(** ** Reference data: the city list

    [city.list.json] is an array of objects.  Of each object the program
    reads two keys, [name] and [country]; a key may be absent, hold [null],
    or hold a string (values of other types are outside the model, as are
    files whose top level is not an array of objects). *)

Definition CITY_LIST_FILE : string := "city.list.json".

Inductive json_field :=
| Absent
| Null
| Str (s : string).

Record city_json := { json_name : json_field; json_country : json_field }.

(** What [open] and [json.load] make of the file: it is not there, reading
    or parsing it raises some other exception (with its text), or it holds
    an array of records. *)
Inductive city_file :=
| FileNotFound
| LoadError (text : string)
| Parsed (data : list city_json).

(** One row of the city table after the renaming, with the country name
    added. *)
Record city_row := { City : string; CountryCode : string; CountryName : string }.

Record city_data := {
  city_df : list city_row;
  sorted_country_names : list string;
  country_map : gmap string string
}.

(** Python orders strings by code point, which is the order of their UTF-8
    bytes. *)
Definition str_le (a b : string) : Prop := String.leb a b = true.
Definition str_lt (a b : string) : Prop := String.ltb a b = true.

#[global] Instance str_le_dec a b : Decision (str_le a b).
Proof. unfold str_le. apply _. Defined.

(** [sorted(l)] on strings. *)
Definition sorted (l : list string) : list string := merge_sort str_le l.

(** [Series.unique()] on a column of strings: first appearances, in order. *)
Fixpoint unique_values_from (seen l : list string) : list string :=
  match l with
  | [] => []
  | x :: rest =>
      if decide (x ∈ seen) then unique_values_from seen rest
      else x :: unique_values_from (x :: seen) rest
  end.
Definition unique_values (l : list string) : list string := unique_values_from [] l.

(** A frame built from a list of records has a column for every key that
    some record has. *)
Definition has_column (key : city_json → json_field) (data : list city_json) : bool :=
  existsb (λ r, match key r with Absent => false | _ => true end) data.

(** The columns that [df[['name', 'country']]] does not find. *)
Definition missing_columns (data : list city_json) : list string :=
  (if has_column json_name data then [] else ["name"])
  ++ (if has_column json_country data then [] else ["country"]).

(** [df.dropna(subset=['City', 'CountryCode'])]: a row stays when neither
    cell is missing (absent key or [null]). *)
Definition dropna (data : list city_json) : list (string * string) :=
  omap (λ r, match json_name r, json_country r with
             | Str city, Str code => Some (city, code)
             | _, _ => None
             end) data.

(** The whole page: the widgets of the renderers ([event]) and those that
    only [main] and the loader use. *)
Inductive widget :=
| st_set_page_config (page_title layout : string)
| st_title (body : string)
| st_success (body : string)
| st_stop
| st_sidebar_header (body : string)
| st_sidebar_selectbox (label : string) (options : list string) (index : nat)
| st_sidebar_markdown (body : string)
| st_sidebar_button (label : string)
| st_sidebar_info (body : string)
| st_spinner (text : string)
| st_main (e : event).

(** How a script run ends: at its last statement, at [st.stop()], or with
    an exception that nothing catches. *)
Inductive ending :=
| Finished
| Stopped
| Failed (e : exn).

Record Page := Shown { widgets : list widget; ending_of : ending }.

(** What the user has done in the sidebar: the position chosen in each
    dropdown (nothing yet: the dropdown shows its default) and whether the
    button was pressed. *)
Record user := {
  country_choice : option nat;
  city_choice : option nat;
  fetch_pressed : bool
}.

(** [st.selectbox(label, options, index)]: the option at the chosen
    position, which is [index] until the user chooses; [None] when there is
    no such option (an empty list). *)
Definition selectbox (options : list string) (index : nat) (choice : option nat)
  : option string :=
  options !! default index choice.

(** [l.index(x)] *)
Definition list_index (x : string) (l : list string) : result nat :=
  match list_find (λ y, y = x) l with
  | Some (i, _) => Ok i
  | None => Raise ValueError
  end.

(** [f"{x}"] for a string or [None]. *)
Definition str_option (x : option string) : string := default "None" x.

(** The pieces of [main] between the widgets: the position the country
    dropdown starts at, the code that goes with the selected name, and the
    cities offered for it. *)
Definition default_country_index (sorted_country_names : list string) : result nat :=
  if decide ("United States" ∈ sorted_country_names)
  then list_index "United States" sorted_country_names
  else Ok 0%nat.

Definition selected_code (country_map : gmap string string)
  (selected_country_name : option string) : string :=
  match selected_country_name with
  | Some name => dict_get country_map name "US"
  | None => "US"
  end.

Definition city_names_of (city_df : list city_row) (selected_country_name : option string)
  : list string :=
  let filtered_cities_df :=
    filter (λ r, Some (CountryName r) = selected_country_name) city_df in
  sorted (unique_values (map City filtered_cities_df)).

Section ReferenceData.

(** The registry of [pycountry] is outside the program:
    [countries_get code] is the name of [countries.get(alpha_2=code)], or
    [None] when the registry has no such country.  How pandas words the
    [KeyError] for missing columns is left open too. *)
Variable countries_get : string → option string.
Variable str_KeyError : list string → string.

(** [get_country_name] *)
Definition get_country_name (code : string) : string :=
  match countries_get code with
  | Some name => name
  | None => code    (* AttributeError: None has no attribute name *)
  end.

(** [load_and_process_city_data]: the widgets it shows and what it returns;
    after [st.stop()] nothing is returned.  This is one run of the body; the
    decorator [st.cache_data], which keeps the result for later runs, is not
    modelled. *)
Definition load_and_process_city_data (file : city_file)
  : list widget * option city_data :=
  match file with
  | FileNotFound =>
      ([st_main (st_error ("⚠️ Error: The file '" +:+ CITY_LIST_FILE +:+
                           "' was not found. Please download it and save it."));
        st_stop], None)
  | LoadError text =>
      ([st_main (st_error ("An error occurred while loading city data: " +:+ text));
        st_stop], None)
  | Parsed data =>
      match missing_columns data with
      | [] =>
          let df := map (λ '(city, code),
                           {| City := city; CountryCode := code;
                              CountryName := get_country_name code |})
                        (dropna data) in
          let country_map := foldl (λ m r, <[CountryName r := CountryCode r]> m) ∅ df in
          let sorted_country_names := sorted (unique_values (map CountryName df)) in
          ([st_success "City list loaded and country names mapped successfully!"],
           Some {| city_df := df; sorted_country_names := sorted_country_names;
                   country_map := country_map |})
      | missing =>
          ([st_main (st_error ("An error occurred while loading city data: " +:+
                               str_KeyError missing));
            st_stop], None)
      end
  end.

Variable format_float : nat → float → string.
Variable str_num : pynum → string.

(** [main]; [key] is the value of the module-level [OWM_API_KEY]. *)
Definition main (key : string) (file : city_file) (u : user) (w : world) : Page :=
  let top := [st_set_page_config "Streamlit Weather App (Extended)" "wide";
              st_title "Local Weather App with OWM Forecast 🗺️";
              st_main (st_markdown "---")] in
  match load_and_process_city_data file with
  | (loading, None) => Shown (top ++ loading) Stopped
  | (loading, Some data) =>
      let names := sorted_country_names data in
      match default_country_index names with
      | Raise e => Shown (top ++ loading ++ [st_sidebar_header "Select Location"]) (Failed e)
      | Ok index =>
          let selected_country_name := selectbox names index (country_choice u) in
          let selected_country_code := selected_code (country_map data) selected_country_name in
          let city_names := city_names_of (city_df data) selected_country_name in
          let selected_city_name := selectbox city_names 0 (city_choice u) in
          let fetch_button := fetch_pressed u in
          let sidebar :=
            [st_sidebar_header "Select Location";
             st_sidebar_selectbox "Select Country" names index;
             st_sidebar_markdown ("***Select City in " +:+ str_option selected_country_name +:+
                                  " (" +:+ pretty (length city_names) +:+ " cities listed)***");
             st_sidebar_selectbox "City Name" city_names 0;
             st_sidebar_button "Fetch Weather";
             st_sidebar_markdown "---";
             st_sidebar_info "The city list is loaded once on app startup for fast filtering."] in
          let spinner :=
            match selected_city_name with
            | Some city =>
                if fetch_button && negb (bool_decide (city = "")) then
                  [st_spinner ("Getting data for " +:+ city +:+ ", " +:+
                               str_option selected_country_name +:+ "...")]
                else []
            | None => []
            end in
          let content := main_content format_float str_num key w fetch_button
                           selected_city_name (str_option selected_country_name)
                           selected_country_code in
          Shown (top ++ loading ++ sidebar ++ spinner ++ map st_main (trace content))
                (match outcome content with
                 | Ok _ => Finished
                 | Raise e => Failed e
                 end)
      end
  end.

(** A run of the script: the module-level statements, of which only the
    read of the secret can raise, then [main()]. *)
Definition script (file : city_file) (u : user) (w : world) : Page :=
  match OWM_API_KEY (secrets w) with
  | Raise e => Shown [] (Failed e)
  | Ok key => main key file u w
  end.

End ReferenceData.

(** The requests a page sent, in order. *)
Definition page_requests (p : Page) : list event :=
  omap (λ x, match x with
             | st_main (http_get url params) => Some (http_get url params)
             | _ => None
             end) (widgets p).

(** Sample city lists. *)
Definition sample_countries (code : string) : option string :=
  if decide (code = "IN") then Some "India"
  else if decide (code = "US") then Some "United States"
  else if decide (code = "FR") then Some "France"
  else None.

Definition sample_cities : list city_json :=
  [{| json_name := Str "Pune"; json_country := Str "IN" |};
   {| json_name := Str "Paris"; json_country := Str "FR" |};
   {| json_name := Str "Paris"; json_country := Str "US" |};
   {| json_name := Null; json_country := Str "US" |};
   {| json_name := Str "Pristina"; json_country := Str "XK" |};
   {| json_name := Str "Nowhere"; json_country := Absent |};
   {| json_name := Str "Mumbai"; json_country := Str "IN" |}].

(** A first visit with the button pressed: both dropdowns at their
    defaults. *)
Definition first_visit : user :=
  {| country_choice := None; city_choice := None; fetch_pressed := true |}.

(** ** Statement helpers for the runs *)

(** The requests of a run, to whatever address. *)
Definition is_request (e : event) : bool :=
  match e with
  | http_get _ _ => true
  | _ => false
  end.

Definition requests {A} (run : App A) : list event := List.filter is_request (trace run).

(** Whether the conversion sends the whole degree [d] to the compass point
    nearest to it: point [k] stands at [22.5 * k] degrees, and
    [(4 * d + 45) / 90] is the [k] with [|d - 22.5 * k| < 11.25]. *)
Definition nearest_point_ok (d : Z) : bool :=
  match get_wind_direction (Some (PyInt d)),
        getitem directions (((4 * d + 45) `div` 90) `mod` 16) with
  | Ok s, Ok s' => bool_decide (s = s')
  | _, _ => false
  end.

(** Calendar order on dates: by year, then month, then day. *)
Definition date_lt (a b : datetime.date) : Prop :=
  datetime.year a < datetime.year b
  ∨ (datetime.year a = datetime.year b
     ∧ (datetime.month a < datetime.month b
        ∨ (datetime.month a = datetime.month b ∧ datetime.day a < datetime.day b))).

#[global] Instance date_lt_dec a b : Decision (date_lt a b).
Proof. unfold date_lt. apply _. Defined.

(** [date.toordinal()]: the day number of a date, 0001-01-01 being day 1. *)
Definition date_toordinal (d : datetime.date) : Z :=
  datetime.ymd2ord (datetime.year d) (datetime.month d) (datetime.day d).

(** The months of a year follow one another: a month starts on or after
    day 0 of the year, and it ends where the next month starts (December,
    where the year ends). *)
Definition month_follows (leapyear : bool) (m : Z) : bool :=
  let before m := datetime.table datetime.DAYS_BEFORE_MONTH m
                  + (if (2 <? m) && leapyear then 1 else 0) in
  let length := if (m =? 2) && leapyear then 29
                else datetime.table datetime.DAYS_IN_MONTH m in
  (0 <=? before m)
  && (before m + length =? if m =? 12 then 365 + (if leapyear then 1 else 0)
                          else before (m + 1)).


(** The cards a run drew, in order. *)
Definition card_of (e : event) : option card :=
  match e with
  | st_card _ _ c => Some c
  | _ => None
  end.

Definition cards_drawn {A} (run : App A) : list card := omap card_of (trace run).

(** The rows of four of a list. *)
Definition chunks {A} (l : list A) : list (list A) :=
  map (λ k, take cols_per_row (drop (k * cols_per_row) l)) (seq 0 (num_rows (length l))).

(** A card with nothing on it, and the card of a row (blank when the row
    does not render). *)
Definition blank_card : card :=
  {| card_style := ""; card_time := ""; card_condition := ""; card_temp := "";
     card_feels := ""; card_humidity := ""; card_wind := "" |}.

Definition card_or_blank (format_float : nat → float → string) (r : row) : card :=
  match html_card format_float r with
  | Ok c => c
  | Raise _ => blank_card
  end.






(** The entries of a feed from which a row of the table can be made, for
    the offset [offset]: an entry with a timestamp has its UTC and its
    local instant within the range of [datetime], and its weather list is
    absent or has an element. *)
Definition tabulates (offset : Z) (item : forecast_item) : Prop :=
  ∀ ts, item_dt item = Some ts →
        datetime.representable ts = true
        ∧ datetime.representable (ts + offset) = true
        ∧ item_weather item ≠ Some [].

#[global] Instance tabulates_dec offset item : Decision (tabulates offset item).
Proof.
  unfold tabulates. destruct (item_dt item) as [ts|]; [|left; by intros ? [=]].
  destruct (decide (datetime.representable ts = true)) as [H1|H1];
    [|right; intros H; by destruct (H ts eq_refl) as (? & _)].
  destruct (decide (datetime.representable (ts + offset) = true)) as [H2|H2];
    [|right; intros H; by destruct (H ts eq_refl) as (_ & ? & _)].
  destruct (item_weather item) as [[|x l]|].
  - right. intros H. by destruct (H ts eq_refl) as (_ & _ & ?).
  - left. by intros ? [= <-].
  - left. by intros ? [= <-].
Defined.




(** Feeds of one entry, chronological as every such feed is: one whose
    timestamp is the first second of the year 10000, one whose weather
    list is empty. *)
Definition year_10000 : list forecast_item := [sample_entry 253402300800 "Clear"].

Definition empty_weather_list : list forecast_item :=
  [{| item_dt := Some 0; item_main := item_main (sample_entry 0 "Clear");
      item_weather := Some []; item_wind := item_wind (sample_entry 0 "Clear") |}].



(** Unfolding the trace monad in proofs. *)
Ltac run_app :=
  unfold mbind, mret, App_bind, App_ret, emit, lift; cbn [trace outcome app].

(** * Properties *)

(** ** Worked examples *)

Example wind_examples :
  map get_wind_direction
      [Some (PyInt 0); Some (PyInt 90); Some (PyFloat 22.49); Some (PyFloat 22.5);
       Some (PyFloat 11.25); Some (PyFloat 33.75); Some (PyInt (-1)); Some (PyFloat nan); None]
  = [Ok "N"; Ok "E"; Ok "NNE"; Ok "NNE"; Ok "N"; Ok "NE"; Ok "N"; Raise ValueError; Ok "N/A"].
Proof. vm_compute. reflexivity. Qed.

Example round_half_to_even :
  map py_round [0.5; 1.5; 2.5; -0.5; -1.5; 0.49999999999999994; 1e22; infinity]%float
  = [Ok 0; Ok 2; Ok 2; Ok 0; Ok (-2); Ok 0; Ok 10000000000000000000000; Raise OverflowError].
Proof. vm_compute. reflexivity. Qed.

(** [visibility / 1000]: the quotient of two ints is rounded once, so it
    may differ from dividing the float of the int (third value), and it
    overflows later than the conversion does. *)
Example true_division :
  map py_div_1000 [PyInt 4000; PyInt (10 ^ 310); PyInt 9007199254740993000;
                   PyInt (10 ^ 312); PyFloat 1e308]
  = [Ok 4; Ok 1e307; Ok 9007199254740992; Raise OverflowError; Ok 1e305]%float
  ∧ (x ← to_float (PyInt 9007199254740993000); mret (x / 1000)%float)
    = Ok 9007199254740994%float
  ∧ to_float (PyInt (10 ^ 310)) = Raise OverflowError.
Proof. repeat split; vm_compute; reflexivity. Qed.

Example epoch_is_a_thursday :
  (x ← datetime.utcfromtimestamp 0;
   mret (datetime.date_of x, datetime.strftime_A x, datetime.isoformat (datetime.date_of x)))
  = Ok (datetime.mkdate 1970 1 1, "Thursday", "1970-01-01").
Proof. vm_compute. reflexivity. Qed.

Example a_leap_day :
  (x ← datetime.utcfromtimestamp 1709251199;
   y ← datetime.strptime_Y_m_d (datetime.isoformat (datetime.date_of x));
   mret (datetime.date_of x, datetime.strftime_H_M_S x, datetime.strftime_A y,
         datetime.strftime_b_d (datetime.date_of x)))
  = Ok (datetime.mkdate 2024 2 29, "23:59:59", "Thursday", "Feb 29").
Proof. vm_compute. reflexivity. Qed.

Example datetime_range :
  map datetime.utcfromtimestamp [-62135596801; -62135596800; 253402300799; 253402300800]
  = [Raise ValueError; Ok (datetime.mk (-62135596800)); Ok (datetime.mk 253402300799);
     Raise ValueError].
Proof. vm_compute. reflexivity. Qed.

Example emoji_lookup :
  (dict_get WEATHER_EMOJIS "Fog" "❓", dict_get WEATHER_EMOJIS "N/A" "❓")
  = ("🌫️ Mist/Fog", "❓").
Proof. vm_compute. reflexivity. Qed.

Example convert_examples :
  [convert_timestamp_to_local (Some 1700000000) (Some 19800);
   convert_timestamp_to_local None (Some 19800);
   convert_timestamp_to_local (Some 1700000000) None;
   convert_timestamp_to_local (Some 253402300800) (Some 0);
   convert_timestamp_to_local (Some 253402300799) (Some 1)]
  = [Ok (Some (datetime.mk 1700019800)); Ok None; Ok None;
     Raise ValueError; Raise OverflowError].
Proof. vm_compute. reflexivity. Qed.

(** ** Rows of four cards *)

Section Chunks.
Context {A : Type}.
Implicit Types (l : list A) (a n k : nat).

Lemma iloc_Some l i x : l !! i = Some x → iloc l i = Ok x.
Proof. unfold iloc. by intros ->. Qed.

Lemma iloc_all_seq l a n :
  (a + n ≤ length l)%nat → iloc_all l (seq a n) = Ok (take n (drop a l)).
Proof.
  revert a. induction n as [|n IH]; intros a Hlen; simpl.
  - by rewrite take_0.
  - destruct (lookup_lt_is_Some_2 l a) as [x Hx]; [lia|].
    rewrite (iloc_Some _ _ _ Hx). simpl.
    rewrite IH by lia. simpl.
    by rewrite (drop_S _ _ _ Hx).
Qed.

Lemma num_rows_gt n k : (k < num_rows n)%nat ↔ (k * cols_per_row < n)%nat.
Proof. unfold num_rows, cols_per_row. split; intros; lia. Qed.

Lemma card_positions_row l k :
  (k < num_rows (length l))%nat →
  iloc_all l (card_positions (length l) k) = Ok (take cols_per_row (drop (k * cols_per_row) l)).
Proof.
  intros Hk%num_rows_gt. unfold card_positions, range.
  rewrite iloc_all_seq by lia. f_equal.
  destruct (decide (k * cols_per_row + cols_per_row ≤ length l)%nat).
  - f_equal. lia.
  - rewrite !take_ge; [done | rewrite length_drop; lia | rewrite length_drop; lia].
Qed.

Lemma card_rows_from_seq l a n :
  (a + n ≤ num_rows (length l))%nat →
  card_rows_from l (seq a n)
  = Ok (map (λ k, take cols_per_row (drop (k * cols_per_row) l)) (seq a n)).
Proof.
  revert a. induction n as [|n IH]; intros a Hlen; simpl; [done|].
  rewrite card_positions_row by lia. simpl.
  by rewrite IH by lia.
Qed.

Lemma concat_chunks l n :
  concat (map (λ k, take cols_per_row (drop (k * cols_per_row) l)) (seq 0 n))
  = take (n * cols_per_row) l.
Proof.
  induction n as [|n IH]; [by rewrite take_0|].
  rewrite seq_S, map_app, concat_app, IH. simpl. rewrite app_nil_r.
  rewrite take_take_drop. f_equal. unfold cols_per_row. lia.
Qed.

End Chunks.

(** C2. For a day-group of N entries the two nested loops of
    [display_forecast] visit the cards in rows of four: they succeed (no
    position is out of range), there are exactly ceil(N/4) rows (the number
    k with N <= 4k < N + 4), every row but possibly the last has exactly 4
    entries, and the rows put end to end are the group in its order. *)
Theorem card_rows_chunks (day : list row) :
  ∃ rows : list (list row),
    card_rows day = Ok rows
    ∧ (length day ≤ 4 * length rows < length day + 4)%nat
    ∧ (∀ i r, (S i < length rows)%nat → rows !! i = Some r → length r = 4%nat)
    ∧ concat rows = day.
Proof.
  set (chunk := λ k : nat, take cols_per_row (drop (k * cols_per_row) day)).
  exists (map chunk (seq 0 (num_rows (length day)))).
  assert (Hn : (length day ≤ 4 * num_rows (length day) < length day + 4)%nat)
    by (unfold num_rows, cols_per_row; lia).
  split; [| split; [| split]].
  - unfold card_rows, range. rewrite Nat.sub_0_r.
    by apply card_rows_from_seq.
  - by rewrite length_map, length_seq.
  - intros i r. rewrite length_map, length_seq. intros Hi.
    rewrite list_lookup_fmap, lookup_seq_lt by lia. simpl. intros [= <-].
    unfold chunk. rewrite length_take, length_drop. unfold cols_per_row. lia.
  - unfold chunk. rewrite concat_chunks. apply take_ge.
    unfold cols_per_row. lia.
Qed.

(** ** Dates: validity, text and weekday *)

Section Calendar.
Import datetime.

Lemma digit_value_digit v : 0 ≤ v ≤ 9 → digit_value (digit v) = Some v.
Proof.
  intros Hv.
  assert (v = 0 ∨ v = 1 ∨ v = 2 ∨ v = 3 ∨ v = 4 ∨ v = 5 ∨ v = 6 ∨ v = 7 ∨ v = 8 ∨ v = 9)
    as Hcases by lia.
  repeat (destruct Hcases as [-> | Hcases]; [reflexivity|]). by subst.
Qed.

(** Reading back what [isoformat] wrote gives the same date, at midnight. *)
Lemma strptime_isoformat d :
  valid_date d = true → strptime_Y_m_d (isoformat d) = of_date d.
Proof.
  intros Hvalid. destruct d as [y m dd].
  assert (Hrange : 1 ≤ y ≤ 9999 ∧ 1 ≤ m ≤ 12 ∧ 1 ≤ dd ≤ 31).
  { unfold valid_date, MINYEAR, MAXYEAR in Hvalid. simpl in Hvalid.
    repeat (apply andb_prop in Hvalid as [Hvalid ?]).
    assert (days_in_month y m ≤ 31).
    { unfold days_in_month. destruct (_ && _); [lia|].
      assert (m = 1 ∨ m = 2 ∨ m = 3 ∨ m = 4 ∨ m = 5 ∨ m = 6 ∨ m = 7 ∨ m = 8 ∨ m = 9
              ∨ m = 10 ∨ m = 11 ∨ m = 12) as Hm by lia.
      repeat (destruct Hm as [-> | Hm]; [vm_compute; discriminate|]).
      subst. vm_compute. discriminate. }
    lia. }
  destruct Hrange as (Hy & Hm & Hd).
  cbv [isoformat fmt4 fmt2 strptime_Y_m_d year month day String.append].
  rewrite !digit_value_digit by lia.
  f_equal. f_equal; lia.
Qed.

Lemma weekday_of_date d dt : of_date d = Ok dt → weekday dt = date_weekday d.
Proof.
  unfold of_date. destruct (valid_date d); [|done]. intros [= <-].
  unfold weekday, toordinal, date_weekday. simpl.
  rewrite Z.div_mul by done. f_equal. lia.
Qed.

Lemma month_day_in_range leapyear n :
  0 ≤ n < 365 → month_day_ok leapyear n = true.
Proof.
  intros Hn.
  assert (Hall : forallb (λ k, month_day_ok true k && month_day_ok false k) (seqZ 0 365) = true)
    by (vm_compute; reflexivity).
  rewrite forallb_forall in Hall.
  specialize (Hall n). rewrite <- list_elem_of_In, elem_of_seqZ in Hall.
  apply andb_prop in Hall as [Ht Hf]; [|lia]. by destruct leapyear.
Qed.

End Calendar.

Section CalendarValidity.
Import datetime.

Lemma is_leap_decomposed q1 q2 q3 q4 :
  0 ≤ q2 ≤ 3 → 0 ≤ q3 ≤ 24 → 0 ≤ q4 ≤ 3 →
  is_leap (q1 * 400 + 1 + q2 * 100 + q3 * 4 + q4)
  = (q4 =? 3) && (negb (q3 =? 24) || (q2 =? 3)).
Proof.
  intros H2 H3 H4. unfold is_leap.
  repeat match goal with
         | |- context [?a =? ?b] => destruct (Z.eqb_spec a b)
         end; simpl; try reflexivity; lia.
Qed.

(** Every day a [datetime] can fall on is a date the constructor accepts. *)
Lemma ord2ymd_valid n : 1 ≤ n ≤ MAXORDINAL → valid_date (ord2ymd n) = true.
Proof.
  intros Hn. unfold ord2ymd.
  set (a := n - 1).
  set (q1 := a `div` DI400Y). set (r1 := a `mod` DI400Y).
  set (q2 := r1 `div` DI100Y). set (r2 := r1 `mod` DI100Y).
  set (q3 := r2 `div` DI4Y). set (r3 := r2 `mod` DI4Y).
  set (q4 := r3 `div` 365). set (r4 := r3 `mod` 365).
  assert (Hdec : a = 146097 * q1 + 36524 * q2 + 1461 * q3 + 365 * q4 + r4
                 ∧ 0 ≤ q1 ∧ 0 ≤ q2 ≤ 4 ∧ 0 ≤ q3 ≤ 24 ∧ 0 ≤ q4 ≤ 4 ∧ 0 ≤ r4 < 365
                 ∧ 0 ≤ a ≤ 3652058).
  { unfold MAXORDINAL in Hn. subst a q1 r1 q2 r2 q3 r3 q4 r4.
    unfold DI400Y, DI100Y, DI4Y. lia. }
  clearbody q1 r1 q2 r2 q3 r3 q4 r4 a.
  destruct Hdec as (Ha & Hq1 & Hq2 & Hq3 & Hq4 & Hr4 & Hbound).
  destruct (Z.eqb_spec q4 4) as [E4|E4]; [|destruct (Z.eqb_spec q2 4) as [E2|E2]]; simpl.
  - unfold valid_date, MINYEAR, MAXYEAR. simpl.
    repeat (apply andb_true_intro; split); try (apply Z.leb_le; lia).
    by vm_compute.
  - unfold valid_date, MINYEAR, MAXYEAR. simpl.
    repeat (apply andb_true_intro; split); try (apply Z.leb_le; lia).
    by vm_compute.
  - set (leapyear := (q4 =? 3) && (negb (q3 =? 24) || (q2 =? 3))).
    pose proof (month_day_in_range leapyear r4 Hr4) as Hok.
    unfold month_day_ok in Hok. destruct (month_day leapyear r4) as [m d].
    repeat (apply andb_prop in Hok as [Hok ?]).
    unfold valid_date, MINYEAR, MAXYEAR, days_in_month. simpl.
    rewrite is_leap_decomposed by lia. fold leapyear.
    repeat (apply andb_true_intro; split); try done; apply Z.leb_le; lia.
Qed.

Lemma representable_ordinal s :
  representable s = true → 1 ≤ toordinal (mk s) ≤ MAXORDINAL.
Proof. unfold representable, toordinal. simpl. lia. Qed.

(** The ordinal of the date of a day is that day. *)
Lemma month_day_inverse_in_range leapyear n :
  0 ≤ n < 365 → month_day_inverse leapyear n = true.
Proof.
  intros Hn.
  assert (Hall : forallb (λ k, month_day_inverse true k && month_day_inverse false k)
                   (seqZ 0 365) = true)
    by (vm_compute; reflexivity).
  rewrite forallb_forall in Hall.
  specialize (Hall n). rewrite <- list_elem_of_In, elem_of_seqZ in Hall.
  apply andb_prop in Hall as [Ht Hf]; [|lia]. by destruct leapyear.
Qed.

Lemma days_before_year_decomposed q1 q2 q3 q4 :
  0 ≤ q2 ≤ 3 → 0 ≤ q3 ≤ 24 → 0 ≤ q4 ≤ 3 →
  days_before_year (q1 * 400 + 1 + q2 * 100 + q3 * 4 + q4)
  = 146097 * q1 + 36524 * q2 + 1461 * q3 + 365 * q4.
Proof. intros. unfold days_before_year. lia. Qed.

Lemma ymd2ord_ord2ymd n :
  1 ≤ n →
  ymd2ord (year (ord2ymd n)) (month (ord2ymd n)) (day (ord2ymd n)) = n.
Proof.
  intros Hn. unfold ord2ymd.
  set (a := n - 1).
  set (q1 := a `div` DI400Y). set (r1 := a `mod` DI400Y).
  set (q2 := r1 `div` DI100Y). set (r2 := r1 `mod` DI100Y).
  set (q3 := r2 `div` DI4Y). set (r3 := r2 `mod` DI4Y).
  set (q4 := r3 `div` 365). set (r4 := r3 `mod` 365).
  assert (Hdec : a = 146097 * q1 + 36524 * q2 + 1461 * q3 + 365 * q4 + r4
                 ∧ 0 ≤ q1 ∧ 0 ≤ q2 ≤ 4 ∧ 0 ≤ q3 ≤ 24 ∧ 0 ≤ q4 ≤ 4 ∧ 0 ≤ r4 < 365
                 ∧ (q4 = 4 → r4 = 0 ∧ q3 ≤ 23)
                 ∧ (q2 = 4 → q3 = 0 ∧ q4 = 0 ∧ r4 = 0)).
  { subst a q1 r1 q2 r2 q3 r3 q4 r4. unfold DI400Y, DI100Y, DI4Y. lia. }
  assert (Hna : n = a + 1) by (subst a; lia).
  clearbody q1 r1 q2 r2 q3 r3 q4 r4 a. subst n.
  destruct Hdec as (Ha & Hq1 & Hq2 & Hq3 & Hq4 & Hr4 & Hlast4 & Hlast2).
  destruct (Z.eqb_spec q4 4) as [E4|E4]; [|destruct (Z.eqb_spec q2 4) as [E2|E2]]; simpl.
  - destruct (Hlast4 E4) as [-> Hq3']. subst q4.
    replace (q1 * 400 + 1 + q2 * 100 + q3 * 4 + 4 - 1)
      with (q1 * 400 + 1 + q2 * 100 + q3 * 4 + 3) by lia.
    unfold ymd2ord, days_before_month.
    rewrite days_before_year_decomposed, is_leap_decomposed by lia.
    change (table DAYS_BEFORE_MONTH 12) with 334.
    replace (q3 =? 24) with false by (symmetry; apply Z.eqb_neq; lia).
    simpl. lia.
  - destruct (Hlast2 E2) as (-> & -> & ->). subst q2.
    replace (q1 * 400 + 1 + 4 * 100 + 0 * 4 + 0 - 1)
      with (q1 * 400 + 1 + 3 * 100 + 24 * 4 + 3) by lia.
    unfold ymd2ord, days_before_month.
    rewrite days_before_year_decomposed, is_leap_decomposed by lia.
    change (table DAYS_BEFORE_MONTH 12) with 334. simpl. lia.
  - set (leapyear := (q4 =? 3) && (negb (q3 =? 24) || (q2 =? 3))).
    pose proof (month_day_inverse_in_range leapyear r4 Hr4) as Hinv.
    unfold month_day_inverse in Hinv. destruct (month_day leapyear r4) as [m d].
    simpl. unfold ymd2ord, days_before_month.
    rewrite days_before_year_decomposed, is_leap_decomposed by lia. fold leapyear.
    lia.
Qed.

Lemma ord2ymd_inj n1 n2 : 1 ≤ n1 → 1 ≤ n2 → ord2ymd n1 = ord2ymd n2 → n1 = n2.
Proof.
  intros H1 H2 Heq.
  rewrite <- (ymd2ord_ord2ymd n1), <- (ymd2ord_ord2ymd n2) by done. by rewrite Heq.
Qed.

(** Between two instants of one date every instant has that date. *)
Lemma date_of_between s1 s2 s3 :
  representable s1 = true → s1 ≤ s2 ≤ s3 →
  date_of (mk s1) = date_of (mk s3) → date_of (mk s2) = date_of (mk s1).
Proof.
  intros Hr [H12 H23] Heq. unfold date_of, toordinal in *. simpl in *.
  unfold representable, EPOCH_ORDINAL in *.
  apply ord2ymd_inj in Heq; [|lia..]. f_equal. lia.
Qed.

End CalendarValidity.

(** X1. Every day from 0001-01-01 to 9999-12-31 has a date the [datetime]
    constructor accepts, the ordinal of that date is the day again, and
    reading back the text [str] writes for it gives midnight of that day. *)
Theorem calendar_roundtrip (n : Z) :
  1 ≤ n ≤ datetime.MAXORDINAL →
  let d := datetime.ord2ymd n in
  datetime.valid_date d = true
  ∧ datetime.ymd2ord (datetime.year d) (datetime.month d) (datetime.day d) = n
  ∧ datetime.strptime_Y_m_d (datetime.isoformat d)
    = Ok (datetime.mk ((n - datetime.EPOCH_ORDINAL) * 86400)).
Proof.
  intros Hn d. pose proof (ord2ymd_valid n Hn) as Hvalid.
  pose proof (ymd2ord_ord2ymd n (proj1 Hn)) as Hord. fold d in Hvalid, Hord.
  split; [done|]. split; [done|].
  rewrite strptime_isoformat by done. unfold datetime.of_date.
  by rewrite Hvalid, Hord.
Qed.

Lemma calendar_roundtrip_witness :
  datetime.strptime_Y_m_d "2024-02-29" = Ok (datetime.mk 1709164800).
Proof.
  destruct (calendar_roundtrip 738945) as (_ & _ & H).
  - vm_compute. split; discriminate.
  - exact H.
Defined.

(** ** Day-groups *)

Section Unique.
Implicit Types (x y : datetime.date) (l seen : list datetime.date).

Lemma filter_Forall_id {A} (P : A → Prop) `{!∀ a, Decision (P a)} (l : list A) :
  Forall P l → filter P l = l.
Proof.
  induction 1 as [|a l Ha _ IH]; [done|].
  by rewrite filter_cons_True, IH.
Qed.

Lemma elem_of_unique_from seen l x :
  x ∈ unique_from seen l ↔ x ∈ l ∧ x ∉ seen.
Proof.
  revert seen. induction l as [|y l IH]; intros seen; simpl.
  - set_solver.
  - case_decide as Hy; [rewrite IH | rewrite elem_of_cons, IH];
      clear IH; destruct (decide (x = y)); set_solver.
Qed.

Lemma NoDup_unique_from seen l : NoDup (unique_from seen l).
Proof.
  revert seen. induction l as [|y l IH]; intros seen; simpl.
  - constructor.
  - case_decide; [apply IH|]. constructor; [|apply IH].
    rewrite elem_of_unique_from. set_solver.
Qed.

Lemma unique_from_filter seen l :
  unique_from seen l = filter (λ y, y ∉ seen) (unique l).
Proof.
  unfold unique. revert seen. induction l as [|x l IH]; intros seen; [done|].
  simpl. rewrite (IH [x]). case_decide as Hx.
  - rewrite filter_cons_False by (intros ?; done).
    rewrite list_filter_filter, IH. apply list_filter_iff. set_solver.
  - rewrite filter_cons_True by done. f_equal.
    rewrite list_filter_filter, IH. apply list_filter_iff. set_solver.
Qed.

(** First-seen order: the first date leads, and the rest follow as they
    are first seen in the rest of the list. *)
Lemma unique_cons x l : unique (x :: l) = x :: filter (λ y, y ≠ x) (unique l).
Proof.
  unfold unique at 1. simpl. rewrite unique_from_filter. f_equal. apply list_filter_iff. set_solver.
Qed.

Lemma elem_of_unique l x : x ∈ unique l ↔ x ∈ l.
Proof. unfold unique. rewrite elem_of_unique_from. set_solver. Qed.

Lemma NoDup_unique l : NoDup (unique l).
Proof. apply NoDup_unique_from. Qed.

Lemma unique_filter_fresh x l : x ∉ l → filter (λ y, y ≠ x) (unique l) = unique l.
Proof.
  intros Hx. apply filter_Forall_id, Forall_forall.
  intros y Hy Heq. apply Hx. rewrite <- Heq. by apply elem_of_unique.
Qed.

End Unique.

Lemma unique_from_snoc seen l x :
  unique_from seen (l ++ [x])
  = (unique_from seen l ++ (if decide (x ∈ seen ∨ x ∈ l) then [] else [x]))%list.
Proof.
  revert seen. induction l as [|y l IH]; intros seen; simpl.
  - destruct (decide (x ∈ seen)) as [H1|H1];
      destruct (decide (x ∈ seen ∨ x ∈ [])) as [H2|H2]; try done.
    + destruct H2. by left.
    + destruct H2 as [H2|H2]; [done|]. by apply elem_of_nil in H2.
  - destruct (decide (y ∈ seen)) as [Hy|Hy].
    + rewrite IH. f_equal. apply decide_ext. rewrite elem_of_cons.
      split; [intros [?|?]; auto|]. intros [?|[->|?]]; auto.
    + simpl. rewrite IH. do 2 f_equal. apply decide_ext. rewrite !elem_of_cons. tauto.
Qed.

(** X2. [unique] lists the dates in order of first appearance: it has no
    duplicates and the same members as the list, and a date appended to the
    list is appended to the result exactly when it was not there before. *)
Theorem unique_first_seen (l : list datetime.date) :
  NoDup (unique l)
  ∧ (∀ x, x ∈ unique l ↔ x ∈ l)
  ∧ unique [] = []
  ∧ ∀ x, unique (l ++ [x]) = if decide (x ∈ l) then unique l else (unique l ++ [x])%list.
Proof.
  split; [apply NoDup_unique|]. split; [intros x; apply elem_of_unique|].
  split; [done|]. intros x. unfold unique. rewrite unique_from_snoc.
  destruct (decide (x ∈ [] ∨ x ∈ l)) as [H1|H1]; destruct (decide (x ∈ l)) as [H2|H2];
    try done.
  - by rewrite app_nil_r.
  - destruct H1 as [H1|H1]; [by apply elem_of_nil in H1|done].
  - destruct H1. by right.
Qed.

Section Groups.
Implicit Types (rows : list row) (ds : list datetime.date).

Lemma df_day_cons_other r rows d :
  FilterDate r ≠ d → df_day (r :: rows) d = df_day rows d.
Proof. intros. unfold df_day. by rewrite filter_cons_False. Qed.

Lemma df_day_cons_same r rows : df_day (r :: rows) (FilterDate r) = r :: df_day rows (FilterDate r).
Proof. unfold df_day. by rewrite filter_cons_True. Qed.

Lemma df_day_absent rows d : d ∉ map FilterDate rows → df_day rows d = [].
Proof.
  induction rows as [|r rows IH]; [done|]. simpl. intros Hd.
  rewrite df_day_cons_other by set_solver. apply IH. set_solver.
Qed.


Lemma map_df_day_cons_other r rows ds :
  FilterDate r ∉ ds → map (df_day (r :: rows)) ds = map (df_day rows) ds.
Proof.
  intros Hr. apply map_ext_in. intros d Hd%list_elem_of_In.
  apply df_day_cons_other. by intros <-.
Qed.

(** Whatever the order of the feed, the groups of a duplicate-free list of
    dates that covers the table hold every row exactly once. *)
Lemma day_groups_permutation ds rows :
  NoDup ds → (∀ r, r ∈ rows → FilterDate r ∈ ds) →
  concat (map (df_day rows) ds) ≡ₚ rows.
Proof.
  intros Hnd. revert rows. induction Hnd as [|d ds Hd Hnd IH]; intros rows Hcover.
  - destruct rows as [|r rows]; [done|]. specialize (Hcover r). set_solver.
  - simpl. rewrite <- (filter_app_complement (λ r, FilterDate r = d) rows) at 3.
    apply Permutation_app; [done|].
    replace (map (df_day rows) ds)
      with (map (df_day (filter (λ r, FilterDate r ≠ d) rows)) ds).
    + apply IH. intros r [Hne Hr]%list_elem_of_filter.
      specialize (Hcover r Hr). set_solver.
    + apply map_ext_in. intros d' Hd'%list_elem_of_In. unfold df_day.
      apply list_filter_filter_l. intros r Hr Heq. apply Hd. by rewrite <- Heq, Hr.
Qed.

(** When the entries of each date stand together, the groups put end to end
    are the table itself. *)
Lemma day_groups_contiguous rows :
  contiguous (map FilterDate rows) →
  concat (map (df_day rows) (unique (map FilterDate rows))) = rows.
Proof.
  induction rows as [|r rows IH]; [done|].
  rewrite map_cons. intros [Hnext Hrest]. specialize (IH Hrest).
  rewrite unique_cons, map_cons, concat_cons, df_day_cons_same.
  rewrite <- app_comm_cons. f_equal.
  rewrite map_df_day_cons_other by (rewrite list_elem_of_filter; intros [? _]; done).
  destruct (decide (FilterDate r ∈ map FilterDate rows)) as [Hin|Hout].
  - specialize (Hnext Hin). destruct rows as [|r' rows]; [done|].
    rewrite map_cons in Hnext, IH |- *. injection Hnext as Hsame.
    rewrite unique_cons in IH |- *. rewrite Hsame in IH |- *.
    rewrite filter_cons_False by (intros ?; done).
    rewrite list_filter_filter_l by done.
    rewrite map_cons, concat_cons in IH. exact IH.
  - rewrite df_day_absent by done. rewrite unique_filter_fresh by done. exact IH.
Qed.

(** The rows of the table are the surviving entries, in feed order. *)
Lemma forecast_rows_survivors items tz rows :
  forecast_rows items tz = Ok rows →
  Forall2 (λ item r, ∃ dt, convert_timestamp_to_local (item_dt item) tz = Ok (Some dt)
                           ∧ forecast_row item dt = Ok r)
          (filter (survives tz) items) rows.
Proof.
  revert rows. induction items as [|item items IH]; intros rows; simpl.
  - intros [= <-]. constructor.
  - destruct (convert_timestamp_to_local (item_dt item) tz) as [[dt|]|e] eqn:Hc;
      simpl; [| |done].
    + destruct (forecast_row item dt) as [r|e] eqn:Hr; simpl; [|done].
      destruct (forecast_rows items tz) as [rs|e]; simpl; [|done].
      intros [= <-]. rewrite filter_cons_True.
      * constructor; [eauto | by apply IH].
      * unfold convert_timestamp_to_local in Hc. unfold survives.
        destruct (item_dt item), tz; simpl in Hc; try discriminate; eauto.
    + intros Hrows. rewrite filter_cons_False; [by apply IH|].
      unfold convert_timestamp_to_local in Hc. intros [[ts Hts] [off ->]].
      rewrite Hts in Hc. simpl in Hc.
      destruct (datetime.utcfromtimestamp ts); simpl in Hc; [|done].
      destruct (datetime.timedelta off); simpl in Hc; [|done].
      destruct (datetime.add _ _); simpl in Hc; done.
Qed.

Lemma convert_timestamp_to_local_Some ts off dt :
  convert_timestamp_to_local (Some ts) (Some off) = Ok (Some dt) →
  dt = datetime.mk (ts + off) ∧ datetime.representable (ts + off) = true.
Proof.
  unfold convert_timestamp_to_local, datetime.utcfromtimestamp.
  destruct (datetime.representable ts); [|done]. simpl.
  destruct (datetime.timedelta off) as [delta|] eqn:Hdelta; [|done]. simpl.
  unfold datetime.timedelta in Hdelta. destruct (_ && _); [|done].
  injection Hdelta as <-. unfold datetime.add. simpl.
  destruct (datetime.representable (ts + off)); [|done]. simpl. by intros [= <-].
Qed.

Lemma forecast_rows_without_offset items : forecast_rows items None = Ok [].
Proof.
  induction items as [|item items IH]; [done|]. simpl.
  assert (convert_timestamp_to_local (item_dt item) None = Ok None) as ->
    by (unfold convert_timestamp_to_local; by destruct (item_dt item)).
  exact IH.
Qed.

(** The dates of the table are the local dates of the timestamps. *)
Lemma forecast_rows_dates items off rows :
  forecast_rows items (Some off) = Ok rows →
  map FilterDate rows
  = map (λ ts, datetime.date_of (datetime.mk (ts + off))) (stamps items)
  ∧ Forall (λ ts, datetime.representable (ts + off) = true) (stamps items).
Proof.
  revert rows. induction items as [|item items IH]; intros rows; simpl.
  - intros [= <-]. by split.
  - unfold stamps. simpl. destruct (item_dt item) as [ts|] eqn:Hts; simpl.
    + destruct (convert_timestamp_to_local (Some ts) (Some off)) as [[dt|]|] eqn:Hc;
        simpl; [| |done].
      * apply convert_timestamp_to_local_Some in Hc as [-> Hrep].
        destruct (forecast_row item _) as [r|] eqn:Hr; simpl; [|done].
        destruct (forecast_rows items (Some off)) as [rs|]; simpl; [|done].
        intros [= <-]. destruct (IH rs eq_refl) as [Hdates Hall].
        split; [|by constructor]. simpl. f_equal; [|done].
        unfold forecast_row in Hr. destruct (first_weather _); [|done].
        simpl in Hr. by injection Hr as <-.
      * unfold convert_timestamp_to_local in Hc.
        destruct (datetime.utcfromtimestamp ts); simpl in Hc; [|done].
        destruct (datetime.timedelta off); simpl in Hc; [|done].
        destruct (datetime.add _ _); simpl in Hc; done.
    + apply IH.
Qed.

(** Timestamps that never decrease give dates that stand together. *)
Lemma stamps_contiguous off ss :
  StronglySorted Z.le ss →
  Forall (λ ts, datetime.representable (ts + off) = true) ss →
  contiguous (map (λ ts, datetime.date_of (datetime.mk (ts + off))) ss).
Proof.
  induction 1 as [|s ss Hsorted IH Hle]; [done|].
  intros [Hs Hall]%Forall_cons_1. split; [|by apply IH].
  intros (s3 & Hsame & Hs3)%list_elem_of_fmap.
  destruct ss as [|s2 ss']; [by apply elem_of_nil in Hs3|]. simpl. f_equal.
  apply Forall_cons_1 in Hle as [Hle2 Hle'].
  apply (date_of_between (s + off) (s2 + off) (s3 + off)); [done| |done].
  apply elem_of_cons in Hs3 as [->|Hs3]; [lia|].
  apply StronglySorted_inv in Hsorted as [_ Hle3].
  pose proof (proj1 (Forall_forall _ _) Hle3 s3 Hs3). lia.
Qed.





Lemma chronological_contiguous items tz rows :
  forecast_rows items tz = Ok rows → chronological items →
  contiguous (map FilterDate rows).
Proof.
  intros Hrows Hsorted. destruct tz as [off|].
  - destruct (forecast_rows_dates _ _ _ Hrows) as [-> Hall].
    by apply stamps_contiguous.
  - rewrite forecast_rows_without_offset in Hrows. by injection Hrows as <-.
Qed.

End Groups.

(** X3. The grouping key and the time shown on a card are those of the
    local instant, timestamp plus offset, not of the UTC instant. *)
Theorem grouping_key_is_local_date (items : list forecast_item) (off : Z) (rows : list row) :
  forecast_rows items (Some off) = Ok rows →
  map FilterDate rows
  = map (λ ts, datetime.date_of (datetime.mk (ts + off))) (stamps items)
  ∧ map Time rows
    = map (λ ts, datetime.strftime_H_M (datetime.mk (ts + off))) (stamps items).
Proof.
  revert rows. induction items as [|item items IH]; intros rows; simpl.
  - by intros [= <-].
  - unfold stamps. simpl. destruct (item_dt item) as [ts|] eqn:Hts; simpl.
    + destruct (convert_timestamp_to_local (Some ts) (Some off)) as [[dt|]|] eqn:Hc;
        simpl; [| |done].
      * apply convert_timestamp_to_local_Some in Hc as [-> Hrep].
        destruct (forecast_row item _) as [r|] eqn:Hr; simpl; [|done].
        destruct (forecast_rows items (Some off)) as [rs|]; simpl; [|done].
        intros [= <-]. destruct (IH rs eq_refl) as [Hdates Htimes].
        unfold forecast_row in Hr. destruct (first_weather _); [|done].
        simpl in Hr. injection Hr as <-. simpl. split; by f_equal.
      * unfold convert_timestamp_to_local in Hc.
        destruct (datetime.utcfromtimestamp ts); simpl in Hc; [|done].
        destruct (datetime.timedelta off); simpl in Hc; [|done].
        destruct (datetime.add _ _); simpl in Hc; done.
    + apply IH.
Qed.

Lemma grouping_key_is_local_date_witness :
  (map FilterDate <$> forecast_rows [sample_entry 1699999200 "Clear"] (Some 19800))
  = Ok [datetime.mkdate 2023 11 15]
  ∧ datetime.date_of (datetime.mk 1699999200) = datetime.mkdate 2023 11 14.
Proof.
  destruct (forecast_rows [sample_entry 1699999200 "Clear"] (Some 19800)) as [rows|] eqn:Hrows;
    [|by vm_compute in Hrows].
  destruct (grouping_key_is_local_date _ _ _ Hrows) as [Hdates _].
  split; [|by vm_compute]. simpl. rewrite Hdates. vm_compute. reflexivity.
Defined.

(** The day-groups of the sample feeds, by the times of their rows. *)
Example nine_steps_groups :
  (rows ← forecast_rows nine_steps (Some 0);
   groups ← day_groups rows;
   titles ← tab_titles (map fst groups);
   mret (titles, map (λ g, map Time g.2) groups))
  = Ok (["Today (Nov 14)"; "Tomorrow (Nov 15)"],
        [["06:00"; "09:00"; "12:00"; "15:00"; "18:00"; "21:00"];
         ["00:00"; "03:00"; "06:00"]]).
Proof. vm_compute. reflexivity. Qed.

Example nine_steps_rows :
  (rows ← forecast_rows nine_steps (Some 0);
   groups ← day_groups rows;
   mret (map (λ g, map (map Time) <$> card_rows g.2) groups))
  = Ok [Ok [["06:00"; "09:00"; "12:00"; "15:00"]; ["18:00"; "21:00"]];
        Ok [["00:00"; "03:00"; "06:00"]]].
Proof. vm_compute. reflexivity. Qed.

(** Outside the chronological feeds the groups put end to end need not be
    the filtered feed: for the stamps 0, 86400, 3600 the table has the times
    00:00, 00:00, 01:00 and the groups hold 00:00, 01:00 (1 January 1970)
    and then 00:00 (2 January). *)
Example interleaved_feed_regrouped :
  (rows ← forecast_rows interleaved (Some 0);
   groups ← day_groups rows;
   mret (map Time rows, map Time (concat (map snd groups))))
  = Ok (["00:00"; "00:00"; "01:00"], ["00:00"; "01:00"; "00:00"]).
Proof. vm_compute. reflexivity. Qed.

(** Two chronological feeds of one entry from which no table is built: a
    timestamp in the year 10000, and a weather list that is there and
    empty.  The exception leaves [display_forecast] before anything is
    drawn. *)
Example feeds_without_table (format_float : nat → float → string) :
  chronological year_10000 ∧ chronological empty_weather_list
  ∧ forecast_rows year_10000 (Some 0) = Raise ValueError
  ∧ forecast_rows empty_weather_list (Some 0) = Raise IndexError
  ∧ display_forecast format_float {| fc_list := Some year_10000; fc_cnt := Some 1 |} (Some 0)
    = Run [] (Raise ValueError)
  ∧ display_forecast format_float {| fc_list := Some empty_weather_list; fc_cnt := Some 1 |}
      (Some 0)
    = Run [] (Raise IndexError).
Proof.
  split; [apply (bool_decide_unpack _); by vm_compute|].
  split; [apply (bool_decide_unpack _); by vm_compute|].
  repeat split; vm_compute; reflexivity.
Qed.




(** ** Tab titles *)

Section Titles.
Import datetime.

Lemma convert_representable ts tz dt :
  convert_timestamp_to_local ts tz = Ok (Some dt) → representable (seconds dt) = true.
Proof.
  unfold convert_timestamp_to_local. destruct ts as [ts|], tz as [tz|]; try done.
  unfold utcfromtimestamp. destruct (representable ts); [|done]. simpl.
  destruct (timedelta tz) as [delta|]; [|done]. simpl.
  unfold add. simpl. destruct (representable (ts + delta)) eqn:Hr; [|done].
  simpl. by intros [= <-].
Qed.

Lemma forecast_row_date item dt r :
  forecast_row item dt = Ok r → FilterDate r = date_of dt.
Proof.
  unfold forecast_row. destruct (first_weather _); [|done]. simpl. by intros [= <-].
Qed.

Lemma forecast_rows_valid items tz rows :
  forecast_rows items tz = Ok rows →
  Forall (λ r, valid_date (FilterDate r) = true) rows.
Proof.
  intros Hrows%forecast_rows_survivors.
  induction Hrows as [|item r items' rows' (dt & Hdt & Hr) _ IH]; constructor; [|done].
  rewrite (forecast_row_date _ _ _ Hr). destruct dt as [s].
  apply ord2ymd_valid, representable_ordinal, (convert_representable _ _ _ Hdt).
Qed.

Lemma tab_title_valid i date :
  valid_date date = true → tab_title i date = Ok (positional_label i date).
Proof.
  intros Hvalid. unfold tab_title, positional_label.
  destruct i as [|[|i]]; [done..|].
  rewrite strptime_isoformat by done.
  destruct (of_date date) as [dt|] eqn:Hdt.
  - simpl. unfold strftime_A, date_strftime_A. by rewrite (weekday_of_date _ _ Hdt).
  - unfold of_date in Hdt. by rewrite Hvalid in Hdt.
Qed.

Lemma tab_titles_from_valid i dates :
  Forall (λ d, valid_date d = true) dates →
  tab_titles_from i dates = Ok (imap (λ j, positional_label (i + j)) dates).
Proof.
  intros Hvalid. revert i. induction Hvalid as [|d dates Hd _ IH]; intros i; [done|].
  simpl. rewrite tab_title_valid by done. simpl. rewrite IH. simpl.
  rewrite Nat.add_0_r. do 2 f_equal. apply imap_ext. intros j ? _. simpl.
  f_equal. lia.
Qed.

Lemma date_names_defined date :
  valid_date date = true →
  date_strftime_A date ∈ day_name
  ∧ ∃ b, month_abbr !! Z.to_nat (month date - 1) = Some b
         ∧ strftime_b_d date = b +:+ " " +:+ fmt2 (day date).
Proof.
  intros Hvalid. split.
  - unfold date_strftime_A.
    destruct (lookup_lt_is_Some_2 day_name (Z.to_nat (date_weekday date))) as [nm Hnm].
    { unfold date_weekday. simpl. lia. }
    rewrite Hnm. simpl. by eapply list_elem_of_lookup_2.
  - unfold valid_date in Hvalid. repeat (apply andb_prop in Hvalid as [Hvalid ?]).
    destruct (lookup_lt_is_Some_2 month_abbr (Z.to_nat (month date - 1))) as [b Hb].
    { simpl. lia. }
    exists b. split; [done|]. unfold strftime_b_d. by rewrite Hb.
Qed.

End Titles.

(** C3. The tab titles are assigned by position, from the groups alone (no
    clock is read): for the day-groups of any feed the first title starts
    with Today, the second with Tomorrow, and every later one with the weekday
    name of the group's date (one of Monday to Sunday); each title ends with
    the abbreviated month and the day of the month of that date, in
    brackets. *)
Theorem tab_titles_positional items tz rows :
  forecast_rows items tz = Ok rows →
  tab_titles (unique (map FilterDate rows))
  = Ok (imap positional_label (unique (map FilterDate rows)))
  ∧ ∀ date, date ∈ unique (map FilterDate rows) →
      datetime.date_strftime_A date ∈ datetime.day_name
      ∧ ∃ b, datetime.month_abbr !! Z.to_nat (datetime.month date - 1) = Some b
             ∧ datetime.strftime_b_d date = b +:+ " " +:+ datetime.fmt2 (datetime.day date).
Proof.
  intros Hrows%forecast_rows_valid.
  assert (Hdates : Forall (λ d, datetime.valid_date d = true) (unique (map FilterDate rows))).
  { apply Forall_forall. intros d (r & -> & Hr)%elem_of_unique%list_elem_of_fmap.
    by apply (proj1 (Forall_forall _ _) Hrows). }
  split.
  - unfold tab_titles. by rewrite tab_titles_from_valid.
  - intros date Hd. apply date_names_defined.
    by apply (proj1 (Forall_forall _ _) Hdates).
Qed.

Lemma tab_titles_positional_witness :
  tab_titles (unique (map FilterDate nine_rows))
  = Ok ["Today (Nov 14)"; "Tomorrow (Nov 15)"].
Proof.
  destruct (tab_titles_positional nine_steps (Some 0) nine_rows) as [-> _].
  - vm_compute. reflexivity.
  - vm_compute. reflexivity.
Defined.

(** ** Local time *)

(** C5, as the claim words it, fails: the first second of the year 10000 is
    a timestamp that is not missing, the offset 0 is not missing, and no
    local time is computed: [utcfromtimestamp] raises. *)
Lemma convert_year_10000_raises :
  convert_timestamp_to_local (Some 253402300800) (Some 0) = Raise ValueError
  ∧ ¬ (∀ ts tz, ∃ dt, convert_timestamp_to_local (Some ts) (Some tz) = Ok (Some dt)
                      ∧ datetime.seconds dt = ts + tz).
Proof.
  split; [by vm_compute|]. intros H.
  destruct (H 253402300800 0) as (dt & Hdt & _). vm_compute in Hdt. discriminate.
Qed.

(** C5 (amended). For a timestamp and an offset that are both present and
    for which the UTC instant and the shifted instant are both datetimes the
    library can hold (years 1 to 9999), the computed local time is the UTC
    time plus the offset, exactly.  When the timestamp or the offset is
    missing the conversion returns [None], and the loop over the feed then
    skips the entry: the table is that of the remaining entries, and nothing
    is raised or reported for the skipped one. *)
Theorem convert_timestamp_to_local_exact ts tz :
  datetime.representable ts = true →
  datetime.representable (ts + tz) = true →
  convert_timestamp_to_local (Some ts) (Some tz) = Ok (Some (datetime.mk (ts + tz)))
  ∧ convert_timestamp_to_local None (Some tz) = Ok None
  ∧ convert_timestamp_to_local (Some ts) None = Ok None
  ∧ convert_timestamp_to_local None None = Ok None
  ∧ ∀ item rest offset,
      ¬ survives offset item →
      forecast_rows (item :: rest) offset = forecast_rows rest offset.
Proof.
  intros Hts Hlocal. repeat split.
  - unfold convert_timestamp_to_local, datetime.utcfromtimestamp. rewrite Hts. simpl.
    unfold datetime.timedelta.
    assert (Hdelta : (-999999999 <=? tz `div` 86400) && (tz `div` 86400 <=? 999999999) = true).
    { unfold datetime.representable, datetime.EPOCH_ORDINAL, datetime.MAXORDINAL in *. lia. }
    rewrite Hdelta. simpl. unfold datetime.add. simpl. by rewrite Hlocal.
  - intros item rest offset Hskip. simpl.
    assert (convert_timestamp_to_local (item_dt item) offset = Ok None) as ->; [|done].
    unfold convert_timestamp_to_local, survives in *.
    destruct (item_dt item), offset; try done. destruct Hskip. eauto.
Qed.

Lemma convert_timestamp_to_local_exact_witness :
  convert_timestamp_to_local (Some 1700000000) (Some 19800)
  = Ok (Some (datetime.mk 1700019800)).
Proof.
  apply (convert_timestamp_to_local_exact 1700000000 19800); vm_compute; reflexivity.
Defined.

(** ** Floats: dividing a finite degree value by the sector width *)

Section FloatRounding.

Lemma digits2_pos_bounds p :
  2 ^ (Z.pos (digits2_pos p) - 1) ≤ Z.pos p < 2 ^ Z.pos (digits2_pos p).
Proof.
  induction p as [p IH|p IH|]; simpl digits2_pos.
  - rewrite Pos2Z.inj_succ, Z.pow_succ_r by lia.
    replace (Z.succ (Z.pos (digits2_pos p)) - 1)
      with (Z.succ (Z.pos (digits2_pos p) - 1)) by lia.
    rewrite Z.pow_succ_r by lia. lia.
  - rewrite Pos2Z.inj_succ, Z.pow_succ_r by lia.
    replace (Z.succ (Z.pos (digits2_pos p)) - 1)
      with (Z.succ (Z.pos (digits2_pos p) - 1)) by lia.
    rewrite Z.pow_succ_r by lia. lia.
  - simpl. lia.
Qed.

Lemma Zdigits2_le m k : 0 ≤ k → 0 ≤ m < 2 ^ k → Zdigits2 m ≤ k.
Proof.
  intros Hk [Hm Hlt]. destruct m as [|p|p]; simpl; [lia| |lia].
  pose proof (digits2_pos_bounds p) as [Hlo _].
  assert (2 ^ (Z.pos (digits2_pos p) - 1) < 2 ^ k) as Hpow by lia.
  apply Z.pow_lt_mono_r_iff in Hpow; lia.
Qed.

Lemma shr_1_div mrs : 0 ≤ shr_m mrs → shr_m (shr_1 mrs) = shr_m mrs `div` 2.
Proof.
  destruct mrs as [m r s]. simpl. intros Hm.
  destruct m as [|[p|p|]|p]; simpl; try lia.
Qed.

Lemma iter_shr_1_div p mrs :
  0 ≤ shr_m mrs → shr_m (SpecFloat.iter_pos shr_1 p mrs) = shr_m mrs `div` 2 ^ Z.pos p.
Proof.
  revert mrs. induction p as [p IH|p IH|]; intros mrs Hm; simpl SpecFloat.iter_pos.
  - assert (H1 : 0 ≤ shr_m (shr_1 mrs)) by (rewrite shr_1_div by done; lia).
    assert (H2 : 0 ≤ shr_m (SpecFloat.iter_pos shr_1 p (shr_1 mrs)))
      by (rewrite IH by done; apply Z.div_pos; lia).
    rewrite IH, IH, shr_1_div by done.
    rewrite !Z.div_div by lia. f_equal.
    replace (Z.pos p~1) with (1 + Z.pos p + Z.pos p) by lia.
    rewrite !Z.pow_add_r by lia. change (2 ^ 1) with 2. ring.
  - assert (H2 : 0 ≤ shr_m (SpecFloat.iter_pos shr_1 p mrs))
      by (rewrite IH by done; apply Z.div_pos; lia).
    rewrite IH, IH by done.
    rewrite !Z.div_div by lia. f_equal.
    replace (Z.pos p~0) with (Z.pos p + Z.pos p) by lia.
    by rewrite !Z.pow_add_r by lia.
  - rewrite shr_1_div by done. done.
Qed.

Lemma shr_fexp_div m e l :
  0 ≤ m →
  let '(mrs, e') := shr_fexp prec emax m e l in
  e' = Z.max e (fexp prec emax (Zdigits2 m + e))
  ∧ shr_m mrs = m `div` 2 ^ (e' - e).
Proof.
  intros Hm. unfold shr_fexp, shr.
  assert (Hrec : shr_m (shr_record_of_loc m l) = m) by (by destruct l as [|[]]).
  destruct (fexp prec emax (Zdigits2 m + e) - e) as [|p|p] eqn:Hn.
  - split; [lia|]. rewrite Hrec. replace (_ - e) with 0 by lia. by rewrite Z.div_1_r.
  - split; [lia|]. rewrite iter_shr_1_div by lia. rewrite Hrec. do 2 f_equal. lia.
  - split; [lia|]. rewrite Hrec. replace (_ - e) with 0 by lia. by rewrite Z.div_1_r.
Qed.

Lemma round_nearest_even_bounds m l :
  0 ≤ m → m ≤ round_nearest_even m l ≤ m + 1.
Proof. intros Hm. destruct l as [|[]]; simpl; [lia| |lia|lia]. destruct (Z.even m); lia. Qed.

Lemma pow2_div_bound m K e e' :
  0 ≤ m < 2 ^ Z.max 0 (K - e) → e ≤ e' →
  0 ≤ m `div` 2 ^ (e' - e) < 2 ^ Z.max 0 (K - e').
Proof.
  intros [Hm Hlt] He. split; [apply Z.div_pos; lia|].
  apply Z.div_lt_upper_bound; [lia|].
  rewrite <- Z.pow_add_r by lia.
  eapply Z.lt_le_trans; [exact Hlt|]. apply Z.pow_le_mono_r; lia.
Qed.


Lemma binary_round_aux_finite sx m e l K :
  0 ≤ m < 2 ^ Z.max 0 (K - e) → K ≤ 1023 → e ≤ 971 →
  finite_sf (binary_round_aux prec emax sx m e l) = true.
Proof.
  intros Hm HK He. unfold binary_round_aux.
  pose proof (shr_fexp_div m e l (proj1 Hm)) as H1.
  destruct (shr_fexp prec emax m e l) as [mrs1 e1]. destruct H1 as [He1 Hm1].
  assert (Hd : Zdigits2 m ≤ Z.max 0 (K - e)) by (apply Zdigits2_le; lia).
  assert (He1' : e ≤ e1 ≤ 971) by (unfold fexp, SpecFloat.emin, prec, emax in He1; lia).
  pose proof (pow2_div_bound m K e e1 Hm (proj1 He1')) as Hb1. rewrite <- Hm1 in Hb1.
  pose proof (round_nearest_even_bounds (shr_m mrs1) (loc_of_shr_record mrs1) (proj1 Hb1)) as Hr.
  set (m2 := round_nearest_even (shr_m mrs1) (loc_of_shr_record mrs1)) in *.
  assert (Hm2 : 0 ≤ m2 < 2 ^ (Z.max 0 (K - e1) + 1)).
  { rewrite Z.pow_add_r by lia. change (2 ^ 1) with 2. lia. }
  pose proof (shr_fexp_div m2 e1 loc_Exact (proj1 Hm2)) as H2.
  destruct (shr_fexp prec emax m2 e1 loc_Exact) as [mrs2 e2]. destruct H2 as [He2 Hm3].
  assert (Hd2 : Zdigits2 m2 ≤ Z.max 0 (K - e1) + 1) by (apply Zdigits2_le; lia).
  assert (He2' : e1 ≤ e2 ≤ 971) by (unfold fexp, SpecFloat.emin, prec, emax in He2; lia).
  assert (Hm3' : 0 ≤ shr_m mrs2) by (rewrite Hm3; apply Z.div_pos; lia).
  destruct (shr_m mrs2) as [|p|p]; [done| |lia].
  assert ((e2 <=? emax - prec) = true) as -> by (unfold emax, prec; lia). done.
Qed.

Lemma SFdiv_sector_finite x :
  valid_binary x = true → finite_sf x = true →
  finite_sf (SFdiv prec emax x sector_sf) = true.
Proof.
  intros Hvalid Hfin. destruct x as [s|s| |s m e]; try done.
  unfold sector_sf, SFdiv, SFdiv_core_binary.
  simpl in Hvalid. unfold bounded, canonical_mantissa in Hvalid.
  apply andb_prop in Hvalid as [Hcanon Hemax].
  change (Zdigits2 (Z.pos m)) with (Z.pos (digits2_pos m)).
  change (Zdigits2 6333186975989760) with 53.
  pose proof (digits2_pos_bounds m) as [_ Hdig].
  set (d1 := Z.pos (digits2_pos m)) in *.
  assert (Hd1 : 1 ≤ d1 ≤ 53 ∧ e ≤ 971)
    by (unfold fexp, SpecFloat.emin, prec, emax in *; lia).
  set (e' := Z.min (fexp prec emax (d1 + e - (53 + (-48)))) (e - (-48))).
  assert (He' : e' ≤ e + 48 ∧ e' ≤ 971)
    by (subst e'; unfold fexp, SpecFloat.emin, prec, emax; lia).
  set (sh := e - (-48) - e').
  set (m' := match sh with Z.pos _ => Z.shiftl (Z.pos m) sh | 0 => Z.pos m | Z.neg _ => 0 end).
  assert (Hm' : m' = Z.pos m * 2 ^ sh).
  { subst m'. destruct sh as [|p|p] eqn:Hsh; [simpl; lia| |lia].
    by rewrite Z.shiftl_mul_pow2 by lia. }
  pose proof (Z_div_mod m' 6333186975989760 eq_refl) as Hdiv.
  destruct (Z.div_eucl m' 6333186975989760) as [q r]. destruct Hdiv as [Hq Hr].
  apply (binary_round_aux_finite _ q e' _ (d1 + e - 4)); [|lia|lia].
  assert (Hpow : 2 ^ (d1 + sh) ≤ 2 ^ 52 * 2 ^ Z.max 0 (d1 + e - 4 - e')).
  { rewrite <- Z.pow_add_r by lia. apply Z.pow_le_mono_r; lia. }
  assert (Hlt : m' < 2 ^ (d1 + sh)).
  { rewrite Hm', Z.pow_add_r by lia. apply Z.mul_lt_mono_pos_r; lia. }
  assert (0 ≤ m') by (rewrite Hm'; lia).
  assert (H52 : 2 ^ 52 = 4503599627370496) by reflexivity.
  nia.
Qed.

End FloatRounding.

Lemma div_sector_finite (x : float) :
  finite_float x = true → finite_float (x / sector) = true.
Proof.
  unfold finite_float. intros Hx. rewrite div_spec.
  change (Prim2SF sector) with sector_sf.
  apply SFdiv_sector_finite; [apply Prim2SF_valid | done].
Qed.

Lemma py_round_finite (x : float) : finite_float x = true → ∃ n, py_round x = Ok n.
Proof.
  unfold finite_float, py_round. destruct (Prim2SF x); try done; by eexists.
Qed.

Lemma py_round_no_IndexError (x : float) : py_round x ≠ Raise IndexError.
Proof. unfold py_round. by destruct (Prim2SF x). Qed.

Lemma getitem_directions index :
  0 ≤ index ≤ 15 → ∃ s, directions !! Z.to_nat index = Some s
                        ∧ getitem directions index = Ok s ∧ s ∈ directions.
Proof.
  intros Hi. destruct (lookup_lt_is_Some_2 directions (Z.to_nat index)) as [s Hs].
  { simpl. lia. }
  exists s. unfold getitem. rewrite Hs. split; [done|]. split; [done|].
  by eapply list_elem_of_lookup_2.
Qed.

(** ** Wind direction *)

(** C4, as the claim words it, fails on one of its boundary values: 22.49
    degrees is 0.9995... sectors, which rounds to 1, so the answer is NNE and
    not N. *)
Lemma wind_22_49_is_NNE :
  get_wind_direction (Some (PyFloat 22.49)) = Ok "NNE"
  ∧ get_wind_direction (Some (PyFloat 22.49)) ≠ Ok "N".
Proof. split; [by vm_compute|]. vm_compute. discriminate. Qed.

(** C4 (amended). The sector width [360. / 16] is exactly 22.5, the index is
    [round(degrees / 22.5) mod 16] into the 16-point list, and on the
    boundary values the conversion yields 0 -> N, 90 -> E, 180 -> S,
    270 -> W, 360 -> N, 22.49 -> NNE, 22.5 -> NNE (given as floats or, where
    whole, as ints).  The boundary between N and NNE is half a sector, 11.25,
    which rounds to the even index 0. *)
Theorem wind_direction_boundaries :
  sector = 22.5%float
  ∧ (∀ deg, get_wind_direction (Some deg)
            = (d ← to_float deg;
               r ← py_round (d / 22.5)%float;
               getitem directions (r `mod` 16)))
  ∧ map (λ d, get_wind_direction (Some (PyFloat d)))
        [0; 90; 180; 270; 360; 22.49; 22.5; 11.25; 11.26]%float
    = [Ok "N"; Ok "E"; Ok "S"; Ok "W"; Ok "N"; Ok "NNE"; Ok "NNE"; Ok "N"; Ok "NNE"]
  ∧ map (λ n, get_wind_direction (Some (PyInt n))) [0; 90; 180; 270; 360]
    = [Ok "N"; Ok "E"; Ok "S"; Ok "W"; Ok "N"].
Proof.
  assert (Hsector : sector = 22.5%float) by (vm_compute; reflexivity).
  split; [done|]. split; [|split; vm_compute; reflexivity].
  intros deg. unfold get_wind_direction, wind_index. rewrite Hsector.
  destruct (to_float deg) as [d|]; [|done]. simpl.
  by destruct (py_round _).
Qed.

(** C10, as the claim words it, fails: the conversion is not total over the
    numbers.  For NaN, which is what [display_forecast] stores for an entry
    without [wind.deg] and then passes on, [round] raises [ValueError]; for
    an infinity it raises [OverflowError]. *)
Lemma wind_direction_nan_raises :
  get_wind_direction (Some (PyFloat nan)) = Raise ValueError
  ∧ get_wind_direction (Some (PyFloat infinity)) = Raise OverflowError
  ∧ get_wind_direction (Some (WindDeg
       {| Time := ""; MainCondition := ""; ConditionEmoji := ""; ConditionDescription := "";
          Temp := np_nan; FeelsLike := np_nan; Humidity := np_nan; WindSpeed := np_nan;
          WindDeg := default np_nan (wind_deg empty_wind);
          FilterDate := datetime.mkdate 1970 1 1 |})) = Raise ValueError.
Proof. repeat split; vm_compute; reflexivity. Qed.

(** C10 (amended). For a missing degree value the conversion returns the
    marker N/A.  For every numeric degree value whose float value [d] is
    finite (negative values and values above 360 included) the quotient
    [d / 22.5] is finite too, so [round] succeeds, the index
    [round(d / 22.5) mod 16] lies in 0..15 and the conversion returns the
    compass string at that index, one of the sixteen.  For no number at all
    does the conversion fail on an index that is out of range. *)
Theorem get_wind_direction_finite (deg : pynum) (d : float) :
  to_float deg = Ok d → finite_float d = true →
  get_wind_direction None = Ok "N/A"
  ∧ (∃ index s, wind_index deg = Ok index ∧ 0 ≤ index ≤ 15
                ∧ directions !! Z.to_nat index = Some s
                ∧ get_wind_direction (Some deg) = Ok s
                ∧ s ∈ directions)
  ∧ ∀ x, get_wind_direction (Some x) ≠ Raise IndexError.
Proof.
  intros Hd Hfin. split; [done|]. split.
  - destruct (py_round_finite _ (div_sector_finite d Hfin)) as [r Hr].
    pose proof (Z.mod_pos_bound r 16 eq_refl) as Hindex.
    destruct (getitem_directions (r `mod` 16)) as (s & Hs & Hget & Hin); [lia|].
    exists (r `mod` 16), s. unfold get_wind_direction, wind_index.
    rewrite Hd. simpl. rewrite Hr. simpl.
    repeat split; try done; lia.
  - intros x. unfold get_wind_direction, wind_index.
    change (Z.of_nat (length directions)) with 16.
    destruct (to_float x) as [f|e] eqn:Hx; simpl.
    + destruct (py_round (f / sector)) as [r|e] eqn:Hr; simpl.
      * pose proof (Z.mod_pos_bound r 16 eq_refl) as Hindex.
        destruct (getitem_directions (r `mod` 16)) as (s & _ & -> & _); [lia|done].
      * intros [= ->]. by apply py_round_no_IndexError in Hr.
    + intros [= ->]. destruct x as [z|f]; [|done].
      unfold to_float, float_of_int in Hx. by destruct (binary_normalize _ _ _ _ _).
Qed.

Lemma get_wind_direction_finite_witness :
  get_wind_direction (Some (PyFloat (-90))) = Ok "W".
Proof.
  destruct (get_wind_direction_finite (PyFloat (-90)) (-90)%float)
    as (_ & (index & s & _ & _ & _ & Hs & _) & _).
  - reflexivity.
  - vm_compute. reflexivity.
  - rewrite Hs. vm_compute in Hs. injection Hs as <-. reflexivity.
Defined.

(** ** Fetching *)

Section Fetching.
Implicit Types (key : string) (w : world) (city_name country_code : string).

Lemma handle_api_error_missing :
  handle_api_error PLACEHOLDER = Run credential_report (Ok true).
Proof. unfold handle_api_error. by rewrite decide_True. Qed.

Lemma handle_api_error_configured key :
  key ≠ PLACEHOLDER → handle_api_error key = Run [] (Ok false).
Proof. intros Hkey. unfold handle_api_error. by rewrite decide_False. Qed.

(** The current-conditions fetch never raises and never calls the forecast
    endpoint. *)
Lemma get_current_weather_data_requests key w city_name country_code :
  (∃ data, outcome (get_current_weather_data key w city_name country_code) = Ok data)
  ∧ requests_to FORECAST_URL (get_current_weather_data key w city_name country_code) = [].
Proof.
  unfold get_current_weather_data, requests_to, handle_api_error.
  case_decide as Hkey.
  - split; [by eexists|]. reflexivity.
  - unfold requests_get.
    destruct (current_endpoint w _) as [msg|status text [value|msg]].
    + split; [by eexists|]. reflexivity.
    + run_app.
      destruct ((400 <=? status) && (status <? 600)); [destruct (status =? 404)|];
        (split; [by eexists|reflexivity]).
    + run_app.
      destruct ((400 <=? status) && (status <? 600)); [destruct (status =? 404)|];
        (split; [by eexists|reflexivity]).
Qed.

Lemma credential_report_no_request url params : http_get url params ∉ credential_report.
Proof.
  intros Hin. unfold credential_report in Hin.
  repeat (apply elem_of_cons in Hin as [Hin|Hin]; [discriminate|]).
  by apply elem_of_nil in Hin.
Qed.

End Fetching.

(** C8. The specification asks both fetches to detect and report a missing
    credential whenever none is configured.  The program does so when the
    secrets file is there and has no key: the module-level read falls back
    to the placeholder, and each fetch then shows the two error messages,
    returns [None] and sends nothing.  With no secrets file at all the
    subscript at module level raises [FileNotFoundError], which the handler
    for [KeyError] does not catch: the script ends there, before [main],
    with nothing drawn, so the check of [handle_api_error] is never reached
    and neither fetch reports anything. *)
Theorem missing_secrets_file_stops_script :
  OWM_API_KEY None = Raise FileNotFoundError
  ∧ (∀ countries_get str_KeyError format_float str_num file u w,
       secrets w = None →
       script countries_get str_KeyError format_float str_num file u w
       = Shown [] (Failed FileNotFoundError))
  ∧ (∀ file, file !! "openweathermap_api_key" = None → OWM_API_KEY (Some file) = Ok PLACEHOLDER)
  ∧ (∀ w city_name country_code,
       get_current_weather_data PLACEHOLDER w city_name country_code
       = Run credential_report (Ok None)
       ∧ get_forecast_data PLACEHOLDER w city_name country_code
         = Run credential_report (Ok None))
  ∧ (∀ url params, http_get url params ∉ credential_report).
Proof.
  split; [done|]. split; [|split; [|split]].
  - intros countries_get str_KeyError format_float str_num file u w Hnone.
    unfold script. by rewrite Hnone.
  - intros file Hfile. unfold OWM_API_KEY, st_secrets_getitem. by rewrite Hfile.
  - intros w city_name country_code. split.
    + unfold get_current_weather_data. by rewrite handle_api_error_missing.
    + unfold get_forecast_data. by rewrite handle_api_error_missing.
  - apply credential_report_no_request.
Qed.

Section MainContent.
Variable format_float : nat → float → string.
Variable str_num : pynum → string.

(** The forecast endpoint is only called after the current-conditions fetch
    has returned a payload that counts as true. *)
Lemma forecast_request_needs_current key w fetch_button selected_city country_name
  country_code :
  requests_to FORECAST_URL
    (main_content format_float str_num key w fetch_button selected_city country_name
       country_code)
  ≠ [] →
  ∃ city current,
    selected_city = Some city
    ∧ outcome (get_current_weather_data key w city country_code) = Ok (Some current)
    ∧ current_truthy current = true.
Proof.
  unfold main_content.
  destruct fetch_button; [|done]. destruct selected_city as [city|]; [|done].
  case_decide as Hcity; [done|].
  destruct (get_current_weather_data_requests key w city country_code) as [[data Hdata] Hnone].
  unfold requests_to in *. run_app. rewrite Hdata.
  destruct data as [current|].
  - destruct (current_truthy current) eqn:Htruthy; [by eauto|].
    cbn [trace]. by rewrite app_nil_r.
  - cbn [trace]. by rewrite app_nil_r.
Qed.

End MainContent.

(** C9. When a city is selected, a key is configured and the
    current-conditions endpoint answers the query with 404, the run sends
    that one request, tells the user the city was not found, and ends
    normally: the forecast endpoint is not called.  In every run, the
    forecast endpoint is called only if the current-conditions fetch
    returned a payload. *)
Theorem not_found_skips_forecast (format_float : nat → float → string)
  (str_num : pynum → string) (key : string) (w : world)
  (city country_name country_code text : string) (content : response_body current_payload) :
  key ≠ PLACEHOLDER →
  city ≠ "" →
  current_endpoint w (query_params key city country_code) = Response 404 text content →
  main_content format_float str_num key w true (Some city) country_name country_code
  = Run [http_get CURRENT_WEATHER_URL (query_params key city country_code);
         st_error ("City '" +:+ city +:+
                   "' not found for current weather. Please select another city.")]
        (Ok ())
  ∧ requests_to FORECAST_URL
      (main_content format_float str_num key w true (Some city) country_name country_code) = []
  ∧ ∀ key' w' fetch_button selected_city,
      requests_to FORECAST_URL
        (main_content format_float str_num key' w' fetch_button selected_city country_name
           country_code) ≠ [] →
      ∃ city' current,
        selected_city = Some city'
        ∧ outcome (get_current_weather_data key' w' city' country_code) = Ok (Some current)
        ∧ current_truthy current = true.
Proof.
  intros Hkey Hcity H404.
  assert (Hrun : main_content format_float str_num key w true (Some city) country_name
                   country_code
                 = Run [http_get CURRENT_WEATHER_URL (query_params key city country_code);
                        st_error ("City '" +:+ city +:+
                          "' not found for current weather. Please select another city.")]
                       (Ok ())).
  { unfold main_content. rewrite decide_False by done.
    unfold get_current_weather_data. rewrite handle_api_error_configured by done.
    unfold requests_get. rewrite H404. reflexivity. }
  split; [exact Hrun|]. split.
  - rewrite Hrun. reflexivity.
  - intros key' w' fetch_button selected_city. apply forecast_request_needs_current.
Qed.

Lemma not_found_skips_forecast_witness :
  trace (main_content (λ _ _, "") (λ _, "") sample_key world_404 true (Some "Pune") "India" "IN")
  = [http_get CURRENT_WEATHER_URL [("q", "Pune,IN"); ("appid", "0123456789abcdef");
                                   ("units", "metric")];
     st_error "City 'Pune' not found for current weather. Please select another city."].
Proof.
  destruct (not_found_skips_forecast (λ _ _, "") (λ _, "") sample_key world_404 "Pune" "India"
              "IN" "404 Client Error: Not Found" (Json sample_current)) as [-> _].
  - vm_compute. discriminate.
  - discriminate.
  - reflexivity.
  - reflexivity.
Defined.

(** X4. With a key configured each fetch makes exactly one request and
    every failure is reported: a transport failure, an HTTP error status
    and, under any other status, a body that is not JSON each give one
    message and the result [None]; a body that is JSON under a status that
    is no error is returned, with no message.  There is no second
    attempt. *)
Theorem fetch_failures_reported (key : string) (w : world) (city_name country_code : string) :
  key ≠ PLACEHOLDER →
  get_current_weather_data key w city_name country_code
  = (let request := http_get CURRENT_WEATHER_URL (query_params key city_name country_code) in
     match current_endpoint w (query_params key city_name country_code) with
     | TransportFailure msg =>
         Run [request; st_error ("Error connecting to OWM API for current weather: " +:+ msg)]
             (Ok None)
     | Response status text content =>
         if (400 <=? status) && (status <? 600) then
           Run [request;
                st_error (if status =? 404
                          then "City '" +:+ city_name +:+
                               "' not found for current weather. Please select another city."
                          else "HTTP Error fetching current weather: " +:+ text)]
               (Ok None)
         else
           match content with
           | Json data => Run [request] (Ok (Some data))
           | NotJson msg =>
               Run [request;
                    st_error ("Error connecting to OWM API for current weather: " +:+ msg)]
                   (Ok None)
           end
     end)
  ∧ get_forecast_data key w city_name country_code
    = (let request := http_get FORECAST_URL (query_params key city_name country_code) in
       match forecast_endpoint w (query_params key city_name country_code) with
       | TransportFailure msg =>
           Run [request; st_error ("Error connecting to OWM API for forecast: " +:+ msg)]
               (Ok None)
       | Response status text content =>
           if (400 <=? status) && (status <? 600) then
             Run [request;
                  if status =? 404
                  then st_warning "Forecast data not available for this specific city."
                  else st_error ("HTTP Error fetching forecast: " +:+ text)]
                 (Ok None)
           else
             match content with
             | Json data => Run [request] (Ok (Some data))
             | NotJson msg =>
                 Run [request; st_error ("Error connecting to OWM API for forecast: " +:+ msg)]
                     (Ok None)
             end
       end).
Proof.
  intros Hkey. split.
  - unfold get_current_weather_data. rewrite handle_api_error_configured by done.
    unfold requests_get.
    destruct (current_endpoint w _) as [msg|status text [data|msg]]; [done| |].
    + run_app. destruct ((400 <=? status) && (status <? 600)); [|done].
      by destruct (status =? 404).
    + run_app. destruct ((400 <=? status) && (status <? 600)); [|done].
      by destruct (status =? 404).
  - unfold get_forecast_data. rewrite handle_api_error_configured by done.
    unfold requests_get.
    destruct (forecast_endpoint w _) as [msg|status text [data|msg]]; [done| |].
    + run_app. destruct ((400 <=? status) && (status <? 600)); [|done].
      by destruct (status =? 404).
    + run_app. destruct ((400 <=? status) && (status <? 600)); [|done].
      by destruct (status =? 404).
Qed.

Lemma fetch_failures_reported_witness :
  get_current_weather_data sample_key world_404 "Pune" "IN"
  = Run [http_get CURRENT_WEATHER_URL (query_params sample_key "Pune" "IN");
         st_error "City 'Pune' not found for current weather. Please select another city."]
        (Ok None)
  ∧ get_forecast_data sample_key world_not_json "Pune" "IN"
    = Run [http_get FORECAST_URL (query_params sample_key "Pune" "IN");
           st_error "Error connecting to OWM API for forecast: Expecting value: line 1 column 1 (char 0)"]
          (Ok None).
Proof.
  destruct (fetch_failures_reported sample_key world_404 "Pune" "IN") as [-> _];
    [by vm_compute|].
  destruct (fetch_failures_reported sample_key world_not_json "Pune" "IN") as [_ ->];
    [by vm_compute|].
  split; reflexivity.
Defined.

(** X5. Partial success: when the current conditions are fetched and shown
    and the forecast fetch then fails, everything the current-conditions
    renderer drew stays in the run, followed by the header, the one forecast
    request and its error message, and the run ends normally. *)
Theorem partial_success_renders_current (format_float : nat → float → string)
  (str_num : pynum → string) (key : string) (w : world)
  (city country_name country_code msg : string) (current : current_payload) :
  key ≠ PLACEHOLDER →
  city ≠ "" →
  current_endpoint w (query_params key city country_code) = Response 200 "" (Json current) →
  current_truthy current = true →
  outcome (display_weather format_float str_num current) = Ok () →
  forecast_endpoint w (query_params key city country_code) = TransportFailure msg →
  main_content format_float str_num key w true (Some city) country_name country_code
  = Run (http_get CURRENT_WEATHER_URL (query_params key city country_code)
         :: trace (display_weather format_float str_num current)
         ++ [st_header "5-Day Forecast: Hourly Breakdown 🗓️";
             http_get FORECAST_URL (query_params key city country_code);
             st_error ("Error connecting to OWM API for forecast: " +:+ msg)])
        (Ok ()).
Proof.
  intros Hkey Hcity Hcurrent Htruthy Hshown Hforecast.
  unfold main_content. rewrite decide_False by done.
  unfold get_current_weather_data, get_forecast_data.
  rewrite handle_api_error_configured by done.
  unfold requests_get. rewrite Hcurrent, Hforecast. simpl. run_app.
  rewrite Htruthy. cbn [trace outcome]. rewrite Hshown. cbn [trace outcome]. reflexivity.
Qed.

Lemma partial_success_renders_current_witness :
  last (trace (main_content (λ _ _, "") (λ _, "") sample_key world_forecast_down true
                 (Some "Pune") "India" "IN"))
  = Some (st_error "Error connecting to OWM API for forecast: Connection refused")
  ∧ metric_shown (main_content (λ _ _, "") (λ _, "") sample_key world_forecast_down true
                    (Some "Pune") "India" "IN") "Wind Gust" = Some "N/A".
Proof.
  rewrite (partial_success_renders_current (λ _ _, "") (λ _, "") sample_key world_forecast_down
             "Pune" "India" "IN" "Connection refused" sample_current).
  - split; vm_compute; reflexivity.
  - vm_compute. discriminate.
  - discriminate.
  - reflexivity.
  - reflexivity.
  - vm_compute. reflexivity.
  - reflexivity.
Defined.

(** ** Rendering at the edges *)

(** C6. The specification asks for the no-data warning whenever no entry is
    left after the filter.  The program tests the list before the filter:
    an empty or absent list gives the warning and nothing else, but a list
    whose entries are all dropped (here, one entry without a timestamp; or
    any feed with the offset missing) gets past the test, builds a table
    without columns, and the lookup of FilterDate raises [KeyError]: no
    warning is shown and no tab is drawn. *)
Theorem display_forecast_all_dropped (format_float : nat → float → string) :
  display_forecast format_float {| fc_list := Some [no_timestamp]; fc_cnt := Some 1 |} (Some 0)
  = Run [] (Raise (KeyError "FilterDate"))
  ∧ display_forecast format_float {| fc_list := Some nine_steps; fc_cnt := Some 9 |} None
    = Run [] (Raise (KeyError "FilterDate"))
  ∧ display_forecast format_float {| fc_list := Some []; fc_cnt := Some 0 |} (Some 0)
    = Run [st_warning "No forecast data available for this location."] (Ok ())
  ∧ display_forecast format_float {| fc_list := None; fc_cnt := None |} (Some 0)
    = Run [st_warning "No forecast data available for this location."] (Ok ()).
Proof. repeat split; vm_compute; reflexivity. Qed.

(** C7. The specification asks for an N/A marker for every absent optional
    field.  The program does that for the wind gust, the cloudiness, the
    visibility, the wind direction and the sun times.  For an absent
    temperature it raises [TypeError] (a format specification applied to
    [None]) after three widgets, and an absent wind speed, pressure or
    humidity is shown as the text None with its unit. *)
Theorem display_weather_missing_fields (format_float : nat → float → string)
  (str_num : pynum → string) :
  display_weather format_float str_num without_temperature
  = Run [st_markdown "## 🌎 Current Weather in Pune, IN"; st_columns 2;
         st_markdown "### 🌁 Haze (Haze)"]
        (Raise TypeError)
  ∧ outcome (display_weather format_float str_num without_wind_speed) = Ok ()
  ∧ map (metric_shown (display_weather format_float str_num without_wind_speed))
        ["Wind Gust"; "Cloudiness"; "Visibility"; "Wind Direction";
         "Wind Speed"; "Pressure"; "Humidity"]
    = [Some "N/A"; Some "N/A"; Some "N/A"; Some "N/A";
       Some "None m/s"; Some "None hPa"; Some "None %"].
Proof. repeat split; vm_compute; reflexivity. Qed.

(** ** The forecast tabs *)

(** X6. The end-to-end example of the specification: nine three-hour
    entries, six on the first local day and three on the next, offset 0.
    The run draws two tabs titled Today and Tomorrow; the first day takes a
    row of four cards and a row of two, the second day one row of three. *)
Theorem nine_steps_end_to_end (format_float : nat → float → string) :
  let run := display_forecast format_float {| fc_list := Some nine_steps; fc_cnt := Some 9 |}
               (Some 0) in
  outcome run = Ok ()
  ∧ head (trace run) = Some (st_tabs ["Today (Nov 14)"; "Tomorrow (Nov 15)"])
  ∧ omap slot_of (trace run)
    = [new_row; card_at 0 0; card_at 0 1; card_at 0 2; card_at 0 3;
       new_row; card_at 0 0; card_at 0 1;
       new_row; card_at 1 0; card_at 1 1; card_at 1 2].
Proof. repeat split; vm_compute; reflexivity. Qed.

Section Cards.
Variable format_float : nat → float → string.

(** What a card that could be made is made of. *)
Lemma html_card_Ok (r : row) (c : card) :
  html_card format_float r = Ok c →
  ∃ wind_dir temp_text feels_text humidity_text speed_text,
    get_wind_direction (Some (WindDeg r)) = Ok wind_dir
    ∧ format_fixed format_float 1 (Temp r) = Ok temp_text
    ∧ format_fixed format_float 1 (FeelsLike r) = Ok feels_text
    ∧ format_fixed format_float 0 (Humidity r) = Ok humidity_text
    ∧ format_fixed format_float 1 (WindSpeed r) = Ok speed_text
    ∧ c = {| card_style := dict_get CARD_STYLES (MainCondition r)
                             (dict_get CARD_STYLES "Default" "");
             card_time := Time r;
             card_condition := ConditionEmoji r +:+ " " +:+ ConditionDescription r;
             card_temp := temp_text +:+ "°C";
             card_feels := feels_text +:+ "°C";
             card_humidity := humidity_text +:+ "%";
             card_wind := speed_text +:+ " m/s " +:+ wind_dir |}.
Proof.
  unfold html_card. intros Hc.
  destruct (get_wind_direction _) as [wind_dir|]; [|done]. simpl in Hc.
  destruct (format_fixed _ 1 (Temp r)) as [temp_text|]; [|done]. simpl in Hc.
  destruct (format_fixed _ 1 (FeelsLike r)) as [feels_text|]; [|done]. simpl in Hc.
  destruct (format_fixed _ 0 (Humidity r)) as [humidity_text|]; [|done]. simpl in Hc.
  destruct (format_fixed _ 1 (WindSpeed r)) as [speed_text|]; [|done]. simpl in Hc.
  injection Hc as <-. by eexists _, _, _, _, _.
Qed.


End Cards.

(** X7. A condition without an entry in the tables falls back: the emoji is
    the question mark and the card takes the Default style. *)
Theorem unmapped_condition_falls_back (format_float : nat → float → string)
  (item : forecast_item) (dt : datetime.t) (r : row) (c : card) :
  forecast_row item dt = Ok r → html_card format_float r = Ok c →
  (WEATHER_EMOJIS !! MainCondition r = None → ConditionEmoji r = "❓")
  ∧ (CARD_STYLES !! MainCondition r = None →
     CARD_STYLES !! "Default" = Some (card_style c)).
Proof.
  intros Hr Hc. split.
  - intros Hnone. unfold forecast_row in Hr. destruct (first_weather _); [|done].
    simpl in Hr. injection Hr as <-. simpl in *. unfold dict_get. by rewrite Hnone.
  - intros Hnone. apply html_card_Ok in Hc as (? & ? & ? & ? & ? & _ & _ & _ & _ & _ & ->).
    simpl. unfold dict_get at 1. rewrite Hnone. reflexivity.
Qed.

Lemma unmapped_condition_falls_back_witness :
  ∃ r c, forecast_row (sample_entry 0 "Meteors") (datetime.mk 0) = Ok r
         ∧ html_card (λ _ _, "") r = Ok c
         ∧ ConditionEmoji r = "❓"
         ∧ CARD_STYLES !! "Default" = Some (card_style c).
Proof.
  destruct (forecast_row (sample_entry 0 "Meteors") (datetime.mk 0)) as [r|] eqn:Hr;
    [|by vm_compute in Hr].
  destruct (html_card (λ _ _, "") r) as [c|] eqn:Hc.
  - destruct (unmapped_condition_falls_back (λ _ _, "") _ _ r c Hr Hc) as [Hemoji Hstyle].
    assert (Hmain : MainCondition r = "Meteors")
      by (vm_compute in Hr; by injection Hr as <-).
    exists r, c. rewrite Hmain in *.
    split; [done|]. split; [done|]. split; [by apply Hemoji | by apply Hstyle].
  - vm_compute in Hr. injection Hr as <-. vm_compute in Hc. discriminate.
Defined.

Section DayTrace.
Variable format_float : nat → float → string.

Lemma for_each_runs {A} (l : list A) (body : A → App unit) (tr : A → list event) :
  (∀ x, x ∈ l → body x = Run (tr x) (Ok ())) →
  for_each l body = Run (flat_map tr l) (Ok ()).
Proof.
  induction l as [|x l IH]; intros Hbody; [done|]. simpl.
  rewrite (Hbody x) by by left. run_app. rewrite IH; [done|].
  intros y Hy. apply Hbody. by right.
Qed.

Lemma card_loop_runs (tab : nat) (day : list row) (cards : list card) len a c :
  Forall2 (λ r x, html_card format_float r = Ok x) day cards →
  (a + len ≤ length cards)%nat →
  for_each (zip (seq c len) (seq a len)) (λ '(col_offset, internal_idx),
      hour_data ← lift (iloc day internal_idx);
      x ← lift (html_card format_float hour_data);
      _ ← emit (st_card tab col_offset x);
      emit (st_markdown ""))
  = Run (flat_map (λ '(column, x), [st_card tab column x; st_markdown ""])
           (zip (seq c len) (take len (drop a cards))))
        (Ok ()).
Proof.
  intros Hcards. revert a c. induction len as [|len IH]; intros a c Hlen; [done|].
  destruct (lookup_lt_is_Some_2 cards a) as [x Hx]; [lia|].
  destruct (Forall2_lookup_r _ _ _ _ _ Hcards Hx) as (r & Hr & Hcard).
  rewrite (drop_S _ _ _ Hx). simpl.
  rewrite (iloc_Some _ _ _ Hr). run_app. rewrite Hcard. cbn [trace outcome].
  rewrite IH by lia. reflexivity.
Qed.

End DayTrace.

(** X8. What a tab shows: when every row of the day renders to a card, the
    tab is its heading followed, for each row of [card_rows] in turn, by a
    fresh set of four columns and the row's cards in columns 0, 1, 2, 3. *)
Theorem display_day_shows_card_rows (format_float : nat → float → string)
  (df_forecast : list row) (titles : list string) (i : nat) (date : datetime.date)
  (title : string) (cards : list card) :
  titles !! i = Some title →
  Forall2 (λ r c, html_card format_float r = Ok c) (df_day df_forecast date) cards →
  ∃ rows, card_rows cards = Ok rows
          ∧ display_day format_float df_forecast titles i date
            = Run (st_markdown ("### Hourly Forecast for " +:+ title)
                   :: flat_map (row_events i) rows)
                  (Ok ()).
Proof.
  intros Htitle Hcards.
  pose proof (Forall2_length _ _ _ Hcards) as Hlen.
  set (chunk := λ k : nat, take cols_per_row (drop (k * cols_per_row) cards)).
  exists (map chunk (seq 0 (num_rows (length cards)))). split.
  - unfold card_rows, range. rewrite Nat.sub_0_r. by apply card_rows_from_seq.
  - unfold display_day. rewrite (iloc_Some _ _ _ Htitle), Hlen.
    rewrite (for_each_runs _ _ (λ k, row_events i (chunk k))).
    + run_app. do 2 f_equal. unfold range. rewrite Nat.sub_0_r.
      by rewrite !flat_map_concat_map, map_map.
    + unfold range. rewrite Nat.sub_0_r. intros k Hk%elem_of_seq.
      unfold card_positions, enumerate, range. rewrite length_seq.
      assert (Hrow : (k * cols_per_row < length cards)%nat) by (apply num_rows_gt; lia).
      rewrite (card_loop_runs format_float i _ cards) by (done || lia).
      run_app. unfold row_events, enumerate, chunk. do 3 f_equal.
      assert (Htake : take ((k * cols_per_row + cols_per_row) `min` length cards
                            - k * cols_per_row) (drop (k * cols_per_row) cards)
                      = take cols_per_row (drop (k * cols_per_row) cards)).
      { destruct (decide (k * cols_per_row + cols_per_row ≤ length cards)%nat).
        - f_equal. lia.
        - rewrite !take_ge; [done | rewrite length_drop; lia | rewrite length_drop; lia]. }
      rewrite Htake. do 2 f_equal. rewrite length_take, length_drop. lia.
Qed.

Lemma display_day_shows_card_rows_witness :
  omap slot_of (trace (display_day (λ _ _, "") nine_rows
                         ["Today (Nov 14)"; "Tomorrow (Nov 15)"] 0
                         (datetime.mkdate 2023 11 14)))
  = [new_row; card_at 0 0; card_at 0 1; card_at 0 2; card_at 0 3;
     new_row; card_at 0 0; card_at 0 1].
Proof.
  destruct (display_day_shows_card_rows (λ _ _, "") nine_rows
              ["Today (Nov 14)"; "Tomorrow (Nov 15)"] 0 (datetime.mkdate 2023 11 14)
              "Today (Nov 14)" nine_cards) as (rows & Hrows & ->).
  - reflexivity.
  - assert (df_day nine_rows (datetime.mkdate 2023 11 14) = take 6 nine_rows) as ->
      by (vm_compute; reflexivity).
    unfold nine_rows, nine_cards. cbn [take].
    repeat (apply Forall2_cons_2; [by vm_compute|]). apply Forall2_nil_2.
  - vm_compute in Hrows. injection Hrows as <-. vm_compute. reflexivity.
Defined.

(** ** The city list *)

Section StringOrder.

Lemma ascii_compare_Lt_trans a b c :
  Ascii.compare a b = Lt → Ascii.compare b c = Lt → Ascii.compare a c = Lt.
Proof. unfold Ascii.compare. rewrite !N.compare_lt_iff. lia. Qed.

Lemma string_compare_refl s : String.compare s s = Eq.
Proof.
  induction s as [|a s IH]; [done|]. simpl.
  assert (Ascii.compare a a = Eq) as -> by (unfold Ascii.compare; apply N.compare_refl).
  exact IH.
Qed.

Lemma str_le_trans_aux a b c : str_le a b → str_le b c → str_le a c.
Proof.
  unfold str_le, String.leb. revert b c.
  induction a as [|x a IH]; intros [|y b] [|z c]; simpl; try done.
  destruct (Ascii.compare x y) eqn:Hxy; [| |done].
  - apply Ascii.compare_eq_iff in Hxy as ->.
    destruct (Ascii.compare y z) eqn:Hyz; [|done..]. apply IH.
  - destruct (Ascii.compare y z) eqn:Hyz; [| |done].
    + apply Ascii.compare_eq_iff in Hyz as <-. by rewrite Hxy.
    + by rewrite (ascii_compare_Lt_trans _ _ _ Hxy Hyz).
Qed.

#[global] Instance str_le_trans : Transitive str_le.
Proof. intros a b c. apply str_le_trans_aux. Qed.

#[global] Instance str_le_total : Total str_le.
Proof. intros a b. apply String.leb_total. Qed.

Lemma str_le_neq_lt a b : str_le a b → a ≠ b → str_lt a b.
Proof.
  unfold str_le, str_lt, String.leb, String.ltb.
  destruct (String.compare a b) eqn:Hc; [|done..].
  by apply String.compare_eq_iff in Hc.
Qed.

Lemma str_lt_le a b : str_lt a b → str_le a b ∧ a ≠ b.
Proof.
  unfold str_le, str_lt, String.leb, String.ltb.
  destruct (String.compare a b) eqn:Hc; try done.
  intros _. split; [done|]. intros ->. by rewrite string_compare_refl in Hc.
Qed.

End StringOrder.

Section SortedStrings.

Lemma elem_of_sorted l x : x ∈ sorted l ↔ x ∈ l.
Proof. unfold sorted. by rewrite merge_sort_Permutation. Qed.

Lemma sorted_strictly l : NoDup l → StronglySorted str_lt (sorted l).
Proof.
  intros Hnd.
  assert (Hnd' : NoDup (sorted l)) by (unfold sorted; by rewrite merge_sort_Permutation).
  pose proof (StronglySorted_merge_sort str_le l) as Hs. fold (sorted l) in Hs.
  induction Hs as [|x rest Hs IH Hall]; constructor.
  - apply IH. by apply NoDup_cons_1_2 in Hnd'.
  - apply NoDup_cons in Hnd' as [Hx _].
    apply Forall_forall. intros y Hy. apply str_le_neq_lt.
    + by apply (proj1 (Forall_forall _ _) Hall).
    + by intros ->.
Qed.

Lemma elem_of_unique_values_from seen l x :
  x ∈ unique_values_from seen l ↔ x ∈ l ∧ x ∉ seen.
Proof.
  revert seen. induction l as [|y l IH]; intros seen; simpl.
  - set_solver.
  - case_decide; [rewrite IH | rewrite elem_of_cons, IH];
      destruct (decide (x = y)); set_solver.
Qed.

Lemma NoDup_unique_values_from seen l : NoDup (unique_values_from seen l).
Proof.
  revert seen. induction l as [|y l IH]; intros seen; simpl; [constructor|].
  case_decide; [apply IH|]. constructor; [|apply IH].
  rewrite elem_of_unique_values_from. set_solver.
Qed.

Lemma elem_of_unique_values l x : x ∈ unique_values l ↔ x ∈ l.
Proof. unfold unique_values. rewrite elem_of_unique_values_from. set_solver. Qed.

Lemma NoDup_unique_values l : NoDup (unique_values l).
Proof. apply NoDup_unique_values_from. Qed.

End SortedStrings.

Section Loader.
Variable countries_get : string → option string.
Variable str_KeyError : list string → string.

Local Abbreviation load := (load_and_process_city_data countries_get str_KeyError).
Local Abbreviation name_of := (get_country_name countries_get).

Lemma has_column_true key data :
  has_column key data = true ↔ ∃ r, r ∈ data ∧ key r ≠ Absent.
Proof.
  unfold has_column. rewrite existsb_exists. split.
  - intros (r & Hr%list_elem_of_In & Hkey). exists r. split; [done|]. by destruct (key r).
  - intros (r & Hr%list_elem_of_In & Hkey). exists r. split; [done|]. by destruct (key r).
Qed.

Lemma missing_columns_nil data :
  missing_columns data = [] ↔ has_column json_name data = true ∧ has_column json_country data = true.
Proof.
  unfold missing_columns.
  destruct (has_column json_name data), (has_column json_country data); simpl; split;
    try done; intros [??]; done.
Qed.

Lemma elem_of_dropna data city code :
  (city, code) ∈ dropna data
  ↔ ∃ r, r ∈ data ∧ json_name r = Str city ∧ json_country r = Str code.
Proof.
  unfold dropna. rewrite list_elem_of_omap. split.
  - intros (r & Hr & Hsome). exists r. split; [done|].
    destruct (json_name r), (json_country r); try done. by injection Hsome as -> ->.
  - intros (r & Hr & Hn & Hc). exists r. split; [done|]. by rewrite Hn, Hc.
Qed.

(** What a successful load returns. *)
Lemma load_Some file shown data :
  load file = (shown, Some data) →
  ∃ records,
    file = Parsed records ∧ missing_columns records = []
    ∧ shown = [st_success "City list loaded and country names mapped successfully!"]
    ∧ city_df data = map (λ '(city, code), {| City := city; CountryCode := code;
                                               CountryName := name_of code |})
                         (dropna records)
    ∧ sorted_country_names data = sorted (unique_values (map CountryName (city_df data)))
    ∧ country_map data = foldl (λ m r, <[CountryName r := CountryCode r]> m) ∅ (city_df data).
Proof.
  destruct file as [|text|records]; simpl; [done..|].
  destruct (missing_columns records) eqn:Hmissing; [|done].
  intros [= <- <-]. by exists records.
Qed.

Lemma elem_of_city_df file shown data r :
  load file = (shown, Some data) →
  r ∈ city_df data
  ↔ ∃ records j, file = Parsed records ∧ j ∈ records
                 ∧ json_name j = Str (City r) ∧ json_country j = Str (CountryCode r)
                 ∧ CountryName r = name_of (CountryCode r).
Proof.
  intros (records & -> & _ & _ & -> & _)%load_Some. rewrite list_elem_of_fmap. split.
  - intros ([city code] & -> & (j & Hj & Hn & Hc)%elem_of_dropna). by exists records, j.
  - intros (records' & j & [= <-] & Hj & Hn & Hc & Hname).
    exists (City r, CountryCode r). split.
    + destruct r as [city code name]. simpl in *. by rewrite Hname.
    + apply elem_of_dropna. by exists j.
Qed.

Lemma sorted_country_names_sorted file shown data :
  load file = (shown, Some data) → StronglySorted str_lt (sorted_country_names data).
Proof.
  intros (records & _ & _ & _ & _ & -> & _)%load_Some.
  apply sorted_strictly, NoDup_unique_values.
Qed.

Lemma elem_of_sorted_country_names file shown data name :
  load file = (shown, Some data) →
  name ∈ sorted_country_names data ↔ ∃ r, r ∈ city_df data ∧ CountryName r = name.
Proof.
  intros (records & _ & _ & _ & _ & -> & _)%load_Some.
  rewrite elem_of_sorted, elem_of_unique_values, list_elem_of_fmap.
  split; intros (r & ? & ?); by exists r.
Qed.

(** The dictionary comprehension keeps, for each name, the code of the last
    row with that name. *)
Lemma country_map_lookup (df : list city_row) name code :
  foldl (λ m r, <[CountryName r := CountryCode r]> m) (∅ : gmap string string) df !! name
  = Some code →
  ∃ before r after,
    df = (before ++ r :: after)%list ∧ CountryName r = name ∧ CountryCode r = code
    ∧ Forall (λ r', CountryName r' ≠ name) after.
Proof.
  induction df as [|r df IH] using rev_ind; [done|].
  rewrite foldl_app. simpl. destruct (decide (CountryName r = name)) as [Heq|Hne].
  - rewrite Heq, lookup_insert_eq. intros [= <-]. by exists df, r, [].
  - rewrite lookup_insert_ne by done. intros (before & r0 & after & -> & ? & ? & Hafter)%IH.
    exists before, r0, (after ++ [r])%list. split; [by rewrite <- app_assoc|].
    split; [done|]. split; [done|]. apply Forall_app. split; [done|]. by constructor.
Qed.

Lemma country_map_dom (df : list city_row) name :
  is_Some (foldl (λ m r, <[CountryName r := CountryCode r]> m) (∅ : gmap string string) df
           !! name)
  ↔ name ∈ map CountryName df.
Proof.
  induction df as [|r df IH] using rev_ind.
  - simpl. rewrite lookup_empty. split; [by intros [??]|]. by intros ?%elem_of_nil.
  - rewrite foldl_app, map_app, elem_of_app. simpl.
    destruct (decide (CountryName r = name)) as [Heq|Hne].
    + rewrite Heq, lookup_insert_eq. split; [|by eauto]. intros _. right. by left.
    + rewrite lookup_insert_ne by done. rewrite IH. split; [by left|].
      intros [?|Hin]; [done|]. apply list_elem_of_singleton in Hin. by subst.
Qed.

End Loader.

(** X9. The city list loads exactly when the file holds an array in which
    some record has the key [name] and some record has the key [country].
    Then the loader shows the success message and nothing else.  Otherwise
    (no file, a file that cannot be read or parsed, a column that no record
    has; in particular an empty array) it shows one error message and stops
    the script; for a missing file the message names [city.list.json]. *)
Theorem city_list_loads_iff (countries_get : string → option string)
  (str_KeyError : list string → string) (file : city_file) :
  let loaded := load_and_process_city_data countries_get str_KeyError file in
  (is_Some loaded.2
   ↔ ∃ records, file = Parsed records
                ∧ (∃ r, r ∈ records ∧ json_name r ≠ Absent)
                ∧ (∃ r, r ∈ records ∧ json_country r ≠ Absent))
  ∧ (is_Some loaded.2
     → loaded.1 = [st_success "City list loaded and country names mapped successfully!"])
  ∧ (loaded.2 = None → ∃ msg, loaded.1 = [st_main (st_error msg); st_stop])
  ∧ (file = FileNotFound
     → loaded.1 = [st_main (st_error "⚠️ Error: The file 'city.list.json' was not found. Please download it and save it.");
                   st_stop])
  ∧ (file = Parsed [] → loaded.2 = None).
Proof.
  simpl. split; [|split; [|split; [|split]]].
  - split.
    + intros [data Hdata].
      destruct (load_and_process_city_data _ _ file) as [shown loaded] eqn:Hload.
      simpl in Hdata. subst loaded.
      apply load_Some in Hload as (records & -> & [Hn Hc]%missing_columns_nil & _).
      exists records. split; [done|]. by rewrite <- !has_column_true.
    + intros (records & -> & Hn%has_column_true & Hc%has_column_true).
      simpl. assert (missing_columns records = []) as -> by by apply missing_columns_nil.
      by eexists.
  - intros [data Hdata].
    destruct (load_and_process_city_data _ _ file) as [shown loaded] eqn:Hload.
    simpl in *. subst loaded. by apply load_Some in Hload as (? & _ & _ & -> & _).
  - destruct file as [|text|records]; simpl; [by eauto..|].
    destruct (missing_columns records); [done|by eauto].
  - by intros ->.
  - by intros ->.
Qed.

(** X10. The country names offered are in ascending order without
    repetition, and they are exactly the names of the rows of the city table;
    the rows of the table are exactly the records whose name and country are
    both strings (a record where either is absent or null is dropped), each
    with the name [get_country_name] gives its code. *)
Theorem sorted_country_names_listing (countries_get : string → option string)
  (str_KeyError : list string → string) (file : city_file) (shown : list widget)
  (data : city_data) :
  load_and_process_city_data countries_get str_KeyError file = (shown, Some data) →
  StronglySorted str_lt (sorted_country_names data)
  ∧ (∀ name, name ∈ sorted_country_names data
             ↔ ∃ r, r ∈ city_df data ∧ CountryName r = name)
  ∧ (∀ r, r ∈ city_df data
          ↔ ∃ records j, file = Parsed records ∧ j ∈ records
                         ∧ json_name j = Str (City r)
                         ∧ json_country j = Str (CountryCode r)
                         ∧ CountryName r = get_country_name countries_get (CountryCode r)).
Proof.
  intros Hload. split; [|split].
  - by eapply sorted_country_names_sorted.
  - intros name. by eapply elem_of_sorted_country_names.
  - intros r. by eapply elem_of_city_df.
Qed.

Lemma sorted_country_names_listing_witness :
  ∃ data,
    (load_and_process_city_data sample_countries (λ _, "") (Parsed sample_cities)).2 = Some data
    ∧ sorted_country_names data = ["France"; "India"; "United States"; "XK"]
    ∧ StronglySorted str_lt (sorted_country_names data).
Proof.
  destruct (load_and_process_city_data sample_countries (λ _, "") (Parsed sample_cities))
    as [shown [data|]] eqn:Hload; [|by vm_compute in Hload].
  exists data. split; [done|].
  split; [|by apply (sorted_country_names_listing _ _ _ _ _ Hload)].
  vm_compute in Hload. by injection Hload as _ <-.
Defined.

(** X11. Name to code and back: the dictionary has an entry for exactly
    the names offered, and the code it gives for a name is a code that
    [get_country_name] turns into that name again; it is the code of the
    last row of the table with that name. *)
Theorem country_map_roundtrip (countries_get : string → option string)
  (str_KeyError : list string → string) (file : city_file) (shown : list widget)
  (data : city_data) (name : string) :
  load_and_process_city_data countries_get str_KeyError file = (shown, Some data) →
  (is_Some (country_map data !! name) ↔ name ∈ sorted_country_names data)
  ∧ ∀ code, country_map data !! name = Some code →
      get_country_name countries_get code = name
      ∧ ∃ before r after,
          city_df data = (before ++ r :: after)%list
          ∧ CountryName r = name ∧ CountryCode r = code
          ∧ Forall (λ r', CountryName r' ≠ name) after.
Proof.
  intros Hload.
  pose proof (load_Some _ _ _ _ _ Hload) as (records & _ & _ & _ & _ & Hnames & Hmap).
  split.
  - rewrite Hmap, country_map_dom, Hnames, elem_of_sorted, elem_of_unique_values. done.
  - intros code Hcode. rewrite Hmap in Hcode.
    destruct (country_map_lookup _ _ _ Hcode) as (before & r & after & Hdf & Hname & Hc & Hafter).
    split; [|by exists before, r, after].
    assert (Hr : r ∈ city_df data) by (rewrite Hdf; set_solver).
    apply (elem_of_city_df _ _ _ _ _ _ Hload) in Hr as (_ & _ & _ & _ & _ & _ & Hr).
    by rewrite <- Hc, <- Hr.
Qed.

Lemma country_map_roundtrip_witness :
  ∃ data,
    (load_and_process_city_data sample_countries (λ _, "") (Parsed sample_cities)).2 = Some data
    ∧ country_map data !! "India" = Some "IN"
    ∧ get_country_name sample_countries "IN" = "India".
Proof.
  destruct (load_and_process_city_data sample_countries (λ _, "") (Parsed sample_cities))
    as [shown [data|]] eqn:Hload; [|by vm_compute in Hload].
  exists data. split; [done|].
  assert (Hcode : country_map data !! "India" = Some "IN")
    by (vm_compute in Hload; by injection Hload as _ <-).
  split; [done|].
  destruct (country_map_roundtrip _ _ _ _ _ "India" Hload) as [_ Hround].
  by destruct (Hround _ Hcode) as [? _].
Defined.

(** ** Requests *)

Section Traces.
Context (P : event → Prop).

Lemma trace_bind_Forall {A B} (m : App A) (f : A → App B) :
  Forall P (trace m) → (∀ x, Forall P (trace (f x))) → Forall P (trace (m ≫= f)).
Proof.
  intros Hm Hf. unfold mbind, App_bind. destruct (outcome m) as [x|e]; simpl; [|done].
  apply Forall_app. split; [done|apply Hf].
Qed.

Lemma trace_lift_Forall {A} (r : result A) : Forall P (trace (lift r)).
Proof. constructor. Qed.

Lemma trace_ret_Forall {A} (x : A) : Forall P (trace (mret x : App A)).
Proof. constructor. Qed.

Lemma trace_emit_Forall e : P e → Forall P (trace (emit e)).
Proof. by repeat constructor. Qed.

Lemma trace_for_each_Forall {A} (l : list A) (body : A → App unit) :
  (∀ x, Forall P (trace (body x))) → Forall P (trace (for_each l body)).
Proof.
  intros Hbody. induction l as [|x l IH]; simpl; [constructor|].
  apply trace_bind_Forall; [apply Hbody | by intros _].
Qed.

End Traces.

Ltac widgets_only :=
  repeat first
    [ apply trace_lift_Forall
    | apply trace_ret_Forall
    | apply trace_emit_Forall; reflexivity
    | apply trace_for_each_Forall; let x := fresh in intros x; try destruct x as [? ?]
    | apply trace_bind_Forall; [|intros ?] ].

Section RenderersOffline.
Variable format_float : nat → float → string.
Variable str_num : pynum → string.

(** The renderers draw; they never send a request. *)
Lemma display_weather_offline data :
  Forall (λ e, is_request e = false) (trace (display_weather format_float str_num data)).
Proof. unfold display_weather. widgets_only. Qed.

Lemma display_forecast_offline data tz :
  Forall (λ e, is_request e = false) (trace (display_forecast format_float data tz)).
Proof.
  unfold display_forecast. destruct (default [] (fc_list data)); [widgets_only|].
  widgets_only.
Qed.

Lemma filter_offline (l : list event) :
  Forall (λ e, is_request e = false) l → List.filter is_request l = [].
Proof.
  induction 1 as [|e l He _ IH]; [done|]. simpl. by rewrite He.
Qed.

End RenderersOffline.

Section Requests.
Variable format_float : nat → float → string.
Variable str_num : pynum → string.
Implicit Types (key : string).

Lemma requests_bind {A B} (m : App A) (f : A → App B) :
  requests (m ≫= f)
  = (requests m ++ match outcome m with
                   | Ok x => requests (f x)
                   | Raise _ => []
                   end)%list.
Proof.
  unfold requests, mbind, App_bind. destruct (outcome m) as [x|e]; simpl.
  - by rewrite List.filter_app.
  - by rewrite app_nil_r.
Qed.

Lemma display_weather_requests data :
  requests (display_weather format_float str_num data) = [].
Proof. apply filter_offline, display_weather_offline. Qed.

Lemma display_forecast_requests data tz :
  requests (display_forecast format_float data tz) = [].
Proof. apply filter_offline, display_forecast_offline. Qed.

Lemma get_forecast_data_requests key w city code :
  key ≠ PLACEHOLDER →
  requests (get_forecast_data key w city code) = [http_get FORECAST_URL (query_params key city code)].
Proof.
  intros Hkey. unfold get_forecast_data. rewrite handle_api_error_configured by done.
  unfold requests_get.
  destruct (forecast_endpoint w _) as [msg|status text [data|msg]]; [done| |];
    run_app; (destruct ((400 <=? status) && (status <? 600)); [|done]);
    by destruct (status =? 404).
Qed.

Lemma get_current_weather_data_sent key w city code :
  key ≠ PLACEHOLDER →
  requests (get_current_weather_data key w city code)
  = [http_get CURRENT_WEATHER_URL (query_params key city code)]
  ∧ ∃ data, outcome (get_current_weather_data key w city code) = Ok data.
Proof.
  intros Hkey. unfold get_current_weather_data. rewrite handle_api_error_configured by done.
  unfold requests_get.
  destruct (current_endpoint w _) as [msg|status text [data|msg]]; [by eauto| |];
    run_app; (destruct ((400 <=? status) && (status <? 600)); [|by eauto]);
    destruct (status =? 404); by eauto.
Qed.

(** A run of the content area sends nothing, or one request for the current
    conditions, or that one followed by one for the forecast. *)
Lemma main_content_requests key w fetch_button selected_city country_name country_code :
  let sent := requests (main_content format_float str_num key w fetch_button selected_city
                          country_name country_code) in
  sent = []
  ∨ ∃ city, selected_city = Some city ∧ city ≠ "" ∧ fetch_button = true
            ∧ key ≠ PLACEHOLDER
            ∧ (sent = [http_get CURRENT_WEATHER_URL (query_params key city country_code)]
               ∨ sent = [http_get CURRENT_WEATHER_URL (query_params key city country_code);
                         http_get FORECAST_URL (query_params key city country_code)]).
Proof.
  unfold main_content. destruct fetch_button; [|by left].
  destruct selected_city as [city|]; [|by left].
  case_decide as Hcity; [by left|].
  destruct (decide (key = PLACEHOLDER)) as [Hkey|Hkey].
  { left. unfold get_current_weather_data.
    rewrite Hkey, handle_api_error_missing. reflexivity. }
  right. exists city. do 4 (split; [done|]).
  destruct (get_current_weather_data_sent key w city country_code Hkey) as [Hsent [data Hdata]].
  rewrite requests_bind, Hsent, Hdata.
  destruct data as [current|]; [|by left].
  destruct (current_truthy current); [|by left].
  rewrite requests_bind, display_weather_requests.
  destruct (outcome (display_weather _ _ _)); [|by left].
  rewrite requests_bind. cbn [outcome emit].
  rewrite requests_bind, (get_forecast_data_requests _ _ _ _ Hkey).
  right. simpl. f_equal. f_equal.
  destruct (outcome (get_forecast_data key w city country_code)) as [[forecast|]|]; try done.
  destruct (forecast_truthy forecast); [|done].
  by rewrite display_forecast_requests.
Qed.

End Requests.

(** ** The page *)

Section Sidebar.

Lemma list_index_elem_of x l :
  x ∈ l → ∃ i, list_index x l = Ok i ∧ l !! i = Some x.
Proof.
  intros Hx. unfold list_index.
  destruct (list_find_elem_of (λ y, y = x) l x Hx eq_refl) as [[i y] Hfind].
  rewrite Hfind. apply list_find_Some in Hfind as (Hi & -> & _). by exists i.
Qed.

Lemma default_country_index_Ok names :
  ∃ index, default_country_index names = Ok index
           ∧ ("United States" ∈ names → names !! index = Some "United States")
           ∧ ("United States" ∉ names → index = 0%nat).
Proof.
  unfold default_country_index. case_decide as Hus.
  - destruct (list_index_elem_of _ _ Hus) as (i & -> & Hi). by exists i.
  - by exists 0%nat.
Qed.

Lemma strictly_sorted_head names first :
  StronglySorted str_lt names → names !! 0%nat = Some first →
  ∀ name, name ∈ names → str_le first name.
Proof.
  intros Hsorted Hfirst name Hname. destruct names as [|x names]; [done|].
  injection Hfirst as ->. apply StronglySorted_inv in Hsorted as [_ Hall].
  apply elem_of_cons in Hname as [->|Hname].
  - unfold str_le, String.leb. by rewrite string_compare_refl.
  - by apply str_lt_le, (proj1 (Forall_forall _ _) Hall).
Qed.

Lemma elem_of_city_names_of df selected city :
  city ∈ city_names_of df selected
  ↔ ∃ r, r ∈ df ∧ City r = city ∧ Some (CountryName r) = selected.
Proof.
  unfold city_names_of. rewrite elem_of_sorted, elem_of_unique_values, list_elem_of_fmap.
  split.
  - intros (r & -> & [Hsel Hr]%list_elem_of_filter). by exists r.
  - intros (r & Hr & <- & Hsel). exists r. split; [done|]. by apply list_elem_of_filter.
Qed.

End Sidebar.

Section PageRequests.
Variable countries_get : string → option string.
Variable str_KeyError : list string → string.
Variable format_float : nat → float → string.
Variable str_num : pynum → string.
Variable key : string.

Local Abbreviation load := (load_and_process_city_data countries_get str_KeyError).
Local Abbreviation page := (main countries_get str_KeyError format_float str_num key).

Lemma omap_request_main (l : list event) :
  omap (λ x, match x with
             | st_main (http_get url params) => Some (http_get url params)
             | _ => None
             end) (map st_main l)
  = List.filter is_request l.
Proof.
  induction l as [|e l IH]; [done|].
  rewrite map_cons. destruct e; cbn [omap list_omap List.filter is_request]; by rewrite IH.
Qed.

(** What [main] does once the list is loaded. *)
Lemma main_loaded file shown data u w :
  load file = (shown, Some data) →
  ∃ index,
    default_country_index (sorted_country_names data) = Ok index
    ∧ let selected_country_name :=
        selectbox (sorted_country_names data) index (country_choice u) in
      let city_names := city_names_of (city_df data) selected_country_name in
      let content :=
        main_content format_float str_num key w (fetch_pressed u)
          (selectbox city_names 0 (city_choice u)) (str_option selected_country_name)
          (selected_code (country_map data) selected_country_name) in
      page_requests (page file u w) = requests content
      ∧ ending_of (page file u w) = match outcome content with
                                     | Ok _ => Finished
                                     | Raise e => Failed e
                                     end
      ∧ st_sidebar_selectbox "Select Country" (sorted_country_names data) index
        ∈ widgets (page file u w)
      ∧ st_sidebar_selectbox "City Name" city_names 0 ∈ widgets (page file u w).
Proof.
  intros Hload.
  destruct (default_country_index_Ok (sorted_country_names data)) as (index & Hindex & _).
  exists index. split; [done|]. unfold main. rewrite Hload, Hindex.
  pose proof (load_Some _ _ _ _ _ Hload) as (_ & _ & _ & -> & _).
  cbn zeta. split; [|split; [done|split]].
  - unfold page_requests. cbn [widgets]. rewrite !omap_app, omap_request_main.
    cbn [omap list_omap app]. destruct (selectbox (city_names_of _ _) 0 _) as [city|]; [|done].
    by destruct (_ && _).
  - cbn [widgets]. set_solver.
  - cbn [widgets]. set_solver.
Qed.

End PageRequests.

(** X12. A city list that does not load is fatal: the page ends at
    [st.stop()] exactly when the loader returned nothing, and then it shows
    the three opening widgets, one error message, and no sidebar at all; no
    request is sent whatever the user did.  When the list loads, the page
    always gets its full sidebar (two dropdowns, the button, the notes) before
    anything else happens. *)
Theorem city_list_failure_stops_page (countries_get : string → option string)
  (str_KeyError : list string → string) (format_float : nat → float → string)
  (str_num : pynum → string) (key : string) (file : city_file) (u : user) (w : world) :
  let page := main countries_get str_KeyError format_float str_num key file u w in
  let loaded := load_and_process_city_data countries_get str_KeyError file in
  (ending_of page = Stopped ↔ loaded.2 = None)
  ∧ (loaded.2 = None →
     ∃ msg, widgets page
            = [st_set_page_config "Streamlit Weather App (Extended)" "wide";
               st_title "Local Weather App with OWM Forecast 🗺️";
               st_main (st_markdown "---");
               st_main (st_error msg); st_stop]
            ∧ page_requests page = [])
  ∧ (is_Some loaded.2 →
     ∃ countries index label cities content,
       widgets page
       = ([st_set_page_config "Streamlit Weather App (Extended)" "wide";
           st_title "Local Weather App with OWM Forecast 🗺️";
           st_main (st_markdown "---");
           st_success "City list loaded and country names mapped successfully!";
           st_sidebar_header "Select Location";
           st_sidebar_selectbox "Select Country" countries index;
           st_sidebar_markdown label;
           st_sidebar_selectbox "City Name" cities 0;
           st_sidebar_button "Fetch Weather";
           st_sidebar_markdown "---";
           st_sidebar_info "The city list is loaded once on app startup for fast filtering."]
          ++ content)%list).
Proof.
  cbn zeta.
  destruct (load_and_process_city_data countries_get str_KeyError file)
    as [shown [data|]] eqn:Hload; simpl.
  - destruct (default_country_index_Ok (sorted_country_names data)) as (index & Hindex & _).
    unfold main. rewrite Hload, Hindex. cbn zeta. cbn [ending_of widgets].
    split; [|split; [done|]].
    + split; [|done]. by destruct (outcome _).
    + intros _. apply load_Some in Hload as (_ & _ & _ & -> & _).
      by eexists _, _, _, _, _.
  - unfold main. rewrite Hload. cbn [ending_of widgets]. split; [done|]. split; [|by intros [??]].
    intros _. destruct file as [|text|records]; simpl in Hload.
    + injection Hload as <-. by eexists.
    + injection Hload as <-. by eexists.
    + destruct (missing_columns records); [done|]. injection Hload as <-. by eexists.
Qed.

Section CountryCodes.
Variable countries_get : string → option string.
Variable str_KeyError : list string → string.

Lemma country_map_code file shown data name code :
  load_and_process_city_data countries_get str_KeyError file = (shown, Some data) →
  country_map data !! name = Some code →
  get_country_name countries_get code = name.
Proof.
  intros Hload Hcode.
  pose proof (load_Some _ _ _ _ _ Hload) as (records & _ & _ & _ & _ & _ & Hmap).
  rewrite Hmap in Hcode.
  destruct (country_map_lookup _ _ _ Hcode) as (before & r & after & Hdf & Hname & Hc & _).
  assert (Hr : r ∈ city_df data) by (rewrite Hdf; set_solver).
  apply (elem_of_city_df _ _ _ _ _ _ Hload) in Hr as (_ & _ & _ & _ & _ & _ & Hr).
  by rewrite <- Hc, <- Hr.
Qed.

Lemma country_map_listed file shown data r :
  load_and_process_city_data countries_get str_KeyError file = (shown, Some data) →
  r ∈ city_df data → is_Some (country_map data !! CountryName r).
Proof.
  intros Hload Hr.
  pose proof (load_Some _ _ _ _ _ Hload) as (records & _ & _ & _ & _ & _ & Hmap).
  rewrite Hmap. apply country_map_dom. by apply list_elem_of_fmap_2.
Qed.

End CountryCodes.

(** X13. The country dropdown starts at United States when the list has
    it, and at the first name in order otherwise; looking up the position
    never raises.  With no country at all the dropdown returns [None]. *)
Theorem default_country_is_united_states (countries_get : string → option string)
  (str_KeyError : list string → string) (file : city_file) (shown : list widget)
  (data : city_data) :
  load_and_process_city_data countries_get str_KeyError file = (shown, Some data) →
  let names := sorted_country_names data in
  ∃ index,
    default_country_index names = Ok index
    ∧ (∀ format_float str_num key u w,
         st_sidebar_selectbox "Select Country" names index
         ∈ widgets (main countries_get str_KeyError format_float str_num key file u w))
    ∧ ("United States" ∈ names → selectbox names index None = Some "United States")
    ∧ ("United States" ∉ names →
       index = 0%nat
       ∧ ∀ first, selectbox names index None = Some first →
                  ∀ name, name ∈ names → str_le first name)
    ∧ (names = [] → ∀ choice, selectbox names index choice = None).
Proof.
  intros Hload names.
  destruct (default_country_index_Ok names) as (index & Hindex & Hus & Hother).
  exists index. split; [done|]. split; [|split; [|split]].
  - intros format_float str_num key u w.
    destruct (main_loaded countries_get str_KeyError format_float str_num key file shown data u w
                Hload) as (index' & Hindex' & _ & _ & Hin & _).
    fold names in Hindex'. rewrite Hindex in Hindex'. by injection Hindex' as <-.
  - exact Hus.
  - intros Hno. specialize (Hother Hno) as ->. split; [done|].
    intros first Hfirst. apply strictly_sorted_head; [|done].
    by apply (sorted_country_names_sorted countries_get str_KeyError file shown).
  - intros Hnil choice. unfold selectbox. by rewrite Hnil.
Qed.

Lemma default_country_is_united_states_witness :
  ∃ data index,
    (load_and_process_city_data sample_countries (λ _, "") (Parsed sample_cities)).2 = Some data
    ∧ default_country_index (sorted_country_names data) = Ok index
    ∧ selectbox (sorted_country_names data) index None = Some "United States".
Proof.
  destruct (load_and_process_city_data sample_countries (λ _, "") (Parsed sample_cities))
    as [shown [data|]] eqn:Hload; [|by vm_compute in Hload].
  destruct (default_country_is_united_states _ _ _ _ _ Hload) as (index & Hindex & _ & Hus & _).
  exists data, index. split; [done|]. split; [done|]. apply Hus.
  vm_compute in Hload. injection Hload as _ <-. cbn [sorted_country_names]. set_solver.
Defined.

(** X14. The city dropdown lists exactly the cities of the rows whose
    country name is the selected one, in ascending order and without
    repetition. *)
Theorem city_dropdown_lists_country (countries_get : string → option string)
  (str_KeyError : list string → string) (format_float : nat → float → string)
  (str_num : pynum → string) (key : string) (file : city_file) (shown : list widget)
  (data : city_data) (u : user) (w : world) :
  load_and_process_city_data countries_get str_KeyError file = (shown, Some data) →
  ∃ index cities,
    default_country_index (sorted_country_names data) = Ok index
    ∧ st_sidebar_selectbox "City Name" cities 0
      ∈ widgets (main countries_get str_KeyError format_float str_num key file u w)
    ∧ StronglySorted str_lt cities
    ∧ ∀ city, city ∈ cities
              ↔ ∃ r, r ∈ city_df data ∧ City r = city
                     ∧ Some (CountryName r)
                       = selectbox (sorted_country_names data) index (country_choice u).
Proof.
  intros Hload.
  destruct (main_loaded countries_get str_KeyError format_float str_num key file shown data u w
              Hload) as (index & Hindex & _ & _ & _ & Hin).
  exists index, (city_names_of (city_df data)
                   (selectbox (sorted_country_names data) index (country_choice u))).
  split; [done|]. split; [done|]. split.
  - apply sorted_strictly, NoDup_unique_values.
  - intros city. apply elem_of_city_names_of.
Qed.

Lemma city_dropdown_lists_country_witness :
  ∃ cities,
    st_sidebar_selectbox "City Name" cities 0
    ∈ widgets (main sample_countries (λ _, "") (λ _ _, "") (λ _, "") sample_key (Parsed sample_cities)
                 {| country_choice := Some 1%nat; city_choice := None; fetch_pressed := false |}
                 world_404)
    ∧ "Pune" ∈ cities ∧ "Paris" ∉ cities.
Proof.
  destruct (load_and_process_city_data sample_countries (λ _, "") (Parsed sample_cities))
    as [shown [data|]] eqn:Hload; [|by vm_compute in Hload].
  destruct (city_dropdown_lists_country sample_countries (λ _, "") (λ _ _, "") (λ _, "")
              sample_key (Parsed sample_cities) shown data
              {| country_choice := Some 1%nat; city_choice := None; fetch_pressed := false |}
              world_404 Hload) as (index & cities & Hindex & Hin & _ & Hcities).
  exists cities. split; [done|].
  vm_compute in Hload. injection Hload as _ <-.
  vm_compute in Hindex. injection Hindex as <-.
  rewrite !Hcities. split.
  - exists {| City := "Pune"; CountryCode := "IN"; CountryName := "India" |}.
    split; [|done]. cbn [city_df]. set_solver.
  - intros (r & Hr & Hcity & Hcountry). cbn [city_df] in Hr.
    vm_compute in Hcountry. injection Hcountry as Hcountry.
    repeat (apply elem_of_cons in Hr as [->|Hr]; [done|]). by apply elem_of_nil in Hr.
Defined.

(** X15. Every request a page sends is to one of the two API addresses,
    after the button was pressed, for a city that is not empty and is listed
    in the table, with the country code the dictionary gives for the name of
    that city's country: a code that [get_country_name] turns into that
    name. *)
Theorem request_names_listed_city (countries_get : string → option string)
  (str_KeyError : list string → string) (format_float : nat → float → string)
  (str_num : pynum → string) (key : string) (file : city_file) (shown : list widget)
  (data : city_data) (u : user) (w : world) (request : event) :
  load_and_process_city_data countries_get str_KeyError file = (shown, Some data) →
  request ∈ page_requests (main countries_get str_KeyError format_float str_num key file u w) →
  ∃ url city code r,
    request = http_get url (query_params key city code)
    ∧ (url = CURRENT_WEATHER_URL ∨ url = FORECAST_URL)
    ∧ fetch_pressed u = true ∧ city ≠ ""
    ∧ r ∈ city_df data ∧ City r = city
    ∧ country_map data !! CountryName r = Some code
    ∧ get_country_name countries_get code = CountryName r.
Proof.
  intros Hload Hrequest.
  destruct (main_loaded countries_get str_KeyError format_float str_num key file shown data u w
              Hload) as (index & Hindex & Hsent & _).
  cbn zeta in Hsent. rewrite Hsent in Hrequest. clear Hsent.
  set (selected := selectbox (sorted_country_names data) index (country_choice u)) in *.
  destruct (main_content_requests format_float str_num key w (fetch_pressed u)
              (selectbox (city_names_of (city_df data) selected) 0 (city_choice u))
              (str_option selected) (selected_code (country_map data) selected))
    as [Hnone|(city & Hcity & Hne & Hpressed & _ & Hsent)].
  { rewrite Hnone in Hrequest. by apply elem_of_nil in Hrequest. }
  apply list_elem_of_lookup_2, elem_of_city_names_of in Hcity as (r & Hr & Hname & Hsel).
  destruct (country_map_listed _ _ _ _ _ _ Hload Hr) as [code Hcode].
  assert (Hsame : selected_code (country_map data) selected = code).
  { rewrite <- Hsel. unfold selected_code, dict_get. by rewrite Hcode. }
  rewrite Hsame in Hsent, Hrequest.
  assert (Hurl : ∃ url, request = http_get url (query_params key city code)
                        ∧ (url = CURRENT_WEATHER_URL ∨ url = FORECAST_URL)).
  { destruct Hsent as [Hsent|Hsent]; rewrite Hsent in Hrequest;
      repeat (apply elem_of_cons in Hrequest as [->|Hrequest]; [by eauto|]);
      by apply elem_of_nil in Hrequest. }
  destruct Hurl as (url & -> & Hurl). exists url, city, code, r.
  do 6 (split; [done|]). split; [done|]. by eapply country_map_code.
Qed.

Lemma request_names_listed_city_witness :
  ∃ url city code r,
    http_get CURRENT_WEATHER_URL (query_params sample_key "Paris" "US")
    = http_get url (query_params sample_key city code)
    ∧ City r = city
    ∧ get_country_name sample_countries code = CountryName r.
Proof.
  destruct (load_and_process_city_data sample_countries (λ _, "") (Parsed sample_cities))
    as [shown [data|]] eqn:Hload; [|by vm_compute in Hload].
  assert (Hin : http_get CURRENT_WEATHER_URL (query_params sample_key "Paris" "US")
                ∈ page_requests (main sample_countries (λ _, "") (λ _ _, "") (λ _, "")
                                   sample_key (Parsed sample_cities) first_visit world_404)).
  { vm_compute. set_solver. }
  destruct (request_names_listed_city _ _ _ _ _ _ _ _ _ _ _ Hload Hin)
    as (url & city & code & r & Hrequest & _ & _ & _ & _ & Hcity & _ & Hname).
  by exists url, city, code, r.
Defined.

(** X16. The renderers never send a request.  A run of the content area
    sends nothing at all, or (button pressed, a city selected, a key
    configured) one request for the current conditions, or that request
    followed by one for the forecast with the same query; never more. *)
Theorem at_most_two_requests (format_float : nat → float → string) (str_num : pynum → string)
  (key : string) (w : world) (fetch_button : bool) (selected_city : option string)
  (country_name country_code : string) :
  (∀ data, requests (display_weather format_float str_num data) = [])
  ∧ (∀ data tz, requests (display_forecast format_float data tz) = [])
  ∧ (requests (main_content format_float str_num key w fetch_button selected_city country_name
                 country_code) = []
     ∨ ∃ city,
         selected_city = Some city ∧ city ≠ "" ∧ fetch_button = true
         ∧ key ≠ PLACEHOLDER
         ∧ (requests (main_content format_float str_num key w fetch_button selected_city
                        country_name country_code)
            = [http_get CURRENT_WEATHER_URL (query_params key city country_code)]
            ∨ requests (main_content format_float str_num key w fetch_button selected_city
                          country_name country_code)
              = [http_get CURRENT_WEATHER_URL (query_params key city country_code);
                 http_get FORECAST_URL (query_params key city country_code)])).
Proof.
  split; [|split].
  - intros data. apply display_weather_requests.
  - intros data tz. apply display_forecast_requests.
  - apply main_content_requests.
Qed.

(** ** Wind direction in whole degrees *)

Lemma whole_degrees_checked :
  forallb nearest_point_ok (seqZ (-3600) 7201) = true.
Proof. vm_compute. reflexivity. Qed.

(** X17. For a whole number of degrees (from -3600 to 3600) the conversion
    returns the compass point nearest to it: point [k] stands at [22.5 * k]
    degrees, and the answer is the name of the [k] with
    [|d - 22.5 * k| < 11.25], taken modulo 16.  (A whole degree is never
    half-way between two points.) *)
Theorem wind_direction_whole_degrees (d k : Z) :
  -3600 ≤ d ≤ 3600 → -45 < 4 * d - 90 * k < 45 →
  ∃ s, get_wind_direction (Some (PyInt d)) = Ok s
       ∧ directions !! Z.to_nat (k `mod` 16) = Some s.
Proof.
  intros Hd Hk.
  pose proof whole_degrees_checked as Hall. rewrite forallb_forall in Hall.
  specialize (Hall d). rewrite <- list_elem_of_In, elem_of_seqZ in Hall.
  specialize (Hall ltac:(lia)). unfold nearest_point_ok in Hall.
  assert (Hdiv : (4 * d + 45) `div` 90 = k) by lia. rewrite Hdiv in Hall.
  destruct (get_wind_direction (Some (PyInt d))) as [s|]; [|done].
  unfold getitem in Hall. destruct (directions !! Z.to_nat (k `mod` 16)) as [s'|]; [|done].
  apply bool_decide_eq_true in Hall as ->. by exists s'.
Qed.

Lemma wind_direction_whole_degrees_witness :
  get_wind_direction (Some (PyInt 350)) = Ok "N"
  ∧ get_wind_direction (Some (PyInt (-80))) = Ok "W".
Proof.
  split.
  - destruct (wind_direction_whole_degrees 350 16) as (s & -> & Hs); [lia..|].
    vm_compute in Hs. by injection Hs as <-.
  - destruct (wind_direction_whole_degrees (-80) (-4)) as (s & -> & Hs); [lia..|].
    vm_compute in Hs. by injection Hs as <-.
Defined.

(** ** Calendar order of the tabs *)

Section CalendarOrder.
Import datetime.

Lemma days_before_year_succ y :
  days_before_year (y + 1) = days_before_year y + 365 + (if is_leap y then 1 else 0).
Proof.
  unfold days_before_year, is_leap.
  repeat match goal with
         | |- context [?a =? ?b] => destruct (Z.eqb_spec a b)
         end; simpl; lia.
Qed.

Lemma days_before_year_mono y1 y2 : y1 ≤ y2 → days_before_year y1 ≤ days_before_year y2.
Proof. unfold days_before_year. lia. Qed.

Lemma months_follow leapyear m : 1 ≤ m ≤ 12 → month_follows leapyear m = true.
Proof.
  intros Hm.
  assert (Hall : forallb (λ k, month_follows true k && month_follows false k) (seqZ 1 12) = true)
    by (vm_compute; reflexivity).
  rewrite forallb_forall in Hall.
  specialize (Hall m). rewrite <- list_elem_of_In, elem_of_seqZ in Hall.
  apply andb_prop in Hall as [Ht Hf]; [|lia]. by destruct leapyear.
Qed.

Lemma days_before_month_bounds y m :
  1 ≤ m ≤ 12 →
  0 ≤ days_before_month y m
  ∧ days_before_month y m + days_in_month y m
    = if m =? 12 then 365 + (if is_leap y then 1 else 0) else days_before_month y (m + 1).
Proof.
  intros Hm. pose proof (months_follow (is_leap y) m Hm) as H.
  unfold month_follows in H. apply andb_prop in H as [H0 H1].
  unfold days_before_month, days_in_month. lia.
Qed.

Lemma days_before_month_mono y m1 m2 :
  1 ≤ m1 → m1 ≤ m2 → m2 ≤ 12 → days_before_month y m1 ≤ days_before_month y m2.
Proof.
  intros H1 H12 H2.
  replace m2 with (m1 + Z.of_nat (Z.to_nat (m2 - m1))) in * by lia.
  induction (Z.to_nat (m2 - m1)) as [|k IH]; [by rewrite Z.add_0_r|].
  etrans; [apply IH; lia|].
  destruct (days_before_month_bounds y (m1 + Z.of_nat k)) as [_ Hnext]; [lia|].
  replace (m1 + Z.of_nat (S k)) with (m1 + Z.of_nat k + 1) by lia.
  destruct (Z.eqb_spec (m1 + Z.of_nat k) 12); [lia|].
  assert (1 ≤ days_in_month y (m1 + Z.of_nat k)).
  { unfold days_in_month. destruct (_ && _); [lia|].
    assert (Hm : m1 + Z.of_nat k ∈ seqZ 1 12) by (apply elem_of_seqZ; lia).
    revert Hm. generalize (m1 + Z.of_nat k). intros m Hm.
    repeat (apply elem_of_cons in Hm as [->|Hm]; [by vm_compute|]).
    by apply elem_of_nil in Hm. }
  lia.
Qed.

(** The day number grows with the calendar order. *)
Lemma date_toordinal_mono a b :
  valid_date a = true → valid_date b = true →
  date_toordinal a < date_toordinal b → date_lt a b.
Proof.
  unfold valid_date, MINYEAR, MAXYEAR. intros Ha Hb.
  repeat (apply andb_prop in Ha as [Ha ?]). repeat (apply andb_prop in Hb as [Hb ?]).
  destruct a as [y1 m1 d1], b as [y2 m2 d2]. unfold date_toordinal, date_lt, ymd2ord.
  simpl in *. intros Hlt.
  destruct (days_before_month_bounds y1 m1) as [Ha0 Ha1]; [lia|].
  destruct (days_before_month_bounds y2 m2) as [Hb0 Hb1]; [lia|].
  destruct (Z.lt_trichotomy y1 y2) as [Hy|[->|Hy]]; [by left| |].
  - right. split; [done|].
    destruct (Z.lt_trichotomy m1 m2) as [Hm|[->|Hm]]; [by left| |].
    + right. split; [done|]. lia.
    + exfalso.
      pose proof (days_before_month_mono y2 (m2 + 1) m1 ltac:(lia) ltac:(lia) ltac:(lia)).
      destruct (Z.eqb_spec m2 12); lia.
  - exfalso.
    pose proof (days_before_year_succ y2) as Hsucc.
    pose proof (days_before_year_mono (y2 + 1) y1 ltac:(lia)) as Hmono.
    assert (days_before_month y2 m2 + days_in_month y2 m2
            ≤ 365 + (if is_leap y2 then 1 else 0)).
    { destruct (Z.eqb_spec m2 12) as [->|Hne]; [lia|].
      destruct (days_before_month_bounds y2 12) as [_ H12]; [lia|].
      pose proof (days_before_month_mono y2 (m2 + 1) 12 ltac:(lia) ltac:(lia) ltac:(lia)).
      assert (1 ≤ days_in_month y2 12) by (unfold days_in_month; by vm_compute).
      simpl in H12. lia. }
    lia.
Qed.

End CalendarOrder.

Section TabOrder.
Import datetime.

Lemma StronglySorted_filter {A} (R : relation A) (P : A → Prop) `{!∀ x, Decision (P x)} l :
  StronglySorted R l → StronglySorted R (filter P l).
Proof.
  induction 1 as [|x l Hs IH Hall]; [constructor|].
  destruct (decide (P x)).
  - rewrite filter_cons_True by done. constructor; [done|].
    apply Forall_forall. intros y [_ Hy]%list_elem_of_filter.
    by apply (proj1 (Forall_forall _ _) Hall).
  - by rewrite filter_cons_False.
Qed.

Lemma unique_calendar_order (l : list date) :
  StronglySorted Z.le (map date_toordinal l) →
  Forall (λ d, valid_date d = true) l →
  (∀ a b, a ∈ l → b ∈ l → date_toordinal a = date_toordinal b → a = b) →
  StronglySorted date_lt (unique l).
Proof.
  induction l as [|x l IH]; [constructor|].
  rewrite map_cons. intros [Hsorted Hall]%StronglySorted_inv [Hx Hvalid]%Forall_cons_1 Hinj.
  rewrite unique_cons. constructor.
  - apply StronglySorted_filter, IH; [done..|].
    intros a b Ha Hb. apply Hinj; by right.
  - apply Forall_forall. intros y [Hne Hy]%list_elem_of_filter.
    apply (proj1 (elem_of_unique _ _)) in Hy.
    apply date_toordinal_mono; [done|by apply (proj1 (Forall_forall _ _) Hvalid)|].
    assert (date_toordinal x ≤ date_toordinal y).
    { apply (proj1 (Forall_forall _ _) Hall). by apply list_elem_of_fmap_2. }
    assert (date_toordinal x ≠ date_toordinal y).
    { intros Heq. apply Hne. symmetry. apply Hinj; [by left|by right|done]. }
    lia.
Qed.

Lemma date_toordinal_date_of s :
  representable s = true → date_toordinal (date_of (mk s)) = s `div` 86400 + EPOCH_ORDINAL.
Proof.
  intros Hr%representable_ordinal. unfold date_toordinal, date_of.
  rewrite ymd2ord_ord2ymd by lia. reflexivity.
Qed.

Lemma stamps_day_numbers off ss :
  StronglySorted Z.le ss →
  Forall (λ ts, representable (ts + off) = true) ss →
  StronglySorted Z.le (map (λ ts, date_toordinal (date_of (mk (ts + off)))) ss).
Proof.
  induction 1 as [|s ss Hs IH Hle]; [constructor|].
  intros [Hs0 Hrep]%Forall_cons_1. simpl. constructor; [by apply IH|].
  apply Forall_forall. intros n (s' & -> & Hs')%list_elem_of_fmap.
  rewrite !date_toordinal_date_of;
    [|by apply (proj1 (Forall_forall _ _) Hrep)|done].
  pose proof (proj1 (Forall_forall _ _) Hle s' Hs').
  apply Z.add_le_mono_r, Z.div_le_mono; lia.
Qed.

End TabOrder.

(** X18. In a chronological feed the tabs are in calendar order: the dates
    of the day-groups, in the order of the tabs, strictly increase (by year,
    then month, then day). *)
Theorem tabs_in_calendar_order (items : list forecast_item) (tz : option Z) (rows : list row) :
  forecast_rows items tz = Ok rows → chronological items →
  StronglySorted date_lt (unique (map FilterDate rows)).
Proof.
  intros Hrows Hsorted. destruct tz as [off|].
  2:{ rewrite forecast_rows_without_offset in Hrows. injection Hrows as <-. constructor. }
  pose proof (forecast_rows_valid _ _ _ Hrows) as Hvalid.
  destruct (forecast_rows_dates _ _ _ Hrows) as [Hdates Hrep].
  apply unique_calendar_order.
  - rewrite Hdates, map_map. by apply stamps_day_numbers.
  - apply Forall_forall. intros d (r & -> & Hr)%list_elem_of_fmap.
    by apply (proj1 (Forall_forall _ _) Hvalid).
  - rewrite Hdates. intros a b (s1 & -> & H1)%list_elem_of_fmap (s2 & -> & H2)%list_elem_of_fmap.
    rewrite !date_toordinal_date_of by by apply (proj1 (Forall_forall _ _) Hrep).
    intros Heq. unfold datetime.date_of, datetime.toordinal. simpl. f_equal. lia.
Qed.

Lemma tabs_in_calendar_order_witness :
  StronglySorted date_lt (unique (map FilterDate nine_rows)).
Proof.
  apply (tabs_in_calendar_order nine_steps (Some 0)).
  - vm_compute. reflexivity.
  - apply (bool_decide_unpack _). vm_compute. exact I.
Defined.

(** ** The forecast, card by card *)

Section WindOfACard.






End WindOfACard.

Section Outcomes.




Lemma bind_lift_Ok {A B} (x : A) (f : A → App B) : lift (Ok x) ≫= f = f x.
Proof. unfold mbind, App_bind, lift. simpl. by destruct (f x). Qed.

Lemma bind_emit {B} (e : event) (f : unit → App B) :
  emit e ≫= f = Run (e :: trace (f ())) (outcome (f ())).
Proof. done. Qed.

End Outcomes.

Section DayRuns.
Variable format_float : nat → float → string.

(** A tab whose rows all render: the heading, then the rows of four. *)
Lemma display_day_runs (df_forecast : list row) (titles : list string) (i : nat)
  (date : datetime.date) (title : string) (draw : row → card) :
  titles !! i = Some title →
  Forall (λ r, html_card format_float r = Ok (draw r)) (df_day df_forecast date) →
  display_day format_float df_forecast titles i date
  = Run (st_markdown ("### Hourly Forecast for " +:+ title)
         :: flat_map (row_events i) (chunks (map draw (df_day df_forecast date))))
        (Ok ()).
Proof.
  intros Htitle Hdraw.
  set (day := df_day df_forecast date) in *. set (cards := map draw day).
  assert (Hcards : Forall2 (λ r c, html_card format_float r = Ok c) day cards).
  { subst cards. apply Forall2_fmap_r, Forall_Forall2_diag. exact Hdraw. }
  assert (Hlen : length day = length cards) by (subst cards; by rewrite length_map).
  unfold display_day. fold day. rewrite (iloc_Some _ _ _ Htitle), Hlen.
  set (chunk := λ k : nat, take cols_per_row (drop (k * cols_per_row) cards)).
  rewrite (for_each_runs _ _ (λ k, row_events i (chunk k))).
  - run_app. do 2 f_equal. unfold range, chunks. rewrite Nat.sub_0_r.
    by rewrite !flat_map_concat_map, map_map.
  - unfold range. rewrite Nat.sub_0_r. intros k Hk%elem_of_seq.
    unfold card_positions, enumerate, range. rewrite length_seq.
    assert (Hrow : (k * cols_per_row < length cards)%nat) by (apply num_rows_gt; lia).
    rewrite (card_loop_runs format_float i _ cards) by (done || lia).
    run_app. unfold row_events, enumerate, chunk. do 3 f_equal.
    assert (Htake : take ((k * cols_per_row + cols_per_row) `min` length cards
                          - k * cols_per_row) (drop (k * cols_per_row) cards)
                    = take cols_per_row (drop (k * cols_per_row) cards)).
    { destruct (decide (k * cols_per_row + cols_per_row ≤ length cards)%nat).
      - f_equal. lia.
      - rewrite !take_ge; [done | rewrite length_drop; lia | rewrite length_drop; lia]. }
    rewrite Htake. do 2 f_equal. rewrite length_take, length_drop. lia.
Qed.


End DayRuns.

Section ForecastRuns.
Variable format_float : nat → float → string.

Lemma enumerate_lookup {A} (l : list A) i x : (i, x) ∈ enumerate l ↔ l !! i = Some x.
Proof.
  unfold enumerate. rewrite list_elem_of_lookup. split.
  - intros [j Hj]. rewrite lookup_zip_with in Hj.
    destruct (seq 0 (length l) !! j) as [i'|] eqn:Hi; [|done].
    destruct (l !! j) as [x'|] eqn:Hx; [|done]. simpl in Hj. injection Hj as -> ->.
    apply lookup_seq in Hi as [-> _]. done.
  - intros Hx. exists i. rewrite lookup_zip_with, Hx.
    rewrite lookup_seq_lt by by eapply lookup_lt_Some. done.
Qed.

Lemma forecast_rows_titles items tz rows :
  forecast_rows items tz = Ok rows →
  tab_titles (unique (map FilterDate rows))
  = Ok (imap positional_label (unique (map FilterDate rows))).
Proof.
  intros Hrows%forecast_rows_valid. unfold tab_titles. rewrite tab_titles_from_valid; [done|].
  apply Forall_forall. intros d Hd. apply (proj1 (elem_of_unique _ _)) in Hd.
  apply list_elem_of_fmap in Hd as (r & -> & Hr).
  by apply (proj1 (Forall_forall _ _) Hrows).
Qed.

(** The whole forecast when every row renders: the tabs, then day by day
    the heading and the rows of four. *)
Lemma display_forecast_runs (data : forecast_payload) (items : list forecast_item)
  (tz : option Z) (rows : list row) (draw : row → card) :
  fc_list data = Some items →
  forecast_rows items tz = Ok rows → rows ≠ [] →
  Forall (λ r, html_card format_float r = Ok (draw r)) rows →
  display_forecast format_float data tz
  = Run (st_tabs (imap positional_label (unique (map FilterDate rows)))
         :: flat_map (λ '(i, date),
                        st_markdown ("### Hourly Forecast for " +:+ positional_label i date)
                        :: flat_map (row_events i) (chunks (map draw (df_day rows date))))
                     (enumerate (unique (map FilterDate rows))))
        (Ok ()).
Proof.
  intros Hlist Hrows Hne Hdraw. unfold display_forecast. rewrite Hlist.
  change (default [] (Some items)) with items.
  destruct items as [|item items]; [by injection Hrows as <-|].
  rewrite Hrows, bind_lift_Ok.
  assert (column_FilterDate rows = Ok (map FilterDate rows)) as -> by by destruct rows.
  rewrite bind_lift_Ok, (forecast_rows_titles _ _ _ Hrows), bind_lift_Ok, bind_emit.
  rewrite (for_each_runs _ _
             (λ '(i, date),
                st_markdown ("### Hourly Forecast for " +:+ positional_label i date)
                :: flat_map (row_events i) (chunks (map draw (df_day rows date))))); [done|].
  intros [i date] Hin%enumerate_lookup. apply display_day_runs.
  - by rewrite list_lookup_imap, Hin.
  - apply Forall_forall. intros r [_ Hr]%list_elem_of_filter.
    by apply (proj1 (Forall_forall _ _) Hdraw).
Qed.

End ForecastRuns.

Section CardsDrawn.

Lemma omap_card_of_zip (tab a : nat) (l : list card) :
  omap card_of (flat_map (λ '(column, c), [st_card tab column c; st_markdown ""])
                         (zip (seq a (length l)) l))
  = l.
Proof.
  revert a. induction l as [|c l IH]; intros a; [done|]. simpl. by rewrite IH.
Qed.

Lemma omap_card_of_rows (tab : nat) (rows : list (list card)) :
  omap card_of (flat_map (row_events tab) rows) = concat rows.
Proof.
  induction rows as [|r rows IH]; [done|]. simpl.
  rewrite omap_app, IH. unfold enumerate. by rewrite omap_card_of_zip.
Qed.

Lemma concat_chunks_all {A} (l : list A) : concat (chunks l) = l.
Proof.
  unfold chunks. rewrite concat_chunks. apply take_ge.
  unfold num_rows, cols_per_row. lia.
Qed.

Lemma omap_card_of_days (draw : row → card) (rows : list row)
  (days : list (nat * datetime.date)) :
  omap card_of
    (flat_map (λ '(i, date),
                 st_markdown ("### Hourly Forecast for " +:+ positional_label i date)
                 :: flat_map (row_events i) (chunks (map draw (df_day rows date))))
              days)
  = map draw (concat (map (λ d, df_day rows d.2) days)).
Proof.
  induction days as [|[i date] days IH]; [done|].
  cbn [flat_map map concat]. rewrite omap_app, IH, map_app. f_equal.
  cbn [omap list_omap card_of]. by rewrite omap_card_of_rows, concat_chunks_all.
Qed.

Lemma map_snd_enumerate {A B} (f : A → B) (l : list A) :
  map (λ d, f d.2) (enumerate l) = map f l.
Proof.
  unfold enumerate. generalize 0%nat. induction l as [|x l IH]; intros a; [done|].
  simpl. by rewrite IH.
Qed.

End CardsDrawn.

(** X19. When every row renders, the forecast completes, the first thing
    drawn is the strip of tabs with the positional titles, and the cards
    drawn are the cards of the rows, day-group by day-group: every surviving
    entry is drawn exactly once, and in a chronological feed in feed
    order. *)
Theorem display_forecast_draws_every_row (format_float : nat → float → string)
  (data : forecast_payload) (items : list forecast_item) (tz : option Z) (rows : list row)
  (draw : row → card) :
  fc_list data = Some items →
  forecast_rows items tz = Ok rows → rows ≠ [] →
  Forall (λ r, html_card format_float r = Ok (draw r)) rows →
  let run := display_forecast format_float data tz in
  let dates := unique (map FilterDate rows) in
  outcome run = Ok ()
  ∧ head (trace run) = Some (st_tabs (imap positional_label dates))
  ∧ cards_drawn run = map draw (concat (map (df_day rows) dates))
  ∧ cards_drawn run ≡ₚ map draw rows
  ∧ (chronological items → cards_drawn run = map draw rows).
Proof.
  intros Hlist Hrows Hne Hdraw run dates.
  assert (Hcards : cards_drawn run = map draw (concat (map (df_day rows) dates))).
  { subst run. rewrite (display_forecast_runs _ _ _ _ _ draw Hlist Hrows Hne Hdraw).
    unfold cards_drawn. cbn [trace omap list_omap card_of].
    by rewrite omap_card_of_days, map_snd_enumerate. }
  split; [|split; [|split; [done|split]]].
  - subst run. by rewrite (display_forecast_runs _ _ _ _ _ draw Hlist Hrows Hne Hdraw).
  - subst run. by rewrite (display_forecast_runs _ _ _ _ _ draw Hlist Hrows Hne Hdraw).
  - rewrite Hcards. apply fmap_Permutation, day_groups_permutation; [apply NoDup_unique|].
    intros r Hr. apply elem_of_unique. by apply list_elem_of_fmap_2.
  - intros Hsorted. rewrite Hcards. f_equal. apply day_groups_contiguous.
    by eapply chronological_contiguous.
Qed.

Lemma display_forecast_draws_every_row_witness :
  map card_time
    (cards_drawn (display_forecast (λ _ _, "") {| fc_list := Some nine_steps; fc_cnt := Some 9 |}
                    (Some 0)))
  = ["06:00"; "09:00"; "12:00"; "15:00"; "18:00"; "21:00"; "00:00"; "03:00"; "06:00"].
Proof.
  destruct (display_forecast_draws_every_row (λ _ _, "")
              {| fc_list := Some nine_steps; fc_cnt := Some 9 |} nine_steps (Some 0) nine_rows
              (card_or_blank (λ _ _, ""))) as (_ & _ & _ & _ & Hcards).
  - reflexivity.
  - vm_compute. reflexivity.
  - discriminate.
  - unfold nine_rows. repeat (apply Forall_cons_2; [by vm_compute|]). apply Forall_nil_2.
  - rewrite Hcards; [by vm_compute|].
    apply (bool_decide_unpack _). vm_compute. exact I.
Defined.



(** ** The current conditions, widget by widget *)

Section WeatherRuns.
Variable format_float : nat → float → string.
Variable str_num : pynum → string.






End WeatherRuns.



